(** * OCPP 1.6 charging-station simulator: incoming requests and the ATG

    A shallow embedding of
    - [OCPP16IncomingRequestService] (the request router and the handlers of
      the commands a Central System sends to a station), and
    - [AutomaticTransactionGenerator.stop],
    together with the properties the specification states about them.

    Conventions of the embedding.
    - JavaScript numbers that carry identifiers, stack levels and meter
      registers are integers ([Z]); an optional field or an [undefined]
      value is an [option].
    - The station is a record that is threaded through every handler
      (state passing); a handler either completes normally or abruptly
      (a thrown error), and the mutations made before a throw persist.
    - The connectors container is an association list kept in the order in
      which the source's loops enumerate it ([Map] insertion order in the
      request service, [for ... in] order in the ATG); lookups and updates
      go to the first entry of an id, as a [Map] with unique keys does.
    - Every request handed to the outbound adapter is appended to the
      station's [outbound] log; the answer of the Central System comes from
      an oracle, which may also fail (transport error).  What the response
      service does with an answer lies outside the embedded files and is
      not part of the model. *)

From Stdlib Require Import ZArith Bool List Ascii String Lia.
From stdpp Require Import base decidable option list strings gmap.

Set Default Proof Using "Type".

(** ** Enumerations of the protocol

    The type declarations of the repository (types/ocpp/...) are not among
    the embedded files.  The enumerations carry the members that the
    embedded code and the data model of the specification name; the
    constructors keep the names the source uses. *)

Module OCPP16ChargePointStatus.
Inductive t :=
  AVAILABLE | PREPARING | CHARGING | SUSPENDED_EVSE | SUSPENDED_EV
| FINISHING | RESERVED | UNAVAILABLE | FAULTED.
#[global] Instance OCPP16ChargePointStatus_eq_dec : EqDecision t.
Proof. solve_decision. Defined.
End OCPP16ChargePointStatus.

Module OCPP16ChargePointErrorCode.
Inductive t := NO_ERROR | OTHER_ERROR.
#[global] Instance OCPP16ChargePointErrorCode_eq_dec : EqDecision t.
Proof. solve_decision. Defined.
End OCPP16ChargePointErrorCode.

Module OCPP16AvailabilityType.
Inductive t := OPERATIVE | INOPERATIVE.
#[global] Instance OCPP16AvailabilityType_eq_dec : EqDecision t.
Proof. solve_decision. Defined.
End OCPP16AvailabilityType.

Module ChargingProfilePurposeType.
Inductive t := CHARGE_POINT_MAX_PROFILE | TX_DEFAULT_PROFILE | TX_PROFILE.
#[global] Instance ChargingProfilePurposeType_eq_dec : EqDecision t.
Proof. solve_decision. Defined.
End ChargingProfilePurposeType.

Module OCPP16AuthorizationStatus.
Inductive t := ACCEPTED | BLOCKED | EXPIRED | INVALID | CONCURRENT_TX.
#[global] Instance OCPP16AuthorizationStatus_eq_dec : EqDecision t.
Proof. solve_decision. Defined.
End OCPP16AuthorizationStatus.

Module OCPP16StopTransactionReason.
Inductive t :=
  NONE | EMERGENCY_STOP | EV_DISCONNECTED | HARD_RESET | LOCAL | OTHER
| POWER_LOSS | REBOOT | REMOTE | SOFT_RESET | UNLOCK_COMMAND | DE_AUTHORIZED.
#[global] Instance OCPP16StopTransactionReason_eq_dec : EqDecision t.
Proof. solve_decision. Defined.
End OCPP16StopTransactionReason.

Module OCPP16SupportedFeatureProfiles.
Inductive t :=
  Core | FirmwareManagement | LocalAuthListManagement | Reservation
| SmartCharging | RemoteTrigger.
#[global] Instance OCPP16SupportedFeatureProfiles_eq_dec : EqDecision t.
Proof. solve_decision. Defined.
End OCPP16SupportedFeatureProfiles.

Module MessageTrigger.
Inductive t :=
  BootNotification | DiagnosticsStatusNotification
| FirmwareStatusNotification | Heartbeat | MeterValues | StatusNotification.
#[global] Instance MessageTrigger_eq_dec : EqDecision t.
Proof. solve_decision. Defined.
End MessageTrigger.

Module ErrorType.
Inductive t :=
  NOT_IMPLEMENTED | SECURITY_ERROR | GENERIC_ERROR | FORMATION_VIOLATION
| PROPERTY_CONSTRAINT_VIOLATION | OCCURENCE_CONSTRAINT_VIOLATION
| TYPE_CONSTRAINT_VIOLATION | INTERNAL_ERROR.
#[global] Instance ErrorType_eq_dec : EqDecision t.
Proof. solve_decision. Defined.
End ErrorType.

(** Registration of the station at the Central System (spec, data model). *)
Module RegistrationState.
Inductive t := Unregistered | Pending | Registered | Unknown.
#[global] Instance RegistrationState_eq_dec : EqDecision t.
Proof. solve_decision. Defined.
End RegistrationState.

(** The names under which the constructor registers its handlers, and the
    three configuration keys with side effects. *)
Module OCPP16IncomingRequestCommand.
Definition RESET : string := "Reset".
Definition CLEAR_CACHE : string := "ClearCache".
Definition UNLOCK_CONNECTOR : string := "UnlockConnector".
Definition GET_CONFIGURATION : string := "GetConfiguration".
Definition CHANGE_CONFIGURATION : string := "ChangeConfiguration".
Definition SET_CHARGING_PROFILE : string := "SetChargingProfile".
Definition CLEAR_CHARGING_PROFILE : string := "ClearChargingProfile".
Definition CHANGE_AVAILABILITY : string := "ChangeAvailability".
Definition REMOTE_START_TRANSACTION : string := "RemoteStartTransaction".
Definition REMOTE_STOP_TRANSACTION : string := "RemoteStopTransaction".
Definition GET_DIAGNOSTICS : string := "GetDiagnostics".
Definition TRIGGER_MESSAGE : string := "TriggerMessage".
End OCPP16IncomingRequestCommand.

Module OCPP16StandardParametersKey.
Definition HeartBeatInterval : string := "HeartBeatInterval".
Definition HeartbeatInterval : string := "HeartbeatInterval".
Definition WebSocketPingInterval : string := "WebSocketPingInterval".
End OCPP16StandardParametersKey.


(** ** Data model *)

(** Modelled from the spec: a stored charging profile (the type
    [OCPP16ChargingProfile] is declared outside the embedded files).  Only
    the fields the handlers inspect are kept; they are optional because
    ClearChargingProfile overwrites a cleared profile with the empty object
    [{}]. *)
Record OCPP16ChargingProfile := {
  chargingProfileId : option Z;
  stackLevel : option Z;
  chargingProfilePurpose : option ChargingProfilePurposeType.t;
}.

Definition emptyChargingProfile : OCPP16ChargingProfile :=
  {| chargingProfileId := None; stackLevel := None;
     chargingProfilePurpose := None |}.

#[global] Instance OCPP16ChargingProfile_eq_dec : EqDecision OCPP16ChargingProfile.
Proof. solve_decision. Defined.

(** A JavaScript array: [None] is a hole (an index below the length that
    was never assigned). *)
Definition JsArray (A : Type) : Type := list (option A).

(** [arr[i] = v]: writing at or beyond the length extends the array, the
    skipped indices become holes. *)
Definition JsArray_set {A} (i : nat) (v : A) (arr : JsArray A) : JsArray A :=
  if decide (i < length arr)%nat
  then <[i := Some v]> arr
  else arr ++ replicate (i - length arr) None ++ [Some v].

(** Modelled from the spec: the connector of the data model (the type
    [ConnectorStatus] is declared outside the embedded files), with the
    fields the data model lists. *)
Record ConnectorStatus := {
  status : OCPP16ChargePointStatus.t;
  availability : OCPP16AvailabilityType.t;
  transactionStarted : bool;
  transactionId : option Z;
  transactionIdTag : option string;
  transactionEnergyActiveImportRegister : Z;
  transactionRemoteStarted : bool;
  authorizeIdTag : option string;
  localAuthorizeIdTag : option string;
  idTagLocalAuthorized : bool;
  chargingProfiles : JsArray OCPP16ChargingProfile;
}.

Definition set_status (s : OCPP16ChargePointStatus.t) (c : ConnectorStatus) :=
  {| status := s; availability := availability c;
     transactionStarted := transactionStarted c;
     transactionId := transactionId c; transactionIdTag := transactionIdTag c;
     transactionEnergyActiveImportRegister := transactionEnergyActiveImportRegister c;
     transactionRemoteStarted := transactionRemoteStarted c;
     authorizeIdTag := authorizeIdTag c;
     localAuthorizeIdTag := localAuthorizeIdTag c;
     idTagLocalAuthorized := idTagLocalAuthorized c;
     chargingProfiles := chargingProfiles c |}.

Definition set_transactionRemoteStarted (b : bool) (c : ConnectorStatus) :=
  {| status := status c; availability := availability c;
     transactionStarted := transactionStarted c;
     transactionId := transactionId c; transactionIdTag := transactionIdTag c;
     transactionEnergyActiveImportRegister := transactionEnergyActiveImportRegister c;
     transactionRemoteStarted := b;
     authorizeIdTag := authorizeIdTag c;
     localAuthorizeIdTag := localAuthorizeIdTag c;
     idTagLocalAuthorized := idTagLocalAuthorized c;
     chargingProfiles := chargingProfiles c |}.

Definition set_authorizeIdTag (t : string) (c : ConnectorStatus) :=
  {| status := status c; availability := availability c;
     transactionStarted := transactionStarted c;
     transactionId := transactionId c; transactionIdTag := transactionIdTag c;
     transactionEnergyActiveImportRegister := transactionEnergyActiveImportRegister c;
     transactionRemoteStarted := transactionRemoteStarted c;
     authorizeIdTag := Some t;
     localAuthorizeIdTag := localAuthorizeIdTag c;
     idTagLocalAuthorized := idTagLocalAuthorized c;
     chargingProfiles := chargingProfiles c |}.

(** [localAuthorizeIdTag = t; idTagLocalAuthorized = true] *)
Definition set_localAuthorized (t : string) (c : ConnectorStatus) :=
  {| status := status c; availability := availability c;
     transactionStarted := transactionStarted c;
     transactionId := transactionId c; transactionIdTag := transactionIdTag c;
     transactionEnergyActiveImportRegister := transactionEnergyActiveImportRegister c;
     transactionRemoteStarted := transactionRemoteStarted c;
     authorizeIdTag := authorizeIdTag c;
     localAuthorizeIdTag := Some t;
     idTagLocalAuthorized := true;
     chargingProfiles := chargingProfiles c |}.

Definition set_chargingProfiles (ps : JsArray OCPP16ChargingProfile)
    (c : ConnectorStatus) :=
  {| status := status c; availability := availability c;
     transactionStarted := transactionStarted c;
     transactionId := transactionId c; transactionIdTag := transactionIdTag c;
     transactionEnergyActiveImportRegister := transactionEnergyActiveImportRegister c;
     transactionRemoteStarted := transactionRemoteStarted c;
     authorizeIdTag := authorizeIdTag c;
     localAuthorizeIdTag := localAuthorizeIdTag c;
     idTagLocalAuthorized := idTagLocalAuthorized c;
     chargingProfiles := ps |}.

(** Modelled from the spec: the configuration entry of the data model
    [{ key, value, readonly, visible = true, reboot = false }].  [visible]
    is optional in the stored form (GetConfiguration fills it in with
    [true]); an absent [reboot] is falsy and is stored as [false]. *)
Record OCPPConfigurationKey := {
  key : string;
  value : string;
  readonly : bool;
  visible : option bool;
  reboot : bool;
}.

Definition set_value (v : string) (e : OCPPConfigurationKey) :=
  {| key := key e; value := v; readonly := readonly e;
     visible := visible e; reboot := reboot e |}.

Definition set_visible (b : bool) (e : OCPPConfigurationKey) :=
  {| key := key e; value := value e; readonly := readonly e;
     visible := Some b; reboot := reboot e |}.

(** ** Outbound requests and the answers of the Central System *)

(** The sample of a MeterValues message sent at the end of a transaction:
    [buildTransactionEndMeterValue] builds it from the energy register. *)
Inductive MeterValue := TransactionEnd (register : option Z).

Inductive Request :=
| STATUS_NOTIFICATION (connectorId : Z) (status : OCPP16ChargePointStatus.t)
    (errorCode : OCPP16ChargePointErrorCode.t)
| METER_VALUES (connectorId : Z) (transactionId : option Z)
    (meterValue : MeterValue)
| STOP_TRANSACTION (transactionId : option Z) (meterStop : option Z)
    (idTag : option string) (reason : option OCPP16StopTransactionReason.t)
| AUTHORIZE (idTag : string)
| START_TRANSACTION (connectorId : Z) (idTag : string)
| BOOT_NOTIFICATION
| HEARTBEAT.

(** Options of [requestHandler] (spec, outbound request adapter). *)
Record RequestOptions := {
  skipBufferingOnError : bool;
  triggerMessage : bool;
}.

Definition noOptions : RequestOptions :=
  {| skipBufferingOnError := false; triggerMessage := false |}.

(** What the handlers read of an answer: [idTagInfo?.status]. *)
Record CallResult := {
  idTagInfo : option OCPP16AuthorizationStatus.t;
}.

(** ** The station *)

(** Modelled from the spec: the switches of the station descriptor that the
    handlers read. *)
Record ChargingStationInfo := {
  ocppStrictCompliance : bool;
  beginEndMeterValues : bool;
  outOfOrderEndMeterValues : bool;
  authorizeRemoteTxRequests : bool;
  localAuthListEnabled : bool;
  mayAuthorizeAtRemoteStart : bool;
  featureProfiles : list OCPP16SupportedFeatureProfiles.t;
}.

(** Modelled from the spec: the station of the data model: registration
    state, boot-notification echo, authorized tags, connectors and
    configuration store.  Two counters stand for the periodic tasks and
    [outbound] logs what has been handed to the outbound adapter. *)
Record ChargingStation := {
  stationInfo : ChargingStationInfo;
  registration : RegistrationState.t;
  bootNotificationResponse : option CallResult;
  authorizedTags : list string;
  connectors : list (Z * ConnectorStatus);
  configurationKey : list OCPPConfigurationKey;
  heartbeatRestarts : nat;
  webSocketPingRestarts : nat;
  outbound : list (Request * RequestOptions);
}.

Definition set_connectors (cs : list (Z * ConnectorStatus)) (st : ChargingStation) :=
  {| stationInfo := stationInfo st; registration := registration st;
     bootNotificationResponse := bootNotificationResponse st;
     authorizedTags := authorizedTags st; connectors := cs;
     configurationKey := configurationKey st;
     heartbeatRestarts := heartbeatRestarts st;
     webSocketPingRestarts := webSocketPingRestarts st;
     outbound := outbound st |}.

Definition set_configurationKey (ks : list OCPPConfigurationKey) (st : ChargingStation) :=
  {| stationInfo := stationInfo st; registration := registration st;
     bootNotificationResponse := bootNotificationResponse st;
     authorizedTags := authorizedTags st; connectors := connectors st;
     configurationKey := ks;
     heartbeatRestarts := heartbeatRestarts st;
     webSocketPingRestarts := webSocketPingRestarts st;
     outbound := outbound st |}.

Definition set_outbound (o : list (Request * RequestOptions)) (st : ChargingStation) :=
  {| stationInfo := stationInfo st; registration := registration st;
     bootNotificationResponse := bootNotificationResponse st;
     authorizedTags := authorizedTags st; connectors := connectors st;
     configurationKey := configurationKey st;
     heartbeatRestarts := heartbeatRestarts st;
     webSocketPingRestarts := webSocketPingRestarts st;
     outbound := o |}.

Definition set_bootNotificationResponse (r : CallResult) (st : ChargingStation) :=
  {| stationInfo := stationInfo st; registration := registration st;
     bootNotificationResponse := Some r;
     authorizedTags := authorizedTags st; connectors := connectors st;
     configurationKey := configurationKey st;
     heartbeatRestarts := heartbeatRestarts st;
     webSocketPingRestarts := webSocketPingRestarts st;
     outbound := outbound st |}.

(** Modelled from the spec: [restartHeartbeat] of the station class (not
    among the embedded files) restarts the heartbeat timer; the model counts
    the restarts. *)
Definition restartHeartbeat (st : ChargingStation) :=
  {| stationInfo := stationInfo st; registration := registration st;
     bootNotificationResponse := bootNotificationResponse st;
     authorizedTags := authorizedTags st; connectors := connectors st;
     configurationKey := configurationKey st;
     heartbeatRestarts := S (heartbeatRestarts st);
     webSocketPingRestarts := webSocketPingRestarts st;
     outbound := outbound st |}.

(** Modelled from the spec: [restartWebSocketPing] of the station class
    restarts the WebSocket ping timer; the model counts the restarts. *)
Definition restartWebSocketPing (st : ChargingStation) :=
  {| stationInfo := stationInfo st; registration := registration st;
     bootNotificationResponse := bootNotificationResponse st;
     authorizedTags := authorizedTags st; connectors := connectors st;
     configurationKey := configurationKey st;
     heartbeatRestarts := heartbeatRestarts st;
     webSocketPingRestarts := S (webSocketPingRestarts st);
     outbound := outbound st |}.

(** *** Accessors of the station class

    The station class itself is not among the embedded files; its accessors
    are modelled from the data model and the component design of the
    specification. *)

(** Modelled from the spec: the registration predicates of the station
    test the registration state of the data model. *)
Definition isRegistered (st : ChargingStation) : bool :=
  bool_decide (registration st = RegistrationState.Registered).

(** Modelled from the spec: the station is in Pending registration. *)
Definition isInPendingState (st : ChargingStation) : bool :=
  bool_decide (registration st = RegistrationState.Pending).

(** Modelled from the spec: the registration of the station is Unknown. *)
Definition isInUnknownState (st : ChargingStation) : bool :=
  bool_decide (registration st = RegistrationState.Unknown).

(** Modelled from the spec: the getters of the switches that the station
    descriptor supplies (ocppStrictCompliance, beginEndMeterValues,
    outOfOrderEndMeterValues, authorizeRemoteTxRequests,
    localAuthListEnabled, mayAuthorizeAtRemoteStart) and of the presence of
    authorized tags. *)
Definition getOcppStrictCompliance (st : ChargingStation) : bool :=
  ocppStrictCompliance (stationInfo st).
Definition getBeginEndMeterValues (st : ChargingStation) : bool :=
  beginEndMeterValues (stationInfo st).
Definition getOutOfOrderEndMeterValues (st : ChargingStation) : bool :=
  outOfOrderEndMeterValues (stationInfo st).
Definition getAuthorizeRemoteTxRequests (st : ChargingStation) : bool :=
  authorizeRemoteTxRequests (stationInfo st).
Definition getLocalAuthListEnabled (st : ChargingStation) : bool :=
  localAuthListEnabled (stationInfo st).
Definition getMayAuthorizeAtRemoteStart (st : ChargingStation) : bool :=
  mayAuthorizeAtRemoteStart (stationInfo st).
Definition hasAuthorizedTags (st : ChargingStation) : bool :=
  negb (bool_decide (authorizedTags st = [])).

(** Modelled from the spec: [OCPP16ServiceUtils.checkFeatureProfile] tells
    whether a feature profile is enabled for the station. *)
Definition checkFeatureProfile (st : ChargingStation)
    (p : OCPP16SupportedFeatureProfiles.t) : bool :=
  bool_decide (p ∈ featureProfiles (stationInfo st)).

(** [Map.get] and an in-place update of the object stored under a key. *)
Fixpoint Map_get {V} (id : Z) (m : list (Z * V)) : option V :=
  match m with
  | [] => None
  | (k, v) :: m' => if decide (k = id) then Some v else Map_get id m'
  end.

Fixpoint Map_update {V} (id : Z) (f : V -> V) (m : list (Z * V)) : list (Z * V) :=
  match m with
  | [] => []
  | (k, v) :: m' =>
      if decide (k = id) then (k, f v) :: m' else (k, v) :: Map_update id f m'
  end.

Definition Map_keys {V} (m : list (Z * V)) : list Z := map fst m.

(** Modelled from the spec: [lookup(id)] of the connector state.  An absent
    id ([undefined]) is the key of no connector. *)
Definition getConnectorStatus (id : option Z) (st : ChargingStation)
    : option ConnectorStatus :=
  match id with
  | Some i => Map_get i (connectors st)
  | None => None
  end.

(** Modelled from the spec: [transactionConnectorId(transactionId)], the
    connector (id > 0) whose transactionId matches, in enumeration order. *)
Definition getConnectorIdByTransactionId (tid : option Z)
    (st : ChargingStation) : option Z :=
  find (fun id =>
          bool_decide (0 < id)%Z &&
          bool_decide ((getConnectorStatus (Some id) st ≫= transactionId) = tid))
       (Map_keys (connectors st)).

(** Modelled from the spec: [energyRegisterFor(transactionId)]. *)
Definition getEnergyActiveImportRegisterByTransactionId
    (tid : option Z) (st : ChargingStation) : option Z :=
  c ← getConnectorStatus (getConnectorIdByTransactionId tid st) st;
  Some (transactionEnergyActiveImportRegister c).

(** Modelled from the spec: [idTagFor(transactionId)]. *)
Definition getTransactionIdTag (tid : option Z)
    (st : ChargingStation) : option string :=
  c ← getConnectorStatus (getConnectorIdByTransactionId tid st) st;
  transactionIdTag c.

(** Modelled from the spec: the station is available when the station-level
    pseudo-connector 0 is Operative. *)
Definition isChargingStationAvailable (st : ChargingStation) : bool :=
  match getConnectorStatus (Some 0%Z) st with
  | Some c => bool_decide (availability c = OCPP16AvailabilityType.OPERATIVE)
  | None => false
  end.

(** *** The configuration store *)

(** [String.prototype.toLowerCase] on the ASCII letters. *)
Definition toLowerCaseAscii (c : ascii) : ascii :=
  let n := nat_of_ascii c in
  if (65 <=? n)%nat && (n <=? 90)%nat then ascii_of_nat (n + 32) else c.

Fixpoint toLowerCase (s : string) : string :=
  match s with
  | EmptyString => EmptyString
  | String c s' => String (toLowerCaseAscii c) (toLowerCase s')
  end.

(** The test by which an entry answers to a requested key. *)
Definition keyMatches (k : string) (caseInsensitive : bool)
    (configElement : OCPPConfigurationKey) : bool :=
  if caseInsensitive
  then bool_decide (toLowerCase (key configElement) = toLowerCase k)
  else bool_decide (key configElement = k).

(** Modelled from the spec: [get(key)] of the configuration store, the first
    stored entry that answers to the key.  ChangeConfiguration calls it as
    [getConfigurationKey(key, true)] and writes with
    [setConfigurationKeyValue(key, value, true)], while GetConfiguration
    calls [getConfigurationKey(key)]; the spec names the third parameter
    of [set] [caseInsensitive] (default false), and the second argument of
    the lookup is read as the same flag. *)
Definition getConfigurationKey (k : string) (caseInsensitive : bool)
    (st : ChargingStation) : option OCPPConfigurationKey :=
  find (keyMatches k caseInsensitive) (configurationKey st).

(** The stored entries with the first one answering to the key rewritten. *)
Fixpoint updateFirst (p : OCPPConfigurationKey -> bool)
    (f : OCPPConfigurationKey -> OCPPConfigurationKey)
    (l : list OCPPConfigurationKey) : list OCPPConfigurationKey :=
  match l with
  | [] => []
  | e :: l' => if p e then f e :: l' else e :: updateFirst p f l'
  end.

(** Modelled from the spec: [set(key, value, caseInsensitive = false)] of
    the configuration store: rejects if the entry is read-only, otherwise
    updates its value.  An unknown key changes nothing. *)
Definition setConfigurationKeyValue (k v : string) (caseInsensitive : bool)
    (st : ChargingStation) : ChargingStation :=
  match getConfigurationKey k caseInsensitive st with
  | Some keyFound =>
      if readonly keyFound then st
      else set_configurationKey
             (updateFirst (keyMatches k caseInsensitive) (set_value v)
                (configurationKey st)) st
  | None => st
  end.

(** ** Handlers as state transformers *)

Inductive Thrown :=
| OCPPError (errorType : ErrorType.t)
| TypeError          (* a property read or written on [undefined] *)
| RequestError.      (* the outbound adapter failed to deliver a request *)

Inductive Completion (A : Type) :=
| Normal (a : A)
| Abrupt (e : Thrown).
Arguments Normal {A} a.
Arguments Abrupt {A} e.

Definition M (A : Type) : Type := ChargingStation -> Completion A * ChargingStation.

Definition ret {A} (a : A) : M A := fun st => (Normal a, st).

Definition throw {A} (e : Thrown) : M A := fun st => (Abrupt e, st).

Definition bind {A B} (m : M A) (k : A -> M B) : M B :=
  fun st =>
    match m st with
    | (Normal a, st') => k a st'
    | (Abrupt e, st') => (Abrupt e, st')
    end.

#[global] Instance M_ret : MRet M := @ret.
#[global] Instance M_bind : MBind M := fun A B k m => bind m k.

Definition gets {A} (f : ChargingStation -> A) : M A := fun st => (Normal (f st), st).

Definition modify (f : ChargingStation -> ChargingStation) : M unit :=
  fun st => (Normal tt, f st).

Definition when (b : bool) (m : M unit) : M unit := if b then m else ret tt.

(** [for (const x of l) body(x)] *)
Fixpoint forEach {A} (l : list A) (body : A -> M unit) : M unit :=
  match l with
  | [] => ret tt
  | x :: l' => body x;; forEach l' body
  end.

(** [getConnectorStatus(id).field = ...]: a TypeError when the connector
    does not exist. *)
Definition updateConnectorStatus (id : Z) (f : ConnectorStatus -> ConnectorStatus)
    : M unit :=
  fun st =>
    match getConnectorStatus (Some id) st with
    | Some _ => (Normal tt, set_connectors (Map_update id f (connectors st)) st)
    | None => (Abrupt TypeError, st)
    end.

(** The Central System: given the requests sent so far and the request at
    hand, its answer, or [None] when the request cannot be delivered. *)
Definition CentralSystem : Type :=
  list (Request * RequestOptions) -> Request -> option CallResult.

(** Modelled from the spec: the response constants of [Constants] (not
    among the embedded files), under the names the handlers use; the
    component design gives the status each one carries. *)
Inductive DefaultResponse :=
| OCPP_RESPONSE_ACCEPTED
| OCPP_RESPONSE_REJECTED.

Inductive UnlockConnectorResponse :=
| OCPP_RESPONSE_UNLOCKED
| OCPP_RESPONSE_UNLOCK_FAILED
| OCPP_RESPONSE_UNLOCK_NOT_SUPPORTED.

Inductive ChangeConfigurationResponse :=
| OCPP_CONFIGURATION_RESPONSE_ACCEPTED
| OCPP_CONFIGURATION_RESPONSE_REJECTED
| OCPP_CONFIGURATION_RESPONSE_REBOOT_REQUIRED
| OCPP_CONFIGURATION_RESPONSE_NOT_SUPPORTED.

Inductive ClearChargingProfileResponse :=
| OCPP_CLEAR_CHARGING_PROFILE_RESPONSE_ACCEPTED
| OCPP_CLEAR_CHARGING_PROFILE_RESPONSE_UNKNOWN.

Inductive OCPP16TriggerMessageResponse :=
| OCPP_TRIGGER_MESSAGE_RESPONSE_ACCEPTED
| OCPP_TRIGGER_MESSAGE_RESPONSE_REJECTED
| OCPP_TRIGGER_MESSAGE_RESPONSE_NOT_IMPLEMENTED.

(** An entry as GetConfiguration reports it: [{ key, readonly, value }]. *)
Record ReportedKey := {
  reported_key : string;
  reported_readonly : bool;
  reported_value : string;
}.

Definition report (e : OCPPConfigurationKey) : ReportedKey :=
  {| reported_key := key e; reported_readonly := readonly e;
     reported_value := value e |}.

Record GetConfigurationResponse := {
  response_configurationKey : list ReportedKey;
  response_unknownKey : list string;
}.

(** Modelled from the spec: [Utils.isEmptyArray], true of an absent or empty
    array. *)
Definition isEmptyArray {A} (o : option (list A)) : bool :=
  match o with
  | Some (_ :: _) => false
  | _ => true
  end.

(** JavaScript truthiness of a number: [0] is falsy. *)
Definition truthy (n : Z) : bool := negb (bool_decide (n = 0%Z)).

Section Handlers.

Variable centralSystem : CentralSystem.

(** Modelled from the spec: [sendRequest(command, payload, options?)] of the
    outbound request adapter blocks until the paired answer or the
    transport's error.  The request is logged as sent in both cases.

    This is the request side only.  What the station does with an answer
    on the response side (the transaction created when a StartTransaction
    is accepted, the transaction destroyed and its transient fields reset
    at StopTransaction) belongs to the response service, which is not
    among the embedded files and has no counterpart here: after an
    answered request the connectors of the model are as the handler left
    them.  The properties below are about what a handler sends, answers
    and writes itself. *)
Definition requestHandler (r : Request) (o : RequestOptions) : M CallResult :=
  fun st =>
    let st' := set_outbound (outbound st ++ [(r, o)]) st in
    match centralSystem (outbound st) r with
    | Some answer => (Normal answer, st')
    | None => (Abrupt RequestError, st')
    end.

(** *** ClearCache *)

Definition handleRequestClearCache : M DefaultResponse :=
  mret OCPP_RESPONSE_ACCEPTED.

(** *** UnlockConnector *)

Definition handleRequestUnlockConnector (connectorId : Z)
    : M UnlockConnectorResponse :=
  if decide (connectorId = 0%Z) then mret OCPP_RESPONSE_UNLOCK_NOT_SUPPORTED
  else
    started ← gets (fun st =>
      default false (transactionStarted <$> getConnectorStatus (Some connectorId) st));
    if started : bool then
      tid ← gets (fun st => getConnectorStatus (Some connectorId) st ≫= transactionId);
      endMeterValue ← gets (fun st =>
        getBeginEndMeterValues st && getOcppStrictCompliance st
        && negb (getOutOfOrderEndMeterValues st));
      when endMeterValue
        (register ← gets (getEnergyActiveImportRegisterByTransactionId tid);
         requestHandler (METER_VALUES connectorId tid (TransactionEnd register))
           noOptions;;
         mret tt);;
      meterStop ← gets (getEnergyActiveImportRegisterByTransactionId tid);
      idTag ← gets (getTransactionIdTag tid);
      stopResponse ← requestHandler
        (STOP_TRANSACTION tid meterStop idTag
           (Some OCPP16StopTransactionReason.UNLOCK_COMMAND)) noOptions;
      if decide (idTagInfo stopResponse = Some OCPP16AuthorizationStatus.ACCEPTED)
      then mret OCPP_RESPONSE_UNLOCKED
      else mret OCPP_RESPONSE_UNLOCK_FAILED
    else
      requestHandler
        (STATUS_NOTIFICATION connectorId OCPP16ChargePointStatus.AVAILABLE
           OCPP16ChargePointErrorCode.NO_ERROR) noOptions;;
      updateConnectorStatus connectorId (set_status OCPP16ChargePointStatus.AVAILABLE);;
      mret OCPP_RESPONSE_UNLOCKED.

(** *** GetConfiguration *)

(** The loop over all stored entries: an undefined [visible] is set to
    true, invisible entries are skipped. *)
Fixpoint reportAll (l : list OCPPConfigurationKey)
    : list OCPPConfigurationKey * list ReportedKey :=
  match l with
  | [] => ([], [])
  | configuration :: l' =>
      let configuration :=
        match visible configuration with
        | None => set_visible true configuration
        | Some _ => configuration
        end in
      let '(stored, reported) := reportAll l' in
      if decide (visible configuration = Some false)
      then (configuration :: stored, reported)
      else (configuration :: stored, report configuration :: reported)
  end.

(** The loop over the requested keys. *)
Fixpoint reportKeys (keys : list string) : M (list ReportedKey * list string) :=
  match keys with
  | [] => mret ([], [])
  | k :: keys' =>
      keyFound ← gets (getConfigurationKey k false);
      match keyFound with
      | Some e =>
          when (bool_decide (visible e = None))
            (modify (fun st =>
               set_configurationKey
                 (updateFirst (keyMatches k false) (set_visible true)
                    (configurationKey st)) st));;
          '(reported, unknown) ← reportKeys keys';
          if decide (visible e = Some false)
          then mret (reported, unknown)
          else mret (report e :: reported, unknown)
      | None =>
          '(reported, unknown) ← reportKeys keys';
          mret (reported, k :: unknown)
      end
  end.

Definition handleRequestGetConfiguration (keys : option (list string))
    : M GetConfigurationResponse :=
  if isEmptyArray keys then
    stored ← gets configurationKey;
    let '(stored', reported) := reportAll stored in
    modify (set_configurationKey stored');;
    mret {| response_configurationKey := reported; response_unknownKey := [] |}
  else
    '(reported, unknown) ← reportKeys (default [] keys);
    mret {| response_configurationKey := reported; response_unknownKey := unknown |}.

(** *** ChangeConfiguration *)

Definition handleRequestChangeConfiguration (k v : string)
    : M ChangeConfigurationResponse :=
  keyToChange ← gets (getConfigurationKey k true);
  match keyToChange with
  | None => mret OCPP_CONFIGURATION_RESPONSE_NOT_SUPPORTED
  | Some keyToChange =>
      if readonly keyToChange then mret OCPP_CONFIGURATION_RESPONSE_REJECTED
      else
        let valueChanged := negb (bool_decide (value keyToChange = v)) in
        when valueChanged (modify (setConfigurationKeyValue k v true));;
        let aliasHeartBeat :=
          bool_decide (key keyToChange = OCPP16StandardParametersKey.HeartBeatInterval)
          && valueChanged in
        when aliasHeartBeat
          (modify (setConfigurationKeyValue
                     OCPP16StandardParametersKey.HeartbeatInterval v false));;
        let aliasHeartbeat :=
          bool_decide (key keyToChange = OCPP16StandardParametersKey.HeartbeatInterval)
          && valueChanged in
        when aliasHeartbeat
          (modify (setConfigurationKeyValue
                     OCPP16StandardParametersKey.HeartBeatInterval v false));;
        let triggerHeartbeatRestart := aliasHeartBeat || aliasHeartbeat in
        when triggerHeartbeatRestart (modify restartHeartbeat);;
        when (bool_decide (key keyToChange = OCPP16StandardParametersKey.WebSocketPingInterval)
              && valueChanged)
          (modify restartWebSocketPing);;
        if reboot keyToChange
        then mret OCPP_CONFIGURATION_RESPONSE_REBOOT_REQUIRED
        else mret OCPP_CONFIGURATION_RESPONSE_ACCEPTED
  end.

(** *** ClearChargingProfile *)

Record ClearChargingProfileRequest := {
  clear_id : option Z;
  clear_connectorId : option Z;
  clear_chargingProfilePurpose : option ChargingProfilePurposeType.t;
  clear_stackLevel : option Z;
}.

(** Truthiness of an optional number: [undefined] and [0] are falsy. *)
Definition truthyOpt (n : option Z) : bool :=
  match n with
  | Some n => truthy n
  | None => false
  end.

(** The four tests of the [forEach] callback that set [clearCurrentCP]. *)
Definition clearCurrentCP (commandPayload : ClearChargingProfileRequest)
    (chargingProfile : OCPP16ChargingProfile) : bool :=
  bool_decide (chargingProfileId chargingProfile = clear_id commandPayload)
  || (bool_decide (clear_chargingProfilePurpose commandPayload = None)
      && bool_decide (stackLevel chargingProfile = clear_stackLevel commandPayload))
  || (negb (truthyOpt (stackLevel chargingProfile))
      && bool_decide (chargingProfilePurpose chargingProfile
                      = clear_chargingProfilePurpose commandPayload))
  || (bool_decide (stackLevel chargingProfile = clear_stackLevel commandPayload)
      && bool_decide (chargingProfilePurpose chargingProfile
                      = clear_chargingProfilePurpose commandPayload)).

(** A loop that carries a local variable. *)
Fixpoint foldM {A B} (f : B -> A -> M B) (b : B) (l : list A) : M B :=
  match l with
  | [] => mret b
  | x :: l' => b' ← f b x; foldM f b' l'
  end.

(** A write through the alias [connectorStatus], the object that
    [getConnectorStatus(commandPayload.connectorId)] returned. *)
Definition updateAlias (connectorId : option Z)
    (f : ConnectorStatus -> ConnectorStatus) : M unit :=
  match connectorId with
  | Some target => updateConnectorStatus target f
  | None => throw TypeError
  end.

Definition handleRequestClearChargingProfile
    (commandPayload : ClearChargingProfileRequest)
    : M ClearChargingProfileResponse :=
  smartCharging ← gets (fun st =>
    checkFeatureProfile st OCPP16SupportedFeatureProfiles.SmartCharging);
  if negb smartCharging then mret OCPP_CLEAR_CHARGING_PROFILE_RESPONSE_UNKNOWN
  else
    connectorStatus ← gets (getConnectorStatus (clear_connectorId commandPayload));
    match connectorStatus with
    | None => mret OCPP_CLEAR_CHARGING_PROFILE_RESPONSE_UNKNOWN
    | Some connectorStatus =>
        if truthyOpt (clear_connectorId commandPayload)
           && negb (isEmptyArray (Some (chargingProfiles connectorStatus)))
        then
          updateAlias (clear_connectorId commandPayload) (set_chargingProfiles []);;
          mret OCPP_CLEAR_CHARGING_PROFILE_RESPONSE_ACCEPTED
        else if negb (truthyOpt (clear_connectorId commandPayload)) then
          ids ← gets (fun st => Map_keys (connectors st));
          clearedCP ← foldM (fun clearedCP connectorId =>
            profiles ← gets (fun st =>
              chargingProfiles <$> getConnectorStatus (Some connectorId) st);
            if isEmptyArray profiles then mret clearedCP
            else
              foldM (fun clearedCP index =>
                slot ← gets (fun st =>
                  c ← getConnectorStatus (Some connectorId) st;
                  mjoin (chargingProfiles c !! index));
                match slot with
                | None => mret clearedCP
                | Some chargingProfile =>
                    if clearCurrentCP commandPayload chargingProfile then
                      updateAlias (clear_connectorId commandPayload)
                        (fun c => set_chargingProfiles
                           (JsArray_set index emptyChargingProfile
                              (chargingProfiles c)) c);;
                      mret true
                    else mret clearedCP
                end)
              clearedCP (seq 0 (length (default [] profiles))))
            false ids;
          if clearedCP : bool
          then mret OCPP_CLEAR_CHARGING_PROFILE_RESPONSE_ACCEPTED
          else mret OCPP_CLEAR_CHARGING_PROFILE_RESPONSE_UNKNOWN
        else mret OCPP_CLEAR_CHARGING_PROFILE_RESPONSE_UNKNOWN
    end.

(** *** RemoteStartTransaction *)

Record RemoteStartTransactionRequest := {
  remoteStart_connectorId : Z;
  remoteStart_idTag : string;
  remoteStart_chargingProfile : option OCPP16ChargingProfile;
}.

(** Whether a stored profile gives way to [cp]: same chargingProfileId, or
    same (purpose, stackLevel). *)
Definition replaces (cp chargingProfile : OCPP16ChargingProfile) : bool :=
  bool_decide (chargingProfileId chargingProfile = chargingProfileId cp)
  || (bool_decide (stackLevel chargingProfile = stackLevel cp)
      && bool_decide (chargingProfilePurpose chargingProfile
                      = chargingProfilePurpose cp)).

Definition pushChargingProfile (cp : OCPP16ChargingProfile)
    (stack : JsArray OCPP16ChargingProfile) : JsArray OCPP16ChargingProfile :=
  if existsb (fun slot => from_option (replaces cp) false slot) stack
  then map (fun slot =>
              match slot with
              | Some chargingProfile =>
                  if replaces cp chargingProfile then Some cp else Some chargingProfile
              | None => None
              end) stack
  else stack ++ [Some cp].

(** Modelled from the spec: [setChargingProfile] of the station pushes the
    profile onto the connector's stack, replacing any entry with the same
    chargingProfileId or the same (purpose, stackLevel). *)
Definition setChargingProfile (connectorId : Z) (cp : OCPP16ChargingProfile)
    : M unit :=
  updateConnectorStatus connectorId
    (fun c => set_chargingProfiles (pushChargingProfile cp (chargingProfiles c)) c).

Definition notifyRemoteStartTransactionRejected (connectorId : Z) (idTag : string)
    : M DefaultResponse :=
  c ← gets (getConnectorStatus (Some connectorId));
  match c with
  | None => throw TypeError
  | Some c =>
      when (negb (bool_decide (status c = OCPP16ChargePointStatus.AVAILABLE)))
        (requestHandler
           (STATUS_NOTIFICATION connectorId OCPP16ChargePointStatus.AVAILABLE
              OCPP16ChargePointErrorCode.NO_ERROR) noOptions;;
         updateConnectorStatus connectorId
           (set_status OCPP16ChargePointStatus.AVAILABLE));;
      mret OCPP_RESPONSE_REJECTED
  end.

Definition setRemoteStartTransactionChargingProfile (connectorId : Z)
    (cp : option OCPP16ChargingProfile) : M bool :=
  match cp with
  | Some cp =>
      if decide (chargingProfilePurpose cp = Some ChargingProfilePurposeType.TX_PROFILE)
      then setChargingProfile connectorId cp;; mret true
      else mret false
  | None => mret true
  end.

(** The block "start transaction", which the source writes out twice: after
    a successful authorization and when none is required. *)
Definition remoteStart (commandPayload : RemoteStartTransactionRequest)
    : M DefaultResponse :=
  let transactionConnectorId := remoteStart_connectorId commandPayload in
  installed ← setRemoteStartTransactionChargingProfile transactionConnectorId
    (remoteStart_chargingProfile commandPayload);
  if installed : bool then
    updateConnectorStatus transactionConnectorId (set_transactionRemoteStarted true);;
    startResponse ← requestHandler
      (START_TRANSACTION transactionConnectorId (remoteStart_idTag commandPayload))
      noOptions;
    match idTagInfo startResponse with
    | None => throw TypeError
    | Some s =>
        if decide (s = OCPP16AuthorizationStatus.ACCEPTED)
        then mret OCPP_RESPONSE_ACCEPTED
        else notifyRemoteStartTransactionRejected transactionConnectorId
               (remoteStart_idTag commandPayload)
    end
  else notifyRemoteStartTransactionRejected transactionConnectorId
         (remoteStart_idTag commandPayload).

Definition handleRequestRemoteStartTransaction
    (commandPayload : RemoteStartTransactionRequest) : M DefaultResponse :=
  let transactionConnectorId := remoteStart_connectorId commandPayload in
  let idTag := remoteStart_idTag commandPayload in
  connectorStatus ← gets (getConnectorStatus (Some transactionConnectorId));
  if truthy transactionConnectorId then
    requestHandler
      (STATUS_NOTIFICATION transactionConnectorId OCPP16ChargePointStatus.PREPARING
         OCPP16ChargePointErrorCode.NO_ERROR) noOptions;;
    updateConnectorStatus transactionConnectorId
      (set_status OCPP16ChargePointStatus.PREPARING);;
    available ← gets isChargingStationAvailable;
    if available && bool_decide (is_Some connectorStatus) then
      authorizeRemoteTx ← gets getAuthorizeRemoteTxRequests;
      if authorizeRemoteTx : bool then
        locallyListed ← gets (fun st =>
          getLocalAuthListEnabled st && hasAuthorizedTags st
          && bool_decide (idTag ∈ authorizedTags st)
          && negb (bool_decide (idTag = EmptyString)));
        mayAuthorize ← gets getMayAuthorizeAtRemoteStart;
        authorized ←
          (if locallyListed : bool then
             updateConnectorStatus transactionConnectorId (set_localAuthorized idTag);;
             mret true
           else if mayAuthorize : bool then
             updateConnectorStatus transactionConnectorId (set_authorizeIdTag idTag);;
             authorizeResponse ← requestHandler (AUTHORIZE idTag) noOptions;
             mret (bool_decide (idTagInfo authorizeResponse
                                = Some OCPP16AuthorizationStatus.ACCEPTED))
           else mret false);
        if authorized : bool then remoteStart commandPayload
        else notifyRemoteStartTransactionRejected transactionConnectorId idTag
      else remoteStart commandPayload
    else notifyRemoteStartTransactionRejected transactionConnectorId idTag
  else notifyRemoteStartTransactionRejected transactionConnectorId idTag.

(** *** RemoteStopTransaction *)

Definition handleRequestRemoteStopTransaction (tid : Z) : M DefaultResponse :=
  found ← gets (fun st =>
    find (fun connectorId =>
            bool_decide (0 < connectorId)%Z
            && bool_decide ((getConnectorStatus (Some connectorId) st ≫= transactionId)
                            = Some tid))
         (Map_keys (connectors st)));
  match found with
  | Some connectorId =>
      requestHandler
        (STATUS_NOTIFICATION connectorId OCPP16ChargePointStatus.FINISHING
           OCPP16ChargePointErrorCode.NO_ERROR) noOptions;;
      updateConnectorStatus connectorId
        (set_status OCPP16ChargePointStatus.FINISHING);;
      endMeterValue ← gets (fun st =>
        getBeginEndMeterValues st && getOcppStrictCompliance st
        && negb (getOutOfOrderEndMeterValues st));
      when endMeterValue
        (register ← gets (getEnergyActiveImportRegisterByTransactionId (Some tid));
         requestHandler
           (METER_VALUES connectorId (Some tid) (TransactionEnd register)) noOptions;;
         mret tt);;
      meterStop ← gets (getEnergyActiveImportRegisterByTransactionId (Some tid));
      idTag ← gets (getTransactionIdTag (Some tid));
      requestHandler (STOP_TRANSACTION (Some tid) meterStop idTag None) noOptions;;
      mret OCPP_RESPONSE_ACCEPTED
  | None => mret OCPP_RESPONSE_REJECTED
  end.

(** *** TriggerMessage *)

Record OCPP16TriggerMessageRequest := {
  requestedMessage : MessageTrigger.t;
  trigger_connectorId : option Z;
}.

(** [promise.catch(() => {})]: a failure of the request is swallowed. *)
Definition catch {A} (m : M A) : M unit :=
  fun st =>
    match m st with
    | (_, st') => (Normal tt, st')
    end.

Definition triggerOptions : RequestOptions :=
  {| skipBufferingOnError := false; triggerMessage := true |}.

(** The callbacks handed to [setTimeout].  A callback runs after the
    handler has answered, on the station as it is at that time. *)
Definition triggerBootNotification : M unit :=
  catch (value ← requestHandler BOOT_NOTIFICATION
                   {| skipBufferingOnError := true; triggerMessage := true |};
         modify (set_bootNotificationResponse value)).

Definition triggerHeartbeat : M unit :=
  catch (requestHandler HEARTBEAT triggerOptions).

Definition triggerStatusNotification (connectorId : Z) : M unit :=
  c ← gets (getConnectorStatus (Some connectorId));
  match c with
  | None => throw TypeError
  | Some c =>
      catch (requestHandler
               (STATUS_NOTIFICATION connectorId (status c)
                  OCPP16ChargePointErrorCode.NO_ERROR) triggerOptions)
  end.

Definition triggerStatusNotifications (commandPayload : OCPP16TriggerMessageRequest)
    : M unit :=
  match trigger_connectorId commandPayload with
  | Some connectorId =>
      if truthy connectorId then triggerStatusNotification connectorId
      else
        ids ← gets (fun st => Map_keys (connectors st));
        forEach ids triggerStatusNotification
  | None =>
      ids ← gets (fun st => Map_keys (connectors st));
      forEach ids triggerStatusNotification
  end.

(** The handler answers at once; the second component is the callback it
    has scheduled with [setTimeout], if any.  Nothing in the [switch] throws
    before the answer is returned, so the [catch] clause around it is never
    entered. *)
Definition handleRequestTriggerMessage (commandPayload : OCPP16TriggerMessageRequest)
    : M (OCPP16TriggerMessageResponse * option (M unit)) :=
  remoteTrigger ← gets (fun st =>
    checkFeatureProfile st OCPP16SupportedFeatureProfiles.RemoteTrigger);
  if negb remoteTrigger
  then mret (OCPP_TRIGGER_MESSAGE_RESPONSE_NOT_IMPLEMENTED, None)
  else if from_option (fun connectorId => bool_decide (connectorId < 0)%Z) false
            (trigger_connectorId commandPayload)
  then mret (OCPP_TRIGGER_MESSAGE_RESPONSE_REJECTED, None)
  else
    match requestedMessage commandPayload with
    | MessageTrigger.BootNotification =>
        mret (OCPP_TRIGGER_MESSAGE_RESPONSE_ACCEPTED, Some triggerBootNotification)
    | MessageTrigger.Heartbeat =>
        mret (OCPP_TRIGGER_MESSAGE_RESPONSE_ACCEPTED, Some triggerHeartbeat)
    | MessageTrigger.StatusNotification =>
        mret (OCPP_TRIGGER_MESSAGE_RESPONSE_ACCEPTED,
              Some (triggerStatusNotifications commandPayload))
    | _ => mret (OCPP_TRIGGER_MESSAGE_RESPONSE_NOT_IMPLEMENTED, None)
    end.

(** *** The router *)

Section Router.

Context {Payload Response : Type}.

(** The table the constructor fills: command name to handler. *)
Variable incomingRequestHandlers : gmap string (Payload -> M Response).

(** The CALLRESULT frame that [sendResponse] emits. *)
Record CallResultFrame := {
  frame_messageId : string;
  frame_payload : Response;
  frame_commandName : string;
}.

(** Modelled from the spec: [sendResponse(messageId, payload, command)] of
    the outbound adapter emits a CALLRESULT frame; the router's result is
    that frame. *)
Definition sendResponse (messageId : string) (response : Response)
    (commandName : string) : M CallResultFrame :=
  mret {| frame_messageId := messageId; frame_payload := response;
          frame_commandName := commandName |}.

Definition incomingRequestHandler (messageId commandName : string)
    (commandPayload : Payload) : M CallResultFrame :=
  strict ← gets getOcppStrictCompliance;
  pending ← gets isInPendingState;
  if strict && pending
     && (bool_decide (commandName = OCPP16IncomingRequestCommand.REMOTE_START_TRANSACTION)
         || bool_decide (commandName = OCPP16IncomingRequestCommand.REMOTE_STOP_TRANSACTION))
  then throw (OCPPError ErrorType.SECURITY_ERROR)
  else
    registered ← gets isRegistered;
    unknown ← gets isInUnknownState;
    if registered || (negb strict && unknown) then
      match incomingRequestHandlers !! commandName with
      | Some handler =>
          response ← handler commandPayload;
          sendResponse messageId response commandName
      | None => throw (OCPPError ErrorType.NOT_IMPLEMENTED)
      end
    else throw (OCPPError ErrorType.SECURITY_ERROR).

End Router.

End Handlers.

(** ** The automatic transaction generator *)

Module ATG.

Record AutomaticTransactionGenerator := {
  timeToStop : bool;
  chargingStation : ChargingStation;
}.

(** Modelled from the spec: [getConnector], the [lookup(id)] of the
    connector state as the ATG calls it. *)
Definition getConnector (connector : Z) (st : ChargingStation)
    : option ConnectorStatus :=
  getConnectorStatus (Some connector) st.

Section Stop.

Variable centralSystem : CentralSystem.

(** Modelled from the spec: [sendStopTransaction], a helper derived from
    [sendRequest], sends StopTransaction(transactionId, register, idTag,
    reason). *)
Definition sendStopTransaction (tid : option Z) (meterStop : option Z)
    (idTag : option string) (reason : OCPP16StopTransactionReason.t)
    : M CallResult :=
  requestHandler centralSystem (STOP_TRANSACTION tid meterStop idTag (Some reason))
    noOptions.

(** The body of the loop of [stop].  [transactionId.toString()] in the log
    line throws when a started connector carries no transactionId. *)
Definition stopOnConnector (reason : OCPP16StopTransactionReason.t)
    (connector : Z) : M unit :=
  c ← gets (getConnector connector);
  match c with
  | None => throw TypeError
  | Some c =>
      let tid := transactionId c in
      if transactionStarted c then
        match tid with
        | None => throw TypeError
        | Some _ =>
            meterStop ← gets (getEnergyActiveImportRegisterByTransactionId tid);
            idTag ← gets (getTransactionIdTag tid);
            sendStopTransaction tid meterStop idTag reason;;
            mret tt
        end
      else mret tt
  end.

(** [stop(reason)]; the caller that omits the reason gets
    [StopTransactionReason.NONE]. *)
Definition stop (reason : OCPP16StopTransactionReason.t)
    (atg : AutomaticTransactionGenerator)
    : Completion unit * AutomaticTransactionGenerator :=
  let st := chargingStation atg in
  match forEach (Map_keys (connectors st)) (stopOnConnector reason) st with
  | (Normal _, st') => (Normal tt, {| timeToStop := true; chargingStation := st' |})
  | (Abrupt e, st') =>
      (Abrupt e, {| timeToStop := timeToStop atg; chargingStation := st' |})
  end.

End Stop.

End ATG.

(** ** Further handlers of the request service *)

(** Modelled from the spec: the response constants of SetChargingProfile and
    ChangeAvailability in [Constants] (not among the embedded files). *)
Inductive SetChargingProfileResponse :=
| OCPP_SET_CHARGING_PROFILE_RESPONSE_ACCEPTED
| OCPP_SET_CHARGING_PROFILE_RESPONSE_REJECTED
| OCPP_SET_CHARGING_PROFILE_RESPONSE_NOT_SUPPORTED.

Inductive ChangeAvailabilityResponse :=
| OCPP_AVAILABILITY_RESPONSE_ACCEPTED
| OCPP_AVAILABILITY_RESPONSE_REJECTED
| OCPP_AVAILABILITY_RESPONSE_SCHEDULED.

#[global] Instance ChangeAvailabilityResponse_eq_dec :
  EqDecision ChangeAvailabilityResponse.
Proof. solve_decision. Defined.

Definition set_availability (a : OCPP16AvailabilityType.t) (c : ConnectorStatus) :=
  {| status := status c; availability := a;
     transactionStarted := transactionStarted c;
     transactionId := transactionId c; transactionIdTag := transactionIdTag c;
     transactionEnergyActiveImportRegister := transactionEnergyActiveImportRegister c;
     transactionRemoteStarted := transactionRemoteStarted c;
     authorizeIdTag := authorizeIdTag c;
     localAuthorizeIdTag := localAuthorizeIdTag c;
     idTagLocalAuthorized := idTagLocalAuthorized c;
     chargingProfiles := chargingProfiles c |}.

(** *** SetChargingProfile *)

Record SetChargingProfileRequest := {
  setProfile_connectorId : Z;
  csChargingProfiles : OCPP16ChargingProfile;
}.

Definition handleRequestSetChargingProfile
    (commandPayload : SetChargingProfileRequest) : M SetChargingProfileResponse :=
  let connectorId := setProfile_connectorId commandPayload in
  let purpose := chargingProfilePurpose (csChargingProfiles commandPayload) in
  smartCharging ← gets (fun st =>
    checkFeatureProfile st OCPP16SupportedFeatureProfiles.SmartCharging);
  if negb smartCharging then mret OCPP_SET_CHARGING_PROFILE_RESPONSE_NOT_SUPPORTED
  else
    connectorStatus ← gets (getConnectorStatus (Some connectorId));
    match connectorStatus with
    | None => mret OCPP_SET_CHARGING_PROFILE_RESPONSE_REJECTED
    | Some connectorStatus =>
        if bool_decide (purpose
                        = Some ChargingProfilePurposeType.CHARGE_POINT_MAX_PROFILE)
           && negb (bool_decide (connectorId = 0%Z))
        then mret OCPP_SET_CHARGING_PROFILE_RESPONSE_REJECTED
        else if bool_decide (purpose = Some ChargingProfilePurposeType.TX_PROFILE)
                && (bool_decide (connectorId = 0%Z)
                    || negb (transactionStarted connectorStatus))
        then mret OCPP_SET_CHARGING_PROFILE_RESPONSE_REJECTED
        else
          setChargingProfile connectorId (csChargingProfiles commandPayload);;
          mret OCPP_SET_CHARGING_PROFILE_RESPONSE_ACCEPTED
    end.

(** *** ChangeAvailability *)

Record ChangeAvailabilityRequest := {
  changeAvailability_connectorId : Z;
  changeAvailability_type : OCPP16AvailabilityType.t;
}.

Section ChangeAvailability.

Variable centralSystem : CentralSystem.

(** The body of the loop over all connectors, for connector 0.  [response]
    is the local variable of the handler. *)
Definition changeAvailabilityOf (availabilityType : OCPP16AvailabilityType.t)
    (chargePointStatus : OCPP16ChargePointStatus.t)
    (response : ChangeAvailabilityResponse) (id : Z)
    : M ChangeAvailabilityResponse :=
  started ← gets (fun st =>
    default false (transactionStarted <$> getConnectorStatus (Some id) st));
  let response :=
    if started : bool then OCPP_AVAILABILITY_RESPONSE_SCHEDULED else response in
  updateConnectorStatus id (set_availability availabilityType);;
  if decide (response = OCPP_AVAILABILITY_RESPONSE_ACCEPTED) then
    requestHandler centralSystem
      (STATUS_NOTIFICATION id chargePointStatus OCPP16ChargePointErrorCode.NO_ERROR)
      noOptions;;
    updateConnectorStatus id (set_status chargePointStatus);;
    mret response
  else mret response.

Definition handleRequestChangeAvailability
    (commandPayload : ChangeAvailabilityRequest) : M ChangeAvailabilityResponse :=
  let connectorId := changeAvailability_connectorId commandPayload in
  let availabilityType := changeAvailability_type commandPayload in
  connectorStatus ← gets (getConnectorStatus (Some connectorId));
  match connectorStatus with
  | None => mret OCPP_AVAILABILITY_RESPONSE_REJECTED
  | Some connectorStatus =>
      let chargePointStatus :=
        if decide (availabilityType = OCPP16AvailabilityType.OPERATIVE)
        then OCPP16ChargePointStatus.AVAILABLE
        else OCPP16ChargePointStatus.UNAVAILABLE in
      if decide (connectorId = 0%Z) then
        ids ← gets (fun st => Map_keys (connectors st));
        foldM (changeAvailabilityOf availabilityType chargePointStatus)
          OCPP_AVAILABILITY_RESPONSE_ACCEPTED ids
      else if bool_decide (0 < connectorId)%Z then
        station ← gets (getConnectorStatus (Some 0%Z));
        match station with
        | None => throw TypeError
        | Some station =>
            if bool_decide (availability station = OCPP16AvailabilityType.OPERATIVE)
               || (bool_decide (availability station
                                = OCPP16AvailabilityType.INOPERATIVE)
                   && bool_decide (availabilityType
                                   = OCPP16AvailabilityType.INOPERATIVE))
            then
              if transactionStarted connectorStatus then
                updateConnectorStatus connectorId (set_availability availabilityType);;
                mret OCPP_AVAILABILITY_RESPONSE_SCHEDULED
              else
                updateConnectorStatus connectorId (set_availability availabilityType);;
                requestHandler centralSystem
                  (STATUS_NOTIFICATION connectorId chargePointStatus
                     OCPP16ChargePointErrorCode.NO_ERROR) noOptions;;
                updateConnectorStatus connectorId (set_status chargePointStatus);;
                mret OCPP_AVAILABILITY_RESPONSE_ACCEPTED
            else mret OCPP_AVAILABILITY_RESPONSE_REJECTED
        end
      else mret OCPP_AVAILABILITY_RESPONSE_REJECTED
  end.

End ChangeAvailability.

(** * Vocabulary of the properties *)

(** ** The router *)

(** The first gate: strict compliance, Pending registration and one of the
    two remote transaction commands. *)
Definition pendingGate (commandName : string) (st : ChargingStation) : Prop :=
  getOcppStrictCompliance st = true
  /\ registration st = RegistrationState.Pending
  /\ (commandName = OCPP16IncomingRequestCommand.REMOTE_START_TRANSACTION
      \/ commandName = OCPP16IncomingRequestCommand.REMOTE_STOP_TRANSACTION).

(** The second gate: Registered, or strict compliance off and Unknown. *)
Definition acceptedState (st : ChargingStation) : Prop :=
  registration st = RegistrationState.Registered
  \/ (getOcppStrictCompliance st = false
      /\ registration st = RegistrationState.Unknown).

(** What dispatching a command to a handler amounts to: the handler runs on
    the payload and its response is sent back. *)
Definition dispatch {Payload Response : Type} (handler : Payload -> M Response)
    (messageId commandName : string) (commandPayload : Payload)
    : M (CallResultFrame (Response := Response)) :=
  response ← handler commandPayload;
  sendResponse messageId response commandName.

(** ** The configuration store *)

(** Two entries that differ at most in their value. *)
Definition sameButValue (e e' : OCPPConfigurationKey) : Prop :=
  key e = key e' /\ readonly e = readonly e'
  /\ visible e = visible e' /\ reboot e = reboot e'.

(** ** Sample stations, for the concrete instances of the properties *)

Module Sample.

(** An idle connector: Available, Operative, no transaction, no profile. *)
Definition idle : ConnectorStatus :=
  {| status := OCPP16ChargePointStatus.AVAILABLE;
     availability := OCPP16AvailabilityType.OPERATIVE;
     transactionStarted := false; transactionId := None;
     transactionIdTag := None; transactionEnergyActiveImportRegister := 0;
     transactionRemoteStarted := false; authorizeIdTag := None;
     localAuthorizeIdTag := None; idTagLocalAuthorized := false;
     chargingProfiles := [] |}.

(** A connector with a running transaction. *)
Definition charging (tid : Z) (tag : string) (register : Z) : ConnectorStatus :=
  {| status := OCPP16ChargePointStatus.CHARGING;
     availability := OCPP16AvailabilityType.OPERATIVE;
     transactionStarted := true; transactionId := Some tid;
     transactionIdTag := Some tag;
     transactionEnergyActiveImportRegister := register;
     transactionRemoteStarted := false; authorizeIdTag := None;
     localAuthorizeIdTag := None; idTagLocalAuthorized := false;
     chargingProfiles := [] |}.

Definition profile (id level : Z) (purpose : ChargingProfilePurposeType.t)
    : OCPP16ChargingProfile :=
  {| chargingProfileId := Some id; stackLevel := Some level;
     chargingProfilePurpose := Some purpose |}.

Definition entry (k v : string) : OCPPConfigurationKey :=
  {| key := k; value := v; readonly := false; visible := None; reboot := false |}.

Definition info (strict : bool) : ChargingStationInfo :=
  {| ocppStrictCompliance := strict; beginEndMeterValues := false;
     outOfOrderEndMeterValues := false; authorizeRemoteTxRequests := false;
     localAuthListEnabled := false; mayAuthorizeAtRemoteStart := false;
     featureProfiles :=
       [OCPP16SupportedFeatureProfiles.Core;
        OCPP16SupportedFeatureProfiles.SmartCharging;
        OCPP16SupportedFeatureProfiles.RemoteTrigger] |}.

(** A station with the given registration, connectors and configuration. *)
Definition station (strict : bool) (r : RegistrationState.t)
    (cs : list (Z * ConnectorStatus)) (ks : list OCPPConfigurationKey)
    : ChargingStation :=
  {| stationInfo := info strict; registration := r;
     bootNotificationResponse := None; authorizedTags := [];
     connectors := cs; configurationKey := ks;
     heartbeatRestarts := 0; webSocketPingRestarts := 0; outbound := [] |}.

(** A Central System that accepts everything. *)
Definition acceptAll : CentralSystem :=
  fun _ _ => Some {| idTagInfo := Some OCPP16AuthorizationStatus.ACCEPTED |}.

(** The three connectors 0, 1, 2, idle. *)
Definition idleConnectors : list (Z * ConnectorStatus) :=
  [(0%Z, idle); (1%Z, idle); (2%Z, idle)].

(** The two heartbeat aliases, both at 60 seconds. *)
Definition heartbeatKeys : list OCPPConfigurationKey :=
  [entry "HeartbeatInterval" "60"; entry "HeartBeatInterval" "60"].

(** Connector 1 is charging (transaction 5 of tag "TAG", 1200 Wh so far),
    connectors 0 and 2 are idle. *)
Definition busyStation : ChargingStation :=
  station true RegistrationState.Registered
    [(0%Z, idle); (1%Z, charging 5 "TAG" 1200); (2%Z, idle)] [].

(** Connectors 1 and 2 are charging, connectors 0 and 3 are idle. *)
Definition twoCharging : ChargingStation :=
  station true RegistrationState.Registered
    [(0%Z, idle); (1%Z, charging 5 "TAG" 1200); (2%Z, charging 6 "BADGE" 300);
     (3%Z, idle)] [].

(** Connectors 1 and 2 each hold one charging profile with id 7;
    SmartCharging is enabled. *)
Definition twoProfiles : ChargingStation :=
  station true RegistrationState.Registered
    [(0%Z, idle);
     (1%Z, set_chargingProfiles
             [Some (profile 7 1 ChargingProfilePurposeType.TX_DEFAULT_PROFILE)] idle);
     (2%Z, set_chargingProfiles
             [Some (profile 7 1 ChargingProfilePurposeType.TX_DEFAULT_PROFILE)] idle)]
    [].

(** ClearChargingProfile(id = 7), without connectorId. *)
Definition clearProfile7 : ClearChargingProfileRequest :=
  {| clear_id := Some 7%Z; clear_connectorId := None;
     clear_chargingProfilePurpose := None; clear_stackLevel := None |}.

(** A station that authorizes remote starts against its local list, which
    holds the single tag "AAA". *)
Definition localAuthStation : ChargingStation :=
  {| stationInfo :=
       {| ocppStrictCompliance := true; beginEndMeterValues := false;
          outOfOrderEndMeterValues := false; authorizeRemoteTxRequests := true;
          localAuthListEnabled := true; mayAuthorizeAtRemoteStart := false;
          featureProfiles := [OCPP16SupportedFeatureProfiles.Core] |};
     registration := RegistrationState.Registered;
     bootNotificationResponse := None; authorizedTags := ["AAA"];
     connectors := idleConnectors; configurationKey := [];
     heartbeatRestarts := 0; webSocketPingRestarts := 0; outbound := [] |}.

Definition heartbeatStation : ChargingStation :=
  station true RegistrationState.Registered idleConnectors heartbeatKeys.

(** A station whose only configuration entry is read-only. *)
Definition readonlyStation : ChargingStation :=
  station true RegistrationState.Registered idleConnectors
    [ {| key := "MeterValueSampleInterval"; value := "60";
         readonly := true; visible := None; reboot := false |} ].

(** Stations that differ in their registration, under strict compliance. *)
Definition registeredStation : ChargingStation :=
  station true RegistrationState.Registered idleConnectors heartbeatKeys.
Definition pendingStation : ChargingStation :=
  station true RegistrationState.Pending idleConnectors heartbeatKeys.
Definition unregisteredStation : ChargingStation :=
  station true RegistrationState.Unregistered idleConnectors heartbeatKeys.

(** A handler table with the single command ClearCache. *)
Definition handlers : gmap string (unit -> M DefaultResponse) :=
  {[ OCPP16IncomingRequestCommand.CLEAR_CACHE := fun _ => handleRequestClearCache ]}.

End Sample.

(** ** The heartbeat aliases *)

(** The value a key reads back with (the lookup of GetConfiguration). *)
Definition storedValue (k : string) (st : ChargingStation) : option string :=
  value <$> getConfigurationKey k false st.

Definition heartbeatAlias (k : string) : Prop :=
  k = OCPP16StandardParametersKey.HeartbeatInterval
  \/ k = OCPP16StandardParametersKey.HeartBeatInterval.

(** The other alias. *)
Definition siblingAlias (k : string) : string :=
  if decide (k = OCPP16StandardParametersKey.HeartbeatInterval)
  then OCPP16StandardParametersKey.HeartBeatInterval
  else OCPP16StandardParametersKey.HeartbeatInterval.

(** An entry that can be written without a reboot and is not hidden. *)
Definition ordinaryEntry (e : OCPPConfigurationKey) : Prop :=
  readonly e = false /\ reboot e = false /\ visible e <> Some false.

(** Both aliases are stored as ordinary entries, and no entry stored before
    them carries a key that differs from theirs only by case. *)
Definition heartbeatAliasesOrdinary (st : ChargingStation) : Prop :=
  (exists e, getConfigurationKey OCPP16StandardParametersKey.HeartbeatInterval false st
             = Some e /\ ordinaryEntry e)
  /\ (exists e, getConfigurationKey OCPP16StandardParametersKey.HeartBeatInterval false st
                = Some e /\ ordinaryEntry e)
  /\ (forall e, getConfigurationKey OCPP16StandardParametersKey.HeartbeatInterval true st
                = Some e -> heartbeatAlias (key e)).

(** The two aliases read back with the same value. *)
Definition heartbeatAliasesEqual (st : ChargingStation) : Prop :=
  storedValue OCPP16StandardParametersKey.HeartbeatInterval st
  = storedValue OCPP16StandardParametersKey.HeartBeatInterval st.

(** A sequence of ChangeConfiguration requests (key, value): the response
    to each and the station after it. *)
Fixpoint changeConfigurations (writes : list (string * string))
    (st : ChargingStation)
    : list (Completion ChangeConfigurationResponse * ChargingStation) :=
  match writes with
  | [] => []
  | (k, v) :: writes' =>
      let result := handleRequestChangeConfiguration k v st in
      result :: changeConfigurations writes' (snd result)
  end.

(** Two stations whose configuration lookups agree up to the values. *)
Definition sameShape (st st' : ChargingStation) : Prop :=
  forall k ci,
    option_Forall2 sameButValue
      (getConfigurationKey k ci st) (getConfigurationKey k ci st').

(** ** Outbound requests *)

(** The Central System answers every request: no transport error. *)
Definition answering (centralSystem : CentralSystem) : Prop :=
  forall sent r, is_Some (centralSystem sent r).

(** The station after one more request has been logged as sent. *)
Definition sent (r : Request) (st : ChargingStation) : ChargingStation :=
  set_outbound (outbound st ++ [(r, noOptions)]) st.

(** Whether the handlers precede a StopTransaction with the MeterValues
    sample of the end of the transaction. *)
Definition sendsTransactionEndMeterValue (st : ChargingStation) : bool :=
  getBeginEndMeterValues st && getOcppStrictCompliance st
  && negb (getOutOfOrderEndMeterValues st).

(** ** Running transactions *)

(** The StopTransaction that ends the transaction of a connector. *)
Definition stopTransactionOf (reason : option OCPP16StopTransactionReason.t)
    (c : ConnectorStatus) : Request :=
  STOP_TRANSACTION (transactionId c)
    (Some (transactionEnergyActiveImportRegister c)) (transactionIdTag c) reason.

(** The connectors with a started transaction, in enumeration order. *)
Definition startedConnectors (st : ChargingStation) : list ConnectorStatus :=
  map snd (List.filter (fun entry => transactionStarted (snd entry)) (connectors st)).

(** Every running transaction has an id (first invariant of the data
    model), and the lookup by that id leads back to its connector: the
    connector id is positive and no connector enumerated earlier carries
    the same transaction id. *)
Definition transactionsIdentified (st : ChargingStation) : Prop :=
  forall id c,
    getConnectorStatus (Some id) st = Some c -> transactionStarted c = true ->
    is_Some (transactionId c)
    /\ getConnectorIdByTransactionId (transactionId c) st = Some id.

(** The connectors container holds one entry per connector id. *)
Definition uniqueConnectorIds (st : ChargingStation) : Prop :=
  NoDup (Map_keys (connectors st)).

(** ** Remote start *)

(** The requests by which a remote start proceeds: the notification of the
    status Preparing, Authorize and StartTransaction. *)
Definition startsTransaction (r : Request) : Prop :=
  match r with
  | STATUS_NOTIFICATION _ OCPP16ChargePointStatus.PREPARING _ => True
  | AUTHORIZE _ => True
  | START_TRANSACTION _ _ => True
  | _ => False
  end.

(** RemoteStartTransaction for connector 0. *)
Definition remoteStartOnConnector0 (idTag : string)
    (cp : option OCPP16ChargingProfile) : RemoteStartTransactionRequest :=
  {| remoteStart_connectorId := 0; remoteStart_idTag := idTag;
     remoteStart_chargingProfile := cp |}.

(** ** Triggered status notifications *)

(** TriggerMessage(StatusNotification) with the given connectorId. *)
Definition triggerStatusNotificationFor (connectorId : option Z)
    : OCPP16TriggerMessageRequest :=
  {| requestedMessage := MessageTrigger.StatusNotification;
     trigger_connectorId := connectorId |}.

(** One triggered StatusNotification per connector, each with the status of
    that connector. *)
Definition statusNotifications (st : ChargingStation)
    : list (Request * RequestOptions) :=
  map (fun entry =>
         (STATUS_NOTIFICATION (fst entry) (status (snd entry))
            OCPP16ChargePointErrorCode.NO_ERROR, triggerOptions))
      (connectors st).

(** ** GetConfiguration *)

(** An entry that GetConfiguration skips. *)
Definition hidden (e : OCPPConfigurationKey) : bool :=
  bool_decide (visible e = Some false).

(** An undefined [visible] filled in with [true]. *)
Definition fillVisible (e : OCPPConfigurationKey) : OCPPConfigurationKey :=
  match visible e with
  | None => set_visible true e
  | Some _ => e
  end.

(** What GetConfiguration reports for a requested key: nothing when the
    key is not stored or its entry is hidden. *)
Definition reportedFor (st : ChargingStation) (k : string) : option ReportedKey :=
  e ← getConfigurationKey k false st;
  if hidden e then None else Some (report e).

Definition notStored (st : ChargingStation) (k : string) : bool :=
  bool_decide (getConfigurationKey k false st = None).

(** Two stores that report the same and hide the same. *)
Definition sameReports (l l' : list OCPPConfigurationKey) : Prop :=
  Forall2 (fun e e' => report e = report e' /\ hidden e = hidden e'
                       /\ reboot e = reboot e') l l'.

(** Two stations that differ at most in their configuration store. *)
Definition sameButConfiguration (st st' : ChargingStation) : Prop :=
  set_configurationKey [] st = set_configurationKey [] st'.

(** ** ChangeConfiguration *)

(** The entry whose value a ChangeConfiguration request changes: the entry
    the key resolves to, when it is writable and holds another value. *)
Definition changedEntry (k v : string) (st : ChargingStation)
    : option OCPPConfigurationKey :=
  e ← getConfigurationKey k true st;
  if readonly e || bool_decide (value e = v) then None else Some e.

#[global] Instance heartbeatAlias_dec (k : string) : Decision (heartbeatAlias k).
Proof. unfold heartbeatAlias. apply _. Defined.

(** The station after a request that changes the value of [e]. *)
Definition changedStation (k v : string) (e : OCPPConfigurationKey)
    (st : ChargingStation) : ChargingStation :=
  let st1 := setConfigurationKeyValue k v true st in
  if decide (heartbeatAlias (key e))
  then restartHeartbeat
         (setConfigurationKeyValue (siblingAlias (key e)) v false st1)
  else if decide (key e = OCPP16StandardParametersKey.WebSocketPingInterval)
       then restartWebSocketPing st1
       else st1.

(** ** ChangeAvailability *)

(** The status that goes with an availability. *)
Definition chargePointStatusFor (availabilityType : OCPP16AvailabilityType.t)
    : OCPP16ChargePointStatus.t :=
  if decide (availabilityType = OCPP16AvailabilityType.OPERATIVE)
  then OCPP16ChargePointStatus.AVAILABLE
  else OCPP16ChargePointStatus.UNAVAILABLE.

(** The ids of the connectors enumerated before the first one with a
    started transaction. *)
Fixpoint beforeFirstStarted (m : list (Z * ConnectorStatus)) : list Z :=
  match m with
  | [] => []
  | (id, c) :: m' =>
      if transactionStarted c then [] else id :: beforeFirstStarted m'
  end.

(** The connectors after a station-wide change of availability;
    [accepted] tells whether no started transaction has been met so far. *)
Fixpoint availabilityChanged (availabilityType : OCPP16AvailabilityType.t)
    (accepted : bool) (m : list (Z * ConnectorStatus))
    : list (Z * ConnectorStatus) :=
  match m with
  | [] => []
  | (id, c) :: m' =>
      let accepted := accepted && negb (transactionStarted c) in
      (id, (if accepted
            then set_status (chargePointStatusFor availabilityType)
            else fun c => c) (set_availability availabilityType c))
      :: availabilityChanged availabilityType accepted m'
  end.

(** The notification of the status that goes with an availability. *)
Definition availabilityNotification
    (availabilityType : OCPP16AvailabilityType.t) (id : Z)
    : Request * RequestOptions :=
  (STATUS_NOTIFICATION id (chargePointStatusFor availabilityType)
     OCPP16ChargePointErrorCode.NO_ERROR, noOptions).

(** ChangeAvailability for the whole station. *)
Definition changeStationAvailability
    (availabilityType : OCPP16AvailabilityType.t) : ChangeAvailabilityRequest :=
  {| changeAvailability_connectorId := 0;
     changeAvailability_type := availabilityType |}.

(** ** Outcomes of a handler *)

(** [wp m Q E st]: run from [st], the handler [m] either returns a value
    and a station that satisfy [Q], or fails with an error and a station
    that satisfy [E]. *)
Definition wp {A} (m : M A) (Q : A -> ChargingStation -> Prop)
    (E : Thrown -> ChargingStation -> Prop) (st : ChargingStation) : Prop :=
  match m st with
  | (Normal a, st') => Q a st'
  | (Abrupt e, st') => E e st'
  end.

(** No condition on the failures. *)
Definition anyFailure : Thrown -> ChargingStation -> Prop := fun _ _ => True.

(** ** RemoteStartTransaction: the two answers *)

(** What a station looks like after RemoteStartTransaction has answered:
    on Accepted the connector is not connector 0, it is Preparing and
    marked as remotely started, and the last request sent is the
    StartTransaction for it; on Rejected the connector is Available. *)
Definition remoteStartOutcome (req : RemoteStartTransactionRequest)
    (r : DefaultResponse) (st' : ChargingStation) : Prop :=
  let id := remoteStart_connectorId req in
  match r with
  | OCPP_RESPONSE_ACCEPTED =>
      id <> 0%Z
      /\ (exists c, getConnectorStatus (Some id) st' = Some c
                    /\ status c = OCPP16ChargePointStatus.PREPARING
                    /\ transactionRemoteStarted c = true)
      /\ exists o, outbound st'
                   = o ++ [(START_TRANSACTION id (remoteStart_idTag req),
                            noOptions)]
  | OCPP_RESPONSE_REJECTED =>
      exists c, getConnectorStatus (Some id) st' = Some c
                /\ status c = OCPP16ChargePointStatus.AVAILABLE
  end.

Definition isStartTransaction (r : Request) : Prop :=
  match r with
  | START_TRANSACTION _ _ => True
  | _ => False
  end.

(** [st'] has sent what [st] had sent, and then no StartTransaction. *)
Definition noStartTransactionSince (st st' : ChargingStation) : Prop :=
  exists extra,
    outbound st' = outbound st ++ extra
    /\ Forall (fun ro => ~ isStartTransaction (fst ro)) extra.

(** ** TriggerMessage *)

(** The messages the handler can trigger. *)
Definition triggerable (message : MessageTrigger.t) : Prop :=
  message = MessageTrigger.BootNotification
  \/ message = MessageTrigger.Heartbeat
  \/ message = MessageTrigger.StatusNotification.

Definition negativeConnectorId (commandPayload : OCPP16TriggerMessageRequest)
    : Prop :=
  exists connectorId,
    trigger_connectorId commandPayload = Some connectorId
    /\ (connectorId < 0)%Z.

(** [later'] is [later] after some requests have been sent, each flagged
    as a triggered message; connectors and configuration are the same. *)
Definition triggeredSince (later later' : ChargingStation) : Prop :=
  exists extra,
    outbound later' = outbound later ++ extra
    /\ Forall (fun ro => triggerMessage (snd ro) = true) extra
    /\ connectors later' = connectors later
    /\ configurationKey later' = configurationKey later.

(** ** RemoteStopTransaction: the two answers *)

(** What the answer of RemoteStopTransaction tells about the station
    [st] the request found, the requests sent and the station [st'] left:
    on Accepted a connector with a positive id carried the transaction id
    and the requests sent are the notification of Finishing, the sample of
    the end of the transaction where the station is configured to send
    one, and the StopTransaction without a reason; on Rejected no such
    connector exists and nothing has changed. *)
Definition remoteStopOutcome (tid : Z) (st : ChargingStation)
    (r : DefaultResponse) (st' : ChargingStation) : Prop :=
  match r with
  | OCPP_RESPONSE_ACCEPTED =>
      exists connectorId c,
        (0 < connectorId)%Z
        /\ getConnectorStatus (Some connectorId) st = Some c
        /\ transactionId c = Some tid
        /\ outbound st'
           = outbound st
             ++ [(STATUS_NOTIFICATION connectorId
                    OCPP16ChargePointStatus.FINISHING
                    OCPP16ChargePointErrorCode.NO_ERROR, noOptions)]
             ++ (if sendsTransactionEndMeterValue st
                 then [(METER_VALUES connectorId (Some tid)
                          (TransactionEnd
                             (Some (transactionEnergyActiveImportRegister c))),
                        noOptions)]
                 else [])
             ++ [(STOP_TRANSACTION (Some tid)
                    (Some (transactionEnergyActiveImportRegister c))
                    (transactionIdTag c) None, noOptions)]
  | OCPP_RESPONSE_REJECTED =>
      st' = st
      /\ forall connectorId c,
           (0 < connectorId)%Z ->
           getConnectorStatus (Some connectorId) st = Some c ->
           transactionId c <> Some tid
  end.

(** * Properties *)

(** Unfolding of the monad, for proofs that run a handler symbolically. *)
Ltac unfold_M :=
  unfold mbind, M_bind, mret, M_ret, bind, ret, gets, modify, when, throw in *.

(** Reduction of the option plumbing left by a resolved lookup. *)
Ltac msimpl :=
  cbn [fmap option_fmap option_map default from_option id fst snd];
  repeat match goal with
         | |- context [@mbind option _ _ _ ?f (Some ?x)] =>
             change (@mbind option _ _ _ f (Some x)) with (f x)
         | |- context [@mbind option _ _ _ ?f None] =>
             change (@mbind option _ _ _ f None) with (@None _)
         end;
  cbn beta iota.

(** Case analysis on every boolean decision of the goal. *)
Ltac split_decide :=
  repeat (match goal with
          | |- context [@bool_decide ?P ?dec] =>
              destruct (@bool_decide_reflect P dec)
          end; cbn).

(** ** The router *)

Section RouterFacts.

Context {Payload Response : Type}.
Variable handlers : gmap string (Payload -> M Response).

(** C1. Gating of the router.  Under strict compliance, in Pending state, a
    RemoteStartTransaction or RemoteStopTransaction raises SecurityError and
    nothing is dispatched (the station is untouched, whatever the handlers
    are).  Otherwise the command goes to its handler exactly when the
    station is Registered, or strict compliance is off and the state is
    Unknown; in every other state the router raises SecurityError; and when
    the state allows the dispatch but no handler is registered under the
    command name it raises NotImplemented. *)
Theorem incomingRequestHandler_gating
    (messageId commandName : string) (commandPayload : Payload)
    (st : ChargingStation) :
  let run := incomingRequestHandler handlers messageId commandName commandPayload st in
  (pendingGate commandName st ->
     run = (Abrupt (OCPPError ErrorType.SECURITY_ERROR), st))
  /\ (~ pendingGate commandName st ->
      (acceptedState st ->
         forall handler, handlers !! commandName = Some handler ->
           run = dispatch handler messageId commandName commandPayload st)
      /\ (acceptedState st -> handlers !! commandName = None ->
            run = (Abrupt (OCPPError ErrorType.NOT_IMPLEMENTED), st))
      /\ (~ acceptedState st ->
            run = (Abrupt (OCPPError ErrorType.SECURITY_ERROR), st))).
Proof.
  unfold pendingGate, acceptedState, dispatch, incomingRequestHandler,
    isInPendingState, isRegistered, isInUnknownState.
  unfold_M. cbn zeta.
  destruct (getOcppStrictCompliance st) eqn:Hstrict; cbn;
    split_decide; cbn;
    (split;
     [ intros (? & ? & [? | ?]); congruence
     | intros Hgate; split; [| split];
       [ intros Hacc handler Hh; try rewrite Hh; try reflexivity
       | intros Hacc Hh; try rewrite Hh; try reflexivity
       | intros Hacc; try reflexivity ] ]);
    try (exfalso; intuition congruence).
Qed.

End RouterFacts.

Lemma incomingRequestHandler_gating_witness :
  incomingRequestHandler Sample.handlers "17" "RemoteStartTransaction" tt
    Sample.pendingStation
  = (Abrupt (OCPPError ErrorType.SECURITY_ERROR), Sample.pendingStation)
  /\ incomingRequestHandler Sample.handlers "18" "ClearCache" tt
       Sample.registeredStation
     = (Normal {| frame_messageId := "18";
                  frame_payload := OCPP_RESPONSE_ACCEPTED;
                  frame_commandName := "ClearCache" |}, Sample.registeredStation)
  /\ incomingRequestHandler Sample.handlers "19" "DataTransfer" tt
       Sample.registeredStation
     = (Abrupt (OCPPError ErrorType.NOT_IMPLEMENTED), Sample.registeredStation)
  /\ incomingRequestHandler Sample.handlers "20" "ClearCache" tt
       Sample.unregisteredStation
     = (Abrupt (OCPPError ErrorType.SECURITY_ERROR), Sample.unregisteredStation).
Proof.
  assert (Hreg : ~ pendingGate "ClearCache" Sample.registeredStation)
    by (intros (_ & H & _); discriminate H).
  assert (Hreg' : ~ pendingGate "DataTransfer" Sample.registeredStation)
    by (intros (_ & H & _); discriminate H).
  assert (Hunreg : ~ pendingGate "ClearCache" Sample.unregisteredStation)
    by (intros (_ & H & _); discriminate H).
  split; [| split; [| split]].
  - apply (proj1 (incomingRequestHandler_gating Sample.handlers "17"
                    "RemoteStartTransaction" tt Sample.pendingStation)).
    split; [reflexivity | split; [reflexivity | left; reflexivity]].
  - apply (proj1 (proj2 (incomingRequestHandler_gating Sample.handlers "18"
                           "ClearCache" tt Sample.registeredStation) Hreg)
             (or_introl eq_refl) (fun _ => handleRequestClearCache)).
    reflexivity.
  - apply (proj1 (proj2 (proj2 (incomingRequestHandler_gating Sample.handlers "19"
                                  "DataTransfer" tt Sample.registeredStation) Hreg'))
             (or_introl eq_refl)).
    reflexivity.
  - apply (proj2 (proj2 (proj2 (incomingRequestHandler_gating Sample.handlers "20"
                                  "ClearCache" tt Sample.unregisteredStation) Hunreg))).
    intros [H | [H _]]; discriminate H.
Defined.

(** ** The configuration store *)

Section ConfigurationStore.

Implicit Types (l : list OCPPConfigurationKey) (e : OCPPConfigurationKey).
Implicit Types (k v : string) (st : ChargingStation).

Lemma sameButValue_set_value v e : sameButValue e (set_value v e).
Proof. repeat split. Qed.

Lemma keyMatches_key k ci e e' :
  key e = key e' -> keyMatches k ci e = keyMatches k ci e'.
Proof. unfold keyMatches. intros ->. reflexivity. Qed.

Lemma keyMatches_set_value k ci v e :
  keyMatches k ci (set_value v e) = keyMatches k ci e.
Proof. reflexivity. Qed.

(** A case-sensitive match is a case-insensitive match. *)
Lemma keyMatches_sensitive_insensitive k e :
  keyMatches k false e = true -> keyMatches k true e = true.
Proof.
  unfold keyMatches. intros H%bool_decide_eq_true_1.
  apply bool_decide_eq_true_2. congruence.
Qed.

Lemma find_None_iff {A} (p : A -> bool) (xs : list A) :
  find p xs = None <-> forall x, x ∈ xs -> p x = false.
Proof.
  induction xs as [|x xs IH]; cbn.
  - split; [intros _ y Hy; inversion Hy | reflexivity].
  - destruct (p x) eqn:Hp.
    + split; [discriminate|]. intros H. specialize (H x (list_elem_of_here _ _)).
      congruence.
    + rewrite IH. split.
      * intros H y Hy. apply elem_of_cons in Hy as [-> | Hy]; auto.
      * intros H y Hy. apply H. apply list_elem_of_further, Hy.
Qed.

Lemma find_Some_holds {A} (p : A -> bool) (xs : list A) (x : A) :
  find p xs = Some x -> p x = true /\ x ∈ xs.
Proof.
  induction xs as [|y xs IH]; cbn; [discriminate|].
  destruct (p y) eqn:Hp.
  - intros [= ->]. split; [assumption | apply list_elem_of_here].
  - intros H. destruct (IH H). split; [assumption | by apply list_elem_of_further].
Qed.

(** Rewriting the value of the first entry that answers to [k] keeps every
    lookup, up to the value of what is found. *)
Lemma find_updateFirst_shape k ci k' ci' v l :
  option_Forall2 sameButValue
    (find (keyMatches k ci) l)
    (find (keyMatches k ci) (updateFirst (keyMatches k' ci') (set_value v) l)).
Proof.
  induction l as [|x l IH]; cbn [find updateFirst]; [constructor|].
  destruct (keyMatches k' ci' x) eqn:Hp'; cbn [find].
  - rewrite keyMatches_set_value. destruct (keyMatches k ci x).
    + constructor. apply sameButValue_set_value.
    + clear IH. induction l as [|y l IH]; cbn [find]; [constructor|].
      destruct (keyMatches k ci y); [constructor; repeat split | apply IH].
  - destruct (keyMatches k ci x); [constructor; repeat split | apply IH].
Qed.

(** A lookup under another key is not affected at all. *)
Lemma find_updateFirst_other k k' ci' v l :
  (forall e, find (keyMatches k' ci') l = Some e -> key e <> k) ->
  find (keyMatches k false) (updateFirst (keyMatches k' ci') (set_value v) l)
  = find (keyMatches k false) l.
Proof.
  induction l as [|x l IH]; cbn [find updateFirst]; [reflexivity|]. intros Hne.
  destruct (keyMatches k' ci' x) eqn:Hp'; cbn [find].
  - specialize (Hne x eq_refl).
    assert (keyMatches k false x = false) as Hx
      by (unfold keyMatches; apply bool_decide_eq_false_2, Hne).
    rewrite keyMatches_set_value, Hx. reflexivity.
  - destruct (keyMatches k false x); [reflexivity | apply IH, Hne].
Qed.

(** The lookup under the key of the rewritten entry finds it rewritten. *)
Lemma find_updateFirst_same k k' ci' v l e :
  find (keyMatches k' ci') l = Some e -> key e = k ->
  (forall x, keyMatches k false x = true -> keyMatches k' ci' x = true) ->
  find (keyMatches k false) (updateFirst (keyMatches k' ci') (set_value v) l)
  = Some (set_value v e).
Proof.
  intros Hfind <- Himp. induction l as [|x l IH]; cbn [find updateFirst] in *;
    [discriminate|].
  destruct (keyMatches k' ci' x) eqn:Hp'; cbn [find].
  - injection Hfind as ->. rewrite keyMatches_set_value.
    unfold keyMatches at 1. rewrite bool_decide_eq_true_2 by reflexivity.
    reflexivity.
  - destruct (keyMatches (key e) false x) eqn:Hq.
    + apply Himp in Hq. congruence.
    + apply IH, Hfind.
Qed.

End ConfigurationStore.

(** ** ChangeConfiguration: unknown and read-only keys *)

(** The two early returns of the handler. *)
Lemma changeConfiguration_run_unknown (k v : string) (st : ChargingStation) :
  getConfigurationKey k true st = None ->
  handleRequestChangeConfiguration k v st
  = (Normal OCPP_CONFIGURATION_RESPONSE_NOT_SUPPORTED, st).
Proof.
  intros Hget. unfold handleRequestChangeConfiguration. unfold_M.
  rewrite Hget. reflexivity.
Qed.

Lemma changeConfiguration_run_readonly (k v : string) (st : ChargingStation)
    (e : OCPPConfigurationKey) :
  getConfigurationKey k true st = Some e -> readonly e = true ->
  handleRequestChangeConfiguration k v st
  = (Normal OCPP_CONFIGURATION_RESPONSE_REJECTED, st).
Proof.
  intros Hget Hro. unfold handleRequestChangeConfiguration. unfold_M.
  rewrite Hget, Hro. reflexivity.
Qed.

(** C4. A key that resolves to no stored entry is answered NotSupported and
    a key that resolves to a read-only entry is answered Rejected; in both
    cases the station after the call is the station before it: the store
    and so the entry's value are unchanged, and neither the heartbeat nor
    the WebSocket ping has been restarted. *)
Theorem changeConfiguration_unknown_or_readonly
    (k v : string) (st : ChargingStation) :
  (getConfigurationKey k true st = None ->
     handleRequestChangeConfiguration k v st
     = (Normal OCPP_CONFIGURATION_RESPONSE_NOT_SUPPORTED, st))
  /\ (forall e, getConfigurationKey k true st = Some e -> readonly e = true ->
        handleRequestChangeConfiguration k v st
        = (Normal OCPP_CONFIGURATION_RESPONSE_REJECTED, st)).
Proof.
  split.
  - apply changeConfiguration_run_unknown.
  - intros e. apply changeConfiguration_run_readonly.
Qed.

Lemma changeConfiguration_unknown_or_readonly_witness :
  handleRequestChangeConfiguration "NoSuchKey" "1" Sample.readonlyStation
  = (Normal OCPP_CONFIGURATION_RESPONSE_NOT_SUPPORTED, Sample.readonlyStation)
  /\ handleRequestChangeConfiguration "MeterValueSampleInterval" "30"
       Sample.readonlyStation
     = (Normal OCPP_CONFIGURATION_RESPONSE_REJECTED, Sample.readonlyStation).
Proof.
  split.
  - apply (proj1 (changeConfiguration_unknown_or_readonly
                    "NoSuchKey" "1" Sample.readonlyStation)).
    reflexivity.
  - eapply (proj2 (changeConfiguration_unknown_or_readonly
                     "MeterValueSampleInterval" "30" Sample.readonlyStation));
      reflexivity.
Defined.

(** ** ChangeConfiguration: how the key is resolved *)

(** Keys are not resolved case-sensitively: "heartbeatinterval" differs
    from both stored keys, yet the request is accepted and both entries are
    rewritten. *)
Lemma changeConfiguration_case_sensitive_counterexample :
  (forall e, e ∈ configurationKey Sample.heartbeatStation ->
     key e <> "heartbeatinterval")
  /\ handleRequestChangeConfiguration "heartbeatinterval" "30"
       Sample.heartbeatStation
     = (Normal OCPP_CONFIGURATION_RESPONSE_ACCEPTED,
        restartHeartbeat
          (set_configurationKey
             [Sample.entry "HeartbeatInterval" "30";
              Sample.entry "HeartBeatInterval" "30"]
             Sample.heartbeatStation)).
Proof.
  split.
  - intros e He. cbn in He.
    repeat (apply elem_of_cons in He as [-> | He]; [discriminate|]).
    inversion He.
  - reflexivity.
Qed.

(** ** ChangeConfiguration: the heartbeat aliases *)

Section HeartbeatAliases.

Implicit Types (k v : string) (st : ChargingStation) (e : OCPPConfigurationKey).

Local Abbreviation HB := OCPP16StandardParametersKey.HeartbeatInterval.
Local Abbreviation HBI := OCPP16StandardParametersKey.HeartBeatInterval.
Local Abbreviation WSP := OCPP16StandardParametersKey.WebSocketPingInterval.

(** The first entry that answers to [k] up to case is the first entry under
    its own key. *)
Lemma getConfigurationKey_insensitive_sensitive k st e :
  getConfigurationKey k true st = Some e ->
  getConfigurationKey (key e) false st = Some e.
Proof.
  unfold getConfigurationKey. induction (configurationKey st) as [|x l IH];
    cbn [find]; [discriminate|].
  destruct (keyMatches k true x) eqn:Hx.
  - intros [= ->]. unfold keyMatches at 1.
    rewrite bool_decide_eq_true_2 by reflexivity. reflexivity.
  - intros Hfind. destruct (keyMatches (key e) false x) eqn:Hq; [|auto].
    exfalso. destruct (find_Some_holds _ _ _ Hfind) as [He _].
    unfold keyMatches in *.
    apply bool_decide_eq_true_1 in Hq, He. apply bool_decide_eq_false_1 in Hx.
    congruence.
Qed.

Lemma getConfigurationKey_key k st e :
  getConfigurationKey k false st = Some e -> key e = k.
Proof.
  intros H. destruct (find_Some_holds _ _ _ H) as [He _].
  unfold keyMatches in He. by apply bool_decide_eq_true_1 in He.
Qed.

(** Keys that agree up to case resolve to the same entry. *)
Lemma getConfigurationKey_insensitive_ext k k' st :
  toLowerCase k = toLowerCase k' ->
  getConfigurationKey k true st = getConfigurationKey k' true st.
Proof.
  intros Heq. unfold getConfigurationKey, keyMatches. rewrite Heq. reflexivity.
Qed.

Lemma sameShape_refl st : sameShape st st.
Proof.
  intros k ci. destruct (getConfigurationKey k ci st); constructor.
  repeat split.
Qed.

Lemma sameShape_trans st1 st2 st3 :
  sameShape st1 st2 -> sameShape st2 st3 -> sameShape st1 st3.
Proof.
  intros H12 H23 k ci. specialize (H12 k ci). specialize (H23 k ci).
  destruct H12 as [e1 e2 (?&?&?&?)|]; inversion H23 as [? e3 (?&?&?&?)|];
    subst; constructor. repeat split; congruence.
Qed.

Lemma setConfigurationKeyValue_shape k v ci st :
  sameShape st (setConfigurationKeyValue k v ci st).
Proof.
  unfold setConfigurationKeyValue.
  destruct (getConfigurationKey k ci st) as [e|]; [|apply sameShape_refl].
  destruct (readonly e); [apply sameShape_refl|].
  intros k' ci'. apply find_updateFirst_shape.
Qed.

Lemma restartHeartbeat_shape st : sameShape st (restartHeartbeat st).
Proof. intros k ci. apply (sameShape_refl st). Qed.

Lemma restartWebSocketPing_shape st : sameShape st (restartWebSocketPing st).
Proof. intros k ci. apply (sameShape_refl st). Qed.

Lemma heartbeatAliasesOrdinary_shape st st' :
  sameShape st st' -> heartbeatAliasesOrdinary st -> heartbeatAliasesOrdinary st'.
Proof.
  intros Hshape ((e1 & H1 & Ho1) & (e2 & H2 & Ho2) & Hfirst).
  unfold heartbeatAliasesOrdinary, ordinaryEntry in *.
  split; [|split].
  - pose proof (Hshape HB false) as H. rewrite H1 in H.
    inversion H as [? e' (?&?&?&?)|]; subst. exists e'.
    split; [reflexivity|]. intuition congruence.
  - pose proof (Hshape HBI false) as H. rewrite H2 in H.
    inversion H as [? e' (?&?&?&?)|]; subst. exists e'.
    split; [reflexivity|]. intuition congruence.
  - intros e' He'. pose proof (Hshape HB true) as H. rewrite He' in H.
    inversion H as [e ? (Hk&?&?&?)|]; subst. rewrite <- Hk. apply Hfirst.
    congruence.
Qed.

(** The runs of the handler on a writable entry, case by case. *)
Lemma changeConfiguration_run_same k v st e :
  getConfigurationKey k true st = Some e -> readonly e = false ->
  value e = v ->
  handleRequestChangeConfiguration k v st
  = (Normal (if reboot e then OCPP_CONFIGURATION_RESPONSE_REBOOT_REQUIRED
             else OCPP_CONFIGURATION_RESPONSE_ACCEPTED), st).
Proof.
  intros Hget Hro Hv. unfold handleRequestChangeConfiguration. unfold_M.
  rewrite Hget, Hro. rewrite (bool_decide_eq_true_2 _ Hv). cbn.
  rewrite !andb_false_r. cbn. destruct (reboot e); reflexivity.
Qed.

Lemma changeConfiguration_run_alias k v st e :
  getConfigurationKey k true st = Some e -> readonly e = false ->
  value e <> v -> heartbeatAlias (key e) ->
  handleRequestChangeConfiguration k v st
  = (Normal (if reboot e then OCPP_CONFIGURATION_RESPONSE_REBOOT_REQUIRED
             else OCPP_CONFIGURATION_RESPONSE_ACCEPTED),
     restartHeartbeat
       (setConfigurationKeyValue (siblingAlias (key e)) v false
          (setConfigurationKeyValue k v true st))).
Proof.
  intros Hget Hro Hv Halias. unfold handleRequestChangeConfiguration. unfold_M.
  rewrite Hget, Hro. rewrite (bool_decide_eq_false_2 _ Hv).
  destruct Halias as [Hk | Hk]; rewrite Hk; cbn; destruct (reboot e); reflexivity.
Qed.

Lemma changeConfiguration_run_other k v st e :
  getConfigurationKey k true st = Some e -> readonly e = false ->
  value e <> v -> ~ heartbeatAlias (key e) ->
  exists st',
    handleRequestChangeConfiguration k v st
    = (Normal (if reboot e then OCPP_CONFIGURATION_RESPONSE_REBOOT_REQUIRED
               else OCPP_CONFIGURATION_RESPONSE_ACCEPTED), st')
    /\ (st' = setConfigurationKeyValue k v true st
        \/ st' = restartWebSocketPing (setConfigurationKeyValue k v true st)).
Proof.
  intros Hget Hro Hv Halias. unfold handleRequestChangeConfiguration. unfold_M.
  rewrite Hget, Hro. rewrite (bool_decide_eq_false_2 _ Hv).
  rewrite (bool_decide_eq_false_2 (key e = HBI))
    by (intros H; apply Halias; right; exact H).
  rewrite (bool_decide_eq_false_2 (key e = HB))
    by (intros H; apply Halias; left; exact H).
  cbn. destruct (bool_decide (key e = WSP)); cbn; destruct (reboot e);
    eexists; split; try reflexivity; auto.
Qed.

(** Writing the entry that answers to [k] and then the entry under another
    key [k1] leaves both with the written value. *)
Lemma setConfigurationKeyValue_twice k v st e k1 e1 :
  getConfigurationKey k true st = Some e -> readonly e = false ->
  getConfigurationKey k1 false st = Some e1 -> readonly e1 = false ->
  key e <> k1 ->
  let st' := setConfigurationKeyValue k1 v false
               (setConfigurationKeyValue k v true st) in
  storedValue (key e) st' = Some v /\ storedValue k1 st' = Some v.
Proof.
  intros Hget Hro Hget1 Hro1 Hne.
  assert (Hst1 : setConfigurationKeyValue k v true st
                 = set_configurationKey
                     (updateFirst (keyMatches k true) (set_value v)
                        (configurationKey st)) st).
  { unfold setConfigurationKeyValue. rewrite Hget, Hro. reflexivity. }
  rewrite Hst1. clear Hst1.
  set (st1 := set_configurationKey _ st).
  assert (Hget1' : getConfigurationKey k1 false st1 = Some e1).
  { unfold getConfigurationKey, st1. cbn [configurationKey set_configurationKey].
    rewrite find_updateFirst_other; [exact Hget1|].
    intros e0 He0. unfold getConfigurationKey in Hget. congruence. }
  assert (Hget0' : getConfigurationKey (key e) false st1 = Some (set_value v e)).
  { unfold getConfigurationKey, st1. cbn [configurationKey set_configurationKey].
    apply find_updateFirst_same; [exact Hget | reflexivity |].
    intros x Hx. destruct (find_Some_holds _ _ _ Hget) as [He _].
    unfold keyMatches in *. apply bool_decide_eq_true_1 in Hx, He.
    apply bool_decide_eq_true_2. congruence. }
  pose proof (getConfigurationKey_key _ _ _ Hget1) as Hk1.
  cbn zeta. unfold setConfigurationKeyValue. rewrite Hget1', Hro1.
  unfold storedValue, getConfigurationKey.
  cbn [configurationKey set_configurationKey]. split.
  - rewrite find_updateFirst_other.
    + fold (getConfigurationKey (key e) false st1). rewrite Hget0'. reflexivity.
    + intros e0 He0. fold (getConfigurationKey k1 false st1) in He0.
      rewrite Hget1' in He0. injection He0 as <-. congruence.
  - erewrite find_updateFirst_same; [reflexivity | exact Hget1' | exact Hk1 | auto].
Qed.

Lemma siblingAlias_neq k : heartbeatAlias k -> k <> siblingAlias k.
Proof. intros [-> | ->]; discriminate. Qed.

(** Under [heartbeatAliasesOrdinary], an alias found by the handler is an
    ordinary entry, and so is its sibling. *)
Lemma heartbeatAlias_found k st e :
  heartbeatAliasesOrdinary st ->
  getConfigurationKey k true st = Some e -> heartbeatAlias (key e) ->
  ordinaryEntry e
  /\ exists e1, getConfigurationKey (siblingAlias (key e)) false st = Some e1
                /\ ordinaryEntry e1.
Proof.
  intros ((e1 & H1 & Ho1) & (e2 & H2 & Ho2) & _) Hget Halias.
  apply getConfigurationKey_insensitive_sensitive in Hget.
  destruct Halias as [Hk | Hk]; rewrite Hk in *; cbn.
  - split; [congruence | eauto].
  - split; [congruence | eauto].
Qed.

Lemma storedValue_restartHeartbeat k st :
  storedValue k (restartHeartbeat st) = storedValue k st.
Proof. reflexivity. Qed.

Lemma storedValue_restartWebSocketPing k st :
  storedValue k (restartWebSocketPing st) = storedValue k st.
Proof. reflexivity. Qed.

Lemma heartbeatRestarts_setConfigurationKeyValue k v ci st :
  heartbeatRestarts (setConfigurationKeyValue k v ci st) = heartbeatRestarts st.
Proof.
  unfold setConfigurationKeyValue.
  destruct (getConfigurationKey k ci st) as [e|]; [destruct (readonly e)|];
    reflexivity.
Qed.

(** A write that resolves to another entry than the aliases leaves what the
    aliases read back with. *)
Lemma storedValue_setConfigurationKeyValue_other k v st e k0 :
  getConfigurationKey k true st = Some e -> key e <> k0 ->
  storedValue k0 (setConfigurationKeyValue k v true st) = storedValue k0 st.
Proof.
  intros Hget Hne. unfold setConfigurationKeyValue. rewrite Hget.
  destruct (readonly e); [reflexivity|].
  unfold storedValue, getConfigurationKey.
  cbn [configurationKey set_configurationKey].
  rewrite find_updateFirst_other; [reflexivity|].
  intros e0 He0. unfold getConfigurationKey in Hget. congruence.
Qed.

(** One ChangeConfiguration request keeps the aliases ordinary and equal. *)
Lemma changeConfiguration_step k v st :
  heartbeatAliasesOrdinary st -> heartbeatAliasesEqual st ->
  heartbeatAliasesOrdinary (snd (handleRequestChangeConfiguration k v st))
  /\ heartbeatAliasesEqual (snd (handleRequestChangeConfiguration k v st)).
Proof.
  intros Hwf Heq.
  destruct (getConfigurationKey k true st) as [e|] eqn:Hget.
  2: { rewrite (changeConfiguration_run_unknown k v st Hget). auto. }
  destruct (readonly e) eqn:Hro.
  { rewrite (changeConfiguration_run_readonly k v st e Hget Hro). auto. }
  destruct (decide (value e = v)) as [Hv | Hv].
  { rewrite (changeConfiguration_run_same k v st e Hget Hro Hv). auto. }
  destruct (decide (key e = HB)) as [Hk | Hk];
    [| destruct (decide (key e = HBI)) as [Hk' | Hk']].
  1, 2: assert (Halias : heartbeatAlias (key e)) by (unfold heartbeatAlias; auto);
    rewrite (changeConfiguration_run_alias k v st e Hget Hro Hv Halias);
    cbn [snd];
    destruct (heartbeatAlias_found k st e Hwf Hget Halias)
      as [_ (e1 & Hget1 & Hro1 & _)];
    (split;
     [ eapply heartbeatAliasesOrdinary_shape; [|exact Hwf];
       eapply sameShape_trans; [apply setConfigurationKeyValue_shape|];
       eapply sameShape_trans; [apply setConfigurationKeyValue_shape|];
       apply restartHeartbeat_shape
     | unfold heartbeatAliasesEqual; rewrite !storedValue_restartHeartbeat;
       destruct (setConfigurationKeyValue_twice k v st e _ e1 Hget Hro Hget1 Hro1
                   (siblingAlias_neq _ Halias)) as [Ha Hb];
       first [rewrite Hk in Ha, Hb |- * | rewrite Hk' in Ha, Hb |- *];
       change (siblingAlias HB) with HBI in *;
       change (siblingAlias HBI) with HB in *; congruence ]).
  assert (Halias : ~ heartbeatAlias (key e)) by (intros [? | ?]; contradiction).
  destruct (changeConfiguration_run_other k v st e Hget Hro Hv Halias)
    as (st' & -> & [-> | ->]); cbn [snd]; split.
  - eapply heartbeatAliasesOrdinary_shape; [|exact Hwf].
    apply setConfigurationKeyValue_shape.
  - unfold heartbeatAliasesEqual.
    rewrite !(storedValue_setConfigurationKeyValue_other k v st e) by assumption.
    exact Heq.
  - eapply heartbeatAliasesOrdinary_shape; [|exact Hwf].
    eapply sameShape_trans; [apply setConfigurationKeyValue_shape|].
    apply restartWebSocketPing_shape.
  - unfold heartbeatAliasesEqual. rewrite !storedValue_restartWebSocketPing.
    rewrite !(storedValue_setConfigurationKeyValue_other k v st e) by assumption.
    exact Heq.
Qed.

Lemma find_weaken {A} (p q : A -> bool) (xs : list A) (x : A) :
  find p xs = Some x -> (forall y, p y = true -> q y = true) ->
  exists z, find q xs = Some z.
Proof.
  intros Hfind Himp. destruct (find q xs) as [z|] eqn:Hq; [eauto|].
  destruct (find_Some_holds _ _ _ Hfind) as [Hp Hin].
  pose proof (proj1 (find_None_iff _ _) Hq x Hin) as Hqx.
  rewrite (Himp x Hp) in Hqx. discriminate.
Qed.

(** Either alias resolves, up to case, to a stored alias. *)
Lemma heartbeatAlias_resolves k st :
  heartbeatAliasesOrdinary st -> heartbeatAlias k ->
  exists e, getConfigurationKey k true st = Some e /\ heartbeatAlias (key e).
Proof.
  intros ((e1 & H1 & _) & _ & Hfirst) Halias.
  assert (Hext : getConfigurationKey k true st = getConfigurationKey HB true st)
    by (apply getConfigurationKey_insensitive_ext;
        destruct Halias as [-> | ->]; reflexivity).
  destruct (find_weaken _ (keyMatches HB true) _ _ H1
              (keyMatches_sensitive_insensitive HB)) as [e He].
  exists e. rewrite Hext. split; [exact He | apply Hfirst, He].
Qed.

(** GetConfiguration of a single stored, visible key reports that entry. *)
Lemma getConfiguration_single k st e :
  getConfigurationKey k false st = Some e -> visible e <> Some false ->
  fst (handleRequestGetConfiguration (Some [k]) st)
  = Normal {| response_configurationKey := [report e];
              response_unknownKey := [] |}.
Proof.
  intros Hget Hvis. unfold handleRequestGetConfiguration.
  cbn [isEmptyArray default]. unfold id. cbn [reportKeys]. unfold_M. cbn beta.
  rewrite Hget.
  destruct (visible e) as [[|]|] eqn:Hv; try contradiction; cbn;
    destruct (decide _) as [Hd | Hd]; try discriminate Hd; reflexivity.
Qed.

(** A write that changes the value of an alias. *)
Lemma changeConfiguration_alias_write k v st :
  heartbeatAliasesOrdinary st -> heartbeatAliasesEqual st ->
  heartbeatAlias k -> storedValue k st <> Some v ->
  exists st',
    handleRequestChangeConfiguration k v st
    = (Normal OCPP_CONFIGURATION_RESPONSE_ACCEPTED, st')
    /\ storedValue HB st' = Some v
    /\ storedValue HBI st' = Some v
    /\ heartbeatRestarts st' = S (heartbeatRestarts st)
    /\ fst (handleRequestGetConfiguration (Some [siblingAlias k]) st')
       = Normal {| response_configurationKey :=
                     [ {| reported_key := siblingAlias k;
                          reported_readonly := false;
                          reported_value := v |} ];
                   response_unknownKey := [] |}.
Proof.
  intros Hwf Heq Hk Hv.
  destruct (heartbeatAlias_resolves k st Hwf Hk) as (e & Hget & Halias).
  destruct (heartbeatAlias_found k st e Hwf Hget Halias)
    as [(Hro & Hreboot & _) (e1 & Hget1 & Hro1 & _)].
  assert (Hval : value e <> v).
  { intros <-. apply Hv.
    pose proof (getConfigurationKey_insensitive_sensitive k st e Hget) as Hs.
    unfold heartbeatAliasesEqual, storedValue in *.
    destruct Hk as [-> | ->], Halias as [Ha | Ha]; rewrite Ha in Hs;
      rewrite ?Heq, ?Hs; try reflexivity; rewrite <- ?Heq, ?Hs; reflexivity. }
  destruct (changeConfiguration_step k v st Hwf Heq) as [Hwf' _].
  rewrite (changeConfiguration_run_alias k v st e Hget Hro Hval Halias) in *.
  rewrite Hreboot. cbn [snd] in Hwf'. eexists. split; [reflexivity|].
  destruct (setConfigurationKeyValue_twice k v st e _ e1 Hget Hro Hget1 Hro1
              (siblingAlias_neq _ Halias)) as [Ha Hb].
  rewrite !storedValue_restartHeartbeat.
  assert (Hboth : storedValue HB
                    (setConfigurationKeyValue (siblingAlias (key e)) v false
                       (setConfigurationKeyValue k v true st)) = Some v
                  /\ storedValue HBI
                       (setConfigurationKeyValue (siblingAlias (key e)) v false
                          (setConfigurationKeyValue k v true st)) = Some v).
  { destruct Halias as [Hke | Hke]; rewrite Hke in Ha, Hb |- *;
      change (siblingAlias HB) with HBI in *;
      change (siblingAlias HBI) with HB in *; auto. }
  destruct Hboth as [Hhb Hhbi]. split; [exact Hhb|]. split; [exact Hhbi|].
  split.
  { cbn. rewrite !heartbeatRestarts_setConfigurationKeyValue. reflexivity. }
  set (st' := restartHeartbeat _) in *.
  assert (Hsib : exists b, getConfigurationKey (siblingAlias k) false st' = Some b
                           /\ ordinaryEntry b /\ value b = v).
  { destruct Hwf' as ((a & Hgeta & Hoa) & (b & Hgetb & Hob) & _).
    destruct Hk as [-> | ->].
    - change (siblingAlias HB) with HBI. exists b. repeat split; try apply Hob.
      + exact Hgetb.
      + change (storedValue HBI st' = Some v) in Hhbi.
        unfold storedValue in Hhbi. rewrite Hgetb in Hhbi. by injection Hhbi.
    - change (siblingAlias HBI) with HB. exists a. repeat split; try apply Hoa.
      + exact Hgeta.
      + change (storedValue HB st' = Some v) in Hhb.
        unfold storedValue in Hhb. rewrite Hgeta in Hhb. by injection Hhb. }
  destruct Hsib as (b & Hgetb & (Hrob & _ & Hvisb) & Hvalb).
  rewrite (getConfiguration_single _ _ b Hgetb Hvisb). unfold report.
  rewrite (getConfigurationKey_key _ _ _ Hgetb), Hrob, Hvalb. reflexivity.
Qed.

End HeartbeatAliases.

(** The aliases are not synchronized on every store.  Five stores with
    both aliases, and what a request naming an alias does on each:
    - the aliases hold 60 and 30: writing 60 to HeartbeatInterval, the
      one that holds 60, is Accepted, nothing is written and the two
      still read back unequal;
    - both entries carry the reboot flag: a write that changes the value
      is answered RebootRequired, not Accepted;
    - the sibling is hidden: after an accepted write GetConfiguration of
      the sibling reports nothing;
    - the sibling is read-only: after an accepted write of 30 the two read
      back 30 and 60;
    - an entry "heartbeatinterval" is stored before the aliases: an
      accepted write of 30 to HeartbeatInterval goes to that entry, the
      aliases keep 60 and the heartbeat is not restarted. *)
Lemma heartbeat_aliases_synchronized_counterexample :
  let HB := OCPP16StandardParametersKey.HeartbeatInterval in
  let HBI := OCPP16StandardParametersKey.HeartBeatInterval in
  let store := Sample.station true RegistrationState.Registered
                 Sample.idleConnectors in
  let flagged k ro vis rb :=
    {| key := k; value := "60"; readonly := ro; visible := vis; reboot := rb |} in
  let unequal := store [Sample.entry HB "60"; Sample.entry HBI "30"] in
  let rebooting := store [flagged HB false None true;
                          flagged HBI false None true] in
  let hidden := store [Sample.entry HB "60";
                       flagged HBI false (Some false) false] in
  let locked := store [Sample.entry HB "60"; flagged HBI true None false] in
  let shadowed := store [Sample.entry "heartbeatinterval" "60";
                         Sample.entry HB "60"; Sample.entry HBI "60"] in
  (handleRequestChangeConfiguration HB "60" unequal
   = (Normal OCPP_CONFIGURATION_RESPONSE_ACCEPTED, unequal)
   /\ storedValue HB unequal = Some "60"
   /\ storedValue HBI unequal = Some "30")
  /\ fst (handleRequestChangeConfiguration HB "30" rebooting)
     = Normal OCPP_CONFIGURATION_RESPONSE_REBOOT_REQUIRED
  /\ (fst (handleRequestChangeConfiguration HB "30" hidden)
      = Normal OCPP_CONFIGURATION_RESPONSE_ACCEPTED
      /\ fst (handleRequestGetConfiguration (Some [HBI])
                (snd (handleRequestChangeConfiguration HB "30" hidden)))
         = Normal {| response_configurationKey := [];
                     response_unknownKey := [] |})
  /\ (fst (handleRequestChangeConfiguration HB "30" locked)
      = Normal OCPP_CONFIGURATION_RESPONSE_ACCEPTED
      /\ storedValue HB (snd (handleRequestChangeConfiguration HB "30" locked))
         = Some "30"
      /\ storedValue HBI (snd (handleRequestChangeConfiguration HB "30" locked))
         = Some "60")
  /\ (fst (handleRequestChangeConfiguration HB "30" shadowed)
      = Normal OCPP_CONFIGURATION_RESPONSE_ACCEPTED
      /\ storedValue HB (snd (handleRequestChangeConfiguration HB "30" shadowed))
         = Some "60"
      /\ heartbeatRestarts
           (snd (handleRequestChangeConfiguration HB "30" shadowed))
         = heartbeatRestarts shadowed).
Proof.
  cbn zeta.
  split; [split; [|split]; reflexivity|].
  split; [reflexivity|].
  split; [split; reflexivity|].
  split; [split; [|split]; reflexivity|].
  split; [|split]; reflexivity.
Qed.

(** C3, amended. The heartbeat aliases stay synchronized.  On a station where both
    aliases are stored as ordinary entries (writable, without reboot flag,
    not hidden, and not preceded by a key that differs from theirs only by
    case) and read back equal, every sequence of ChangeConfiguration
    requests, to either alias in any order and indeed to any key, leaves
    the two aliases reading back equal after each request.  A single
    request to either alias that changes its value is answered Accepted,
    writes both keys, restarts the heartbeat exactly once, and a following
    GetConfiguration of the sibling alias reports the written value. *)
Theorem heartbeat_aliases_synchronized (st : ChargingStation) :
  heartbeatAliasesOrdinary st -> heartbeatAliasesEqual st ->
  (forall writes,
     Forall (fun result =>
               heartbeatAliasesOrdinary (snd result)
               /\ heartbeatAliasesEqual (snd result))
       (changeConfigurations writes st))
  /\ (forall k v, heartbeatAlias k -> storedValue k st <> Some v ->
        exists st',
          handleRequestChangeConfiguration k v st
          = (Normal OCPP_CONFIGURATION_RESPONSE_ACCEPTED, st')
          /\ storedValue OCPP16StandardParametersKey.HeartbeatInterval st' = Some v
          /\ storedValue OCPP16StandardParametersKey.HeartBeatInterval st' = Some v
          /\ heartbeatRestarts st' = S (heartbeatRestarts st)
          /\ fst (handleRequestGetConfiguration (Some [siblingAlias k]) st')
             = Normal {| response_configurationKey :=
                           [ {| reported_key := siblingAlias k;
                                reported_readonly := false;
                                reported_value := v |} ];
                         response_unknownKey := [] |}).
Proof.
  intros Hwf Heq. split.
  - intros writes. revert st Hwf Heq.
    induction writes as [|[k v] writes IH]; intros st Hwf Heq;
      cbn [changeConfigurations]; [constructor|].
    destruct (changeConfiguration_step k v st Hwf Heq) as [Hwf' Heq'].
    constructor; [split; assumption | apply IH; assumption].
  - intros k v Hk Hv. apply changeConfiguration_alias_write; assumption.
Qed.

Lemma heartbeat_aliases_synchronized_witness :
  Forall (fun result =>
            heartbeatAliasesOrdinary (snd result)
            /\ heartbeatAliasesEqual (snd result))
    (changeConfigurations
       [("HeartBeatInterval", "30"); ("HeartbeatInterval", "45");
        ("HeartBeatInterval", "45")]
       Sample.heartbeatStation)
  /\ exists st',
       handleRequestChangeConfiguration "HeartBeatInterval" "30"
         Sample.heartbeatStation
       = (Normal OCPP_CONFIGURATION_RESPONSE_ACCEPTED, st')
       /\ storedValue "HeartbeatInterval" st' = Some "30"
       /\ storedValue "HeartBeatInterval" st' = Some "30"
       /\ heartbeatRestarts st' = 1%nat
       /\ fst (handleRequestGetConfiguration (Some ["HeartbeatInterval"]) st')
          = Normal {| response_configurationKey :=
                        [ {| reported_key := "HeartbeatInterval";
                             reported_readonly := false;
                             reported_value := "30" |} ];
                      response_unknownKey := [] |}.
Proof.
  assert (Hwf : heartbeatAliasesOrdinary Sample.heartbeatStation).
  { split; [|split].
    - eexists. split; [reflexivity|]. repeat split; discriminate.
    - eexists. split; [reflexivity|]. repeat split; discriminate.
    - intros e He. vm_compute in He. injection He as <-. left. reflexivity. }
  assert (Heq : heartbeatAliasesEqual Sample.heartbeatStation) by reflexivity.
  destruct (heartbeat_aliases_synchronized Sample.heartbeatStation Hwf Heq)
    as [Hseq Hone].
  split.
  - apply Hseq.
  - apply (Hone "HeartBeatInterval" "30").
    + right. reflexivity.
    + discriminate.
Defined.

(** ** Running a handler step by step *)

Section Running.

Context {A B : Type}.
Implicit Types (st : ChargingStation) (m : M A) (k : A -> M B).

Lemma run_bind m k st a st' :
  m st = (Normal a, st') -> (m ≫= k) st = k a st'.
Proof. intros H. unfold mbind, M_bind, bind. rewrite H. reflexivity. Qed.

Lemma run_bind_abrupt m k st e st' :
  m st = (Abrupt e, st') -> (m ≫= k) st = (Abrupt e, st').
Proof. intros H. unfold mbind, M_bind, bind. rewrite H. reflexivity. Qed.

Lemma run_bind_gets (f : ChargingStation -> A) k st :
  (gets f ≫= k) st = k (f st) st.
Proof. reflexivity. Qed.

End Running.

Lemma run_bind_modify {B} (f : ChargingStation -> ChargingStation)
    (k : unit -> M B) (st : ChargingStation) :
  (modify f ≫= k) st = k tt (f st).
Proof. reflexivity. Qed.

Lemma run_when_modify {B} (b : bool) (f : ChargingStation -> ChargingStation)
    (k : unit -> M B) (st : ChargingStation) :
  (when b (modify f) ≫= k) st = k tt (if b then f st else st).
Proof. destruct b; reflexivity. Qed.

Lemma run_requestHandler centralSystem r o st answer :
  centralSystem (outbound st) r = Some answer ->
  requestHandler centralSystem r o st
  = (Normal answer, set_outbound (outbound st ++ [(r, o)]) st).
Proof. intros H. unfold requestHandler. rewrite H. reflexivity. Qed.

Lemma run_requestHandler_failed centralSystem r o st :
  centralSystem (outbound st) r = None ->
  requestHandler centralSystem r o st
  = (Abrupt RequestError, set_outbound (outbound st ++ [(r, o)]) st).
Proof. intros H. unfold requestHandler. rewrite H. reflexivity. Qed.

Lemma run_updateConnectorStatus id f st c :
  getConnectorStatus (Some id) st = Some c ->
  updateConnectorStatus id f st
  = (Normal tt, set_connectors (Map_update id f (connectors st)) st).
Proof. intros H. unfold updateConnectorStatus. rewrite H. reflexivity. Qed.

Lemma Map_get_update_eq {V} id (f : V -> V) (m : list (Z * V)) :
  Map_get id (Map_update id f m) = f <$> Map_get id m.
Proof.
  induction m as [|[k x] m IH]; cbn; [reflexivity|].
  destruct (decide (k = id)) as [->|Hk]; cbn.
  - rewrite decide_True by reflexivity. reflexivity.
  - rewrite decide_False by assumption. exact IH.
Qed.

Lemma Map_get_update_ne {V} id id' (f : V -> V) (m : list (Z * V)) :
  id <> id' -> Map_get id' (Map_update id f m) = Map_get id' m.
Proof.
  intros Hne. induction m as [|[k x] m IH]; cbn; [reflexivity|].
  destruct (decide (k = id)) as [->|Hk]; cbn.
  - rewrite !decide_False by assumption. reflexivity.
  - destruct (decide (k = id')); [reflexivity | exact IH].
Qed.

Lemma Map_keys_update {V} id (f : V -> V) (m : list (Z * V)) :
  Map_keys (Map_update id f m) = Map_keys m.
Proof.
  unfold Map_keys. induction m as [|[k x] m IH]; cbn; [reflexivity|].
  destruct (decide (k = id)); cbn; [reflexivity | by f_equal].
Qed.

(** ** UnlockConnector *)

Section UnlockConnector.

Variable centralSystem : CentralSystem.



End UnlockConnector.

Lemma answering_acceptAll : answering Sample.acceptAll.
Proof. intros sent r. eexists. reflexivity. Qed.


(** ** Lookups by transaction id *)

Lemma find_ext {A} (p q : A -> bool) (xs : list A) :
  (forall x, x ∈ xs -> p x = q x) -> find p xs = find q xs.
Proof.
  induction xs as [|x xs IH]; cbn; [reflexivity|]. intros H.
  rewrite <- (H x) by apply list_elem_of_here.
  destruct (p x); [reflexivity|]. apply IH. intros y Hy.
  apply H. by apply list_elem_of_further.
Qed.

(** A change of status is invisible to the lookups by transaction id. *)
Lemma getConnectorStatus_set_status st st' id s k :
  connectors st' = Map_update id (set_status s) (connectors st) ->
  getConnectorStatus (Some k) st'
  = (if decide (id = k) then set_status s else fun c => c)
    <$> getConnectorStatus (Some k) st.
Proof.
  intros H. unfold getConnectorStatus. rewrite H.
  destruct (decide (id = k)) as [->|Hne].
  - apply Map_get_update_eq.
  - rewrite Map_get_update_ne by assumption.
    destruct (Map_get k (connectors st)); reflexivity.
Qed.

Lemma getConnectorIdByTransactionId_set_status st st' id s tid :
  connectors st' = Map_update id (set_status s) (connectors st) ->
  getConnectorIdByTransactionId tid st' = getConnectorIdByTransactionId tid st.
Proof.
  intros H. unfold getConnectorIdByTransactionId.
  rewrite H, Map_keys_update. apply find_ext. intros k _.
  rewrite (getConnectorStatus_set_status st st' id s k H).
  destruct (getConnectorStatus (Some k) st) as [c|]; [|reflexivity].
  destruct (decide (id = k)); reflexivity.
Qed.

Lemma getEnergyActiveImportRegisterByTransactionId_set_status st st' id s tid :
  connectors st' = Map_update id (set_status s) (connectors st) ->
  getEnergyActiveImportRegisterByTransactionId tid st'
  = getEnergyActiveImportRegisterByTransactionId tid st.
Proof.
  intros H. unfold getEnergyActiveImportRegisterByTransactionId.
  rewrite (getConnectorIdByTransactionId_set_status st st' id s tid H).
  destruct (getConnectorIdByTransactionId tid st) as [k|]; [|reflexivity].
  rewrite (getConnectorStatus_set_status st st' id s k H).
  destruct (getConnectorStatus (Some k) st) as [c|]; [|reflexivity].
  destruct (decide (id = k)); reflexivity.
Qed.

Lemma getTransactionIdTag_set_status st st' id s tid :
  connectors st' = Map_update id (set_status s) (connectors st) ->
  getTransactionIdTag tid st' = getTransactionIdTag tid st.
Proof.
  intros H. unfold getTransactionIdTag.
  rewrite (getConnectorIdByTransactionId_set_status st st' id s tid H).
  destruct (getConnectorIdByTransactionId tid st) as [k|]; [|reflexivity].
  rewrite (getConnectorStatus_set_status st st' id s k H).
  destruct (getConnectorStatus (Some k) st) as [c|]; [|reflexivity].
  destruct (decide (id = k)); reflexivity.
Qed.

(** What the lookup by transaction id finds. *)
Lemma getConnectorIdByTransactionId_Some st tid id :
  getConnectorIdByTransactionId tid st = Some id ->
  exists c, getConnectorStatus (Some id) st = Some c
            /\ (0 < id)%Z /\ transactionId c = tid
            /\ getEnergyActiveImportRegisterByTransactionId tid st
               = Some (transactionEnergyActiveImportRegister c)
            /\ getTransactionIdTag tid st = transactionIdTag c.
Proof.
  intros Hfind. pose proof Hfind as Hfind'.
  unfold getConnectorIdByTransactionId in Hfind.
  apply find_Some_holds in Hfind as [Hp Hin].
  apply andb_true_iff in Hp as [Hpos Htid].
  apply bool_decide_eq_true_1 in Hpos, Htid.
  assert (Hc : exists c, Map_get id (connectors st) = Some c).
  { clear -Hin. unfold Map_keys in Hin.
    induction (connectors st) as [|[k x] l IH]; cbn in *; [inversion Hin|].
    destruct (decide (k = id)); [eauto|].
    apply elem_of_cons in Hin as [->|Hin]; [contradiction | auto]. }
  destruct Hc as [c Hc]. exists c.
  unfold getEnergyActiveImportRegisterByTransactionId, getTransactionIdTag.
  rewrite Hfind'. unfold getConnectorStatus in *. rewrite Hc in *.
  repeat split; auto.
Qed.

(** When some connector with a positive id carries the transaction id, the
    lookup finds one. *)
Lemma getConnectorIdByTransactionId_exists st tid id c :
  (0 < id)%Z -> getConnectorStatus (Some id) st = Some c ->
  transactionId c = tid ->
  is_Some (getConnectorIdByTransactionId tid st).
Proof.
  intros Hpos Hget Htid.
  destruct (getConnectorIdByTransactionId tid st) as [k|] eqn:Hfind; [eauto|].
  exfalso. unfold getConnectorIdByTransactionId in Hfind.
  assert (Hin : id ∈ Map_keys (connectors st)).
  { clear -Hget. unfold getConnectorStatus, Map_keys in *.
    induction (connectors st) as [|[k x] l IH]; cbn in *; [discriminate|].
    destruct (decide (k = id)) as [->|]; [apply list_elem_of_here|].
    apply list_elem_of_further. auto. }
  pose proof (proj1 (find_None_iff _ _) Hfind id Hin) as Hp. cbn beta in Hp.
  rewrite Hget in Hp. cbn in Hp.
  rewrite (bool_decide_eq_true_2 _ Hpos), (bool_decide_eq_true_2 _ Htid) in Hp.
  discriminate.
Qed.

(** ** RemoteStopTransaction *)

Section RemoteStopTransaction.

Variable centralSystem : CentralSystem.

(** C6. RemoteStopTransaction.  When some connector with a positive id
    carries the transaction id, the handler takes such a connector (the
    first in enumeration order), sends StatusNotification(Finishing), sets
    its status to Finishing, sends the MeterValues sample of the end of the
    transaction where the station is configured to, sends a StopTransaction
    with the transaction id, the connector's energy register as meterStop
    and the idTag of the transaction, and answers Accepted.  When no
    connector matches, it answers Rejected and the station, in particular
    the log of sent requests, is unchanged. *)
Theorem remoteStopTransaction_cases (tid : Z) (st : ChargingStation) :
  ((exists connectorId c,
       (0 < connectorId)%Z
       /\ getConnectorStatus (Some connectorId) st = Some c
       /\ transactionId c = Some tid) ->
   answering centralSystem ->
   exists connectorId c st',
     (0 < connectorId)%Z
     /\ getConnectorStatus (Some connectorId) st = Some c
     /\ transactionId c = Some tid
     /\ handleRequestRemoteStopTransaction centralSystem tid st
        = (Normal OCPP_RESPONSE_ACCEPTED, st')
     /\ getConnectorStatus (Some connectorId) st'
        = Some (set_status OCPP16ChargePointStatus.FINISHING c)
     /\ outbound st'
        = outbound st
          ++ [(STATUS_NOTIFICATION connectorId OCPP16ChargePointStatus.FINISHING
                 OCPP16ChargePointErrorCode.NO_ERROR, noOptions)]
          ++ (if sendsTransactionEndMeterValue st
              then [(METER_VALUES connectorId (Some tid)
                       (TransactionEnd
                          (Some (transactionEnergyActiveImportRegister c))),
                     noOptions)]
              else [])
          ++ [(STOP_TRANSACTION (Some tid)
                 (Some (transactionEnergyActiveImportRegister c))
                 (transactionIdTag c) None, noOptions)])
  /\ ((forall connectorId c,
         (0 < connectorId)%Z ->
         getConnectorStatus (Some connectorId) st = Some c ->
         transactionId c <> Some tid) ->
      handleRequestRemoteStopTransaction centralSystem tid st
      = (Normal OCPP_RESPONSE_REJECTED, st)).
Proof.
  split.
  - intros (id0 & c0 & Hpos0 & Hget0 & Htid0) Hcs.
    destruct (getConnectorIdByTransactionId_exists st (Some tid) id0 c0
                Hpos0 Hget0 Htid0) as [connectorId Hfind].
    destruct (getConnectorIdByTransactionId_Some st (Some tid) connectorId Hfind)
      as (c & Hget & Hpos & Htid & Hregister & Htag).
    exists connectorId, c.
    unfold handleRequestRemoteStopTransaction.
    rewrite run_bind_gets.
    change (find _ (Map_keys (connectors st)))
      with (getConnectorIdByTransactionId (Some tid) st).
    rewrite Hfind.
    set (notification := STATUS_NOTIFICATION connectorId
                           OCPP16ChargePointStatus.FINISHING
                           OCPP16ChargePointErrorCode.NO_ERROR).
    destruct (Hcs (outbound st) notification) as [a1 Ha1].
    erewrite run_bind by (apply run_requestHandler, Ha1).
    erewrite run_bind by (eapply run_updateConnectorStatus; exact Hget).
    set (st2 := set_connectors _ _).
    assert (Hconn : connectors st2
                    = Map_update connectorId
                        (set_status OCPP16ChargePointStatus.FINISHING)
                        (connectors st)) by reflexivity.
    rewrite run_bind_gets.
    change (getBeginEndMeterValues st2 && getOcppStrictCompliance st2
            && negb (getOutOfOrderEndMeterValues st2))
      with (sendsTransactionEndMeterValue st).
    assert (Hget2 : getConnectorStatus (Some connectorId) st2
                    = Some (set_status OCPP16ChargePointStatus.FINISHING c)).
    { rewrite (getConnectorStatus_set_status st st2 connectorId _ _ Hconn), Hget.
      rewrite decide_True by reflexivity. reflexivity. }
    assert (Hregister2 : getEnergyActiveImportRegisterByTransactionId (Some tid) st2
                         = Some (transactionEnergyActiveImportRegister c))
      by (rewrite (getEnergyActiveImportRegisterByTransactionId_set_status
                     st st2 _ _ _ Hconn); exact Hregister).
    assert (Htag2 : getTransactionIdTag (Some tid) st2 = transactionIdTag c)
      by (rewrite (getTransactionIdTag_set_status st st2 _ _ _ Hconn); exact Htag).
    destruct (sendsTransactionEndMeterValue st); unfold when.
    + set (mv := METER_VALUES connectorId (Some tid)
                   (TransactionEnd (Some (transactionEnergyActiveImportRegister c)))).
      destruct (Hcs (outbound st2) mv) as [a2 Ha2].
      erewrite run_bind.
      2:{ rewrite run_bind_gets, Hregister2. fold mv.
          erewrite run_bind by (apply run_requestHandler, Ha2). reflexivity. }
      set (st3 := set_outbound _ st2).
      rewrite !run_bind_gets.
      change (getEnergyActiveImportRegisterByTransactionId (Some tid) st3)
        with (getEnergyActiveImportRegisterByTransactionId (Some tid) st2).
      change (getTransactionIdTag (Some tid) st3)
        with (getTransactionIdTag (Some tid) st2).
      rewrite Hregister2, Htag2.
      set (stop := STOP_TRANSACTION _ _ _ _).
      destruct (Hcs (outbound st3) stop) as [a3 Ha3].
      erewrite run_bind by (apply run_requestHandler, Ha3).
      eexists. do 3 (split; [assumption|]). split; [reflexivity|].
      split; [exact Hget2|].
      subst stop; try subst st3; subst st2.
      cbn [outbound set_outbound set_connectors]. by rewrite <- ?app_assoc.
    + erewrite run_bind by reflexivity. rewrite !run_bind_gets.
      rewrite Hregister2, Htag2.
      set (stop := STOP_TRANSACTION _ _ _ _).
      destruct (Hcs (outbound st2) stop) as [a3 Ha3].
      erewrite run_bind by (apply run_requestHandler, Ha3).
      eexists. do 3 (split; [assumption|]). split; [reflexivity|].
      split; [exact Hget2|].
      subst stop; try subst st3; subst st2.
      cbn [outbound set_outbound set_connectors]. by rewrite <- ?app_assoc.
  - intros Hnone. unfold handleRequestRemoteStopTransaction.
    rewrite run_bind_gets.
    change (find _ (Map_keys (connectors st)))
      with (getConnectorIdByTransactionId (Some tid) st).
    destruct (getConnectorIdByTransactionId (Some tid) st) as [id|] eqn:Hfind;
      [|reflexivity].
    destruct (getConnectorIdByTransactionId_Some st (Some tid) id Hfind)
      as (c & Hget & Hpos & Htid & _).
    exfalso. exact (Hnone id c Hpos Hget Htid).
Qed.

End RemoteStopTransaction.

Lemma remoteStopTransaction_cases_witness :
  fst (handleRequestRemoteStopTransaction Sample.acceptAll 5 Sample.busyStation)
  = Normal OCPP_RESPONSE_ACCEPTED
  /\ handleRequestRemoteStopTransaction Sample.acceptAll 99 Sample.busyStation
     = (Normal OCPP_RESPONSE_REJECTED, Sample.busyStation).
Proof.
  split.
  - destruct (proj1 (remoteStopTransaction_cases Sample.acceptAll 5
                       Sample.busyStation))
      as (connectorId & c & st' & _ & _ & _ & Hrun & _).
    + exists 1%Z, (Sample.charging 5 "TAG" 1200).
      split; [reflexivity | split; reflexivity].
    + apply answering_acceptAll.
    + rewrite Hrun. reflexivity.
  - apply (proj2 (remoteStopTransaction_cases Sample.acceptAll 99
                    Sample.busyStation)).
    intros connectorId c _ Hget. cbn in Hget.
    repeat (destruct (decide _) in Hget;
            [injection Hget as <-; discriminate|]).
    discriminate.
Defined.

(** ** The automatic transaction generator *)

Section ATGStop.

Variable centralSystem : CentralSystem.
Variable reason : OCPP16StopTransactionReason.t.

(** One turn of the loop of [stop]. *)
Lemma run_stopOnConnector st o id c :
  ATG.getConnector id st = Some c ->
  (transactionStarted c = true ->
   is_Some (transactionId c)
   /\ getConnectorIdByTransactionId (transactionId c) st = Some id) ->
  answering centralSystem ->
  ATG.stopOnConnector centralSystem reason id (set_outbound o st)
  = (Normal tt,
     set_outbound
       (o ++ if transactionStarted c
             then [(stopTransactionOf (Some reason) c, noOptions)] else [])
       st).
Proof.
  intros Hget Hid Hcs. unfold ATG.stopOnConnector.
  rewrite run_bind_gets.
  change (ATG.getConnector id (set_outbound o st)) with (ATG.getConnector id st).
  rewrite Hget. destruct (transactionStarted c) eqn:Hstarted.
  - destruct (Hid eq_refl) as [[t Ht] Hfind].
    destruct (getConnectorIdByTransactionId_Some st _ _ Hfind)
      as (c' & Hget' & _ & _ & Hregister & Htag).
    unfold ATG.getConnector in Hget. rewrite Hget in Hget'.
    injection Hget' as <-.
    rewrite Ht in *. rewrite !run_bind_gets.
    change (getEnergyActiveImportRegisterByTransactionId (Some t) (set_outbound o st))
      with (getEnergyActiveImportRegisterByTransactionId (Some t) st).
    change (getTransactionIdTag (Some t) (set_outbound o st))
      with (getTransactionIdTag (Some t) st).
    rewrite Hregister, Htag. unfold ATG.sendStopTransaction.
    set (stop := STOP_TRANSACTION _ _ _ _).
    destruct (Hcs (outbound (set_outbound o st)) stop) as [a Ha].
    erewrite run_bind by (apply run_requestHandler, Ha).
    unfold stopTransactionOf. rewrite Ht. reflexivity.
  - rewrite app_nil_r. reflexivity.
Qed.

(** The requests that the loop sends for a list of connector ids. *)
Lemma run_stop_loop st ids o :
  (forall id, id ∈ ids -> is_Some (ATG.getConnector id st)) ->
  transactionsIdentified st ->
  answering centralSystem ->
  forEach ids (ATG.stopOnConnector centralSystem reason) (set_outbound o st)
  = (Normal tt,
     set_outbound
       (o ++ omap (fun id =>
                     c ← ATG.getConnector id st;
                     if transactionStarted c
                     then Some (stopTransactionOf (Some reason) c, noOptions)
                     else None) ids)
       st).
Proof.
  intros Hids Hident Hcs. revert o.
  induction ids as [|id ids IH]; intros o; cbn [forEach omap list_omap].
  - rewrite app_nil_r. reflexivity.
  - destruct (Hids id (list_elem_of_here _ _)) as [c Hget].
    erewrite run_bind
      by (apply (run_stopOnConnector st o id c Hget (Hident id c Hget) Hcs)).
    rewrite IH by (intros k Hk; apply Hids; by apply list_elem_of_further).
    rewrite Hget. cbn [mbind option_bind].
    destruct (transactionStarted c); cbn [app]; by rewrite <- ?app_assoc.
Qed.

(** With one entry per id, enumerating the ids and looking each one up is
    enumerating the entries. *)
Lemma omap_keys_entries {B} (f : ConnectorStatus -> option B)
    (m : list (Z * ConnectorStatus)) :
  NoDup (Map_keys m) ->
  omap (fun id => Map_get id m ≫= f) (Map_keys m)
  = omap (fun entry => f (snd entry)) m.
Proof.
  unfold Map_keys. induction m as [|[k c] m IH]; cbn [map omap list_omap fst snd];
    [reflexivity|].
  intros Hnodup. apply NoDup_cons in Hnodup as [Hk Hnodup].
  cbn [Map_get]. rewrite decide_True by reflexivity. cbn [mbind option_bind].
  assert (Hrest : omap (fun id =>
                          (if decide (k = id) then Some c else Map_get id m) ≫= f)
                    (map fst m)
                  = omap (fun id => Map_get id m ≫= f) (map fst m)).
  { apply list_omap_ext, Forall_Forall2_diag, Forall_forall. intros id Hid.
    rewrite decide_False by (intros ->; contradiction). reflexivity. }
  rewrite Hrest, (IH Hnodup). reflexivity.
Qed.

Lemma omap_started_entries (m : list (Z * ConnectorStatus)) :
  omap (fun entry =>
          if transactionStarted (snd entry)
          then Some (stopTransactionOf (Some reason) (snd entry), noOptions)
          else None) m
  = map (fun c => (stopTransactionOf (Some reason) c, noOptions))
      (map snd (List.filter (fun entry => transactionStarted (snd entry)) m)).
Proof.
  induction m as [|[k c] m IH]; cbn; [reflexivity|].
  destruct (transactionStarted c); cbn; by rewrite IH.
Qed.

Lemma Map_get_keys {V} (m : list (Z * V)) id :
  id ∈ Map_keys m -> is_Some (Map_get id m).
Proof.
  unfold Map_keys. induction m as [|[k x] m IH]; cbn; [inversion 1|].
  intros Hin. destruct (decide (k = id)); [eauto|].
  apply elem_of_cons in Hin as [->|Hin]; [contradiction | auto].
Qed.

End ATGStop.

(** Whenever [stop] returns normally, [timeToStop] is set. *)
Lemma stop_returns_timeToStop (centralSystem : CentralSystem)
    (reason : OCPP16StopTransactionReason.t)
    (atg : ATG.AutomaticTransactionGenerator) :
  fst (ATG.stop centralSystem reason atg) = Normal tt ->
  ATG.timeToStop (snd (ATG.stop centralSystem reason atg)) = true.
Proof.
  unfold ATG.stop.
  destruct (forEach _ _ _) as [[[]|e] st']; cbn; [reflexivity | discriminate].
Qed.

(** C7. [ATG.stop(reason)].  On a station whose connectors container holds
    one entry per id and whose running transactions are identified by their
    transaction ids, and with a Central System that answers, [stop] returns
    normally with [timeToStop] set, and what it has sent is exactly one
    StopTransaction for each connector whose [transactionStarted] was true,
    carrying that connector's transactionId, energy register and
    transaction idTag and the given reason; nothing is sent for the other
    connectors. *)
Theorem stop_sends_one_StopTransaction_per_started_connector
    (centralSystem : CentralSystem) (reason : OCPP16StopTransactionReason.t)
    (atg : ATG.AutomaticTransactionGenerator) :
  let st := ATG.chargingStation atg in
  uniqueConnectorIds st -> transactionsIdentified st ->
  answering centralSystem ->
  exists st',
    ATG.stop centralSystem reason atg
    = (Normal tt, {| ATG.timeToStop := true; ATG.chargingStation := st' |})
    /\ outbound st'
       = outbound st
         ++ map (fun c => (stopTransactionOf (Some reason) c, noOptions))
              (startedConnectors st)
    /\ connectors st' = connectors st.
Proof.
  intros st Hunique Hident Hcs. unfold ATG.stop. fold st.
  assert (Hst : st = set_outbound (outbound st) st) by (destruct st; reflexivity).
  assert (Hloop := run_stop_loop centralSystem reason st
                     (Map_keys (connectors st)) (outbound st)
                     (fun id Hid => Map_get_keys _ id Hid) Hident Hcs).
  rewrite <- Hst in Hloop. rewrite Hloop.
  eexists. split; [reflexivity|]. split; [|reflexivity].
  cbn [outbound set_outbound]. f_equal.
  unfold ATG.getConnector, getConnectorStatus, startedConnectors.
  rewrite <- omap_started_entries.
  apply (omap_keys_entries
           (fun c => if transactionStarted c
                     then Some (stopTransactionOf (Some reason) c, noOptions)
                     else None) (connectors st) Hunique).
Qed.


Lemma stop_sends_one_StopTransaction_per_started_connector_witness :
  exists st',
    ATG.stop Sample.acceptAll OCPP16StopTransactionReason.NONE
      {| ATG.timeToStop := false; ATG.chargingStation := Sample.twoCharging |}
    = (Normal tt, {| ATG.timeToStop := true; ATG.chargingStation := st' |})
    /\ outbound st'
       = [ (STOP_TRANSACTION (Some 5%Z) (Some 1200%Z) (Some "TAG")
              (Some OCPP16StopTransactionReason.NONE), noOptions);
           (STOP_TRANSACTION (Some 6%Z) (Some 300%Z) (Some "BADGE")
              (Some OCPP16StopTransactionReason.NONE), noOptions) ]
    /\ connectors st' = connectors Sample.twoCharging.
Proof.
  apply (stop_sends_one_StopTransaction_per_started_connector Sample.acceptAll
           OCPP16StopTransactionReason.NONE
           {| ATG.timeToStop := false; ATG.chargingStation := Sample.twoCharging |}).
  - apply (bool_decide_unpack _). vm_compute. exact I.
  - intros id c Hget Hstarted. cbn in Hget.
    repeat (destruct (decide _) as [<-|_] in Hget;
            [injection Hget as <-; first [discriminate Hstarted | split; [eexists|]; reflexivity]|]).
    discriminate.
  - apply answering_acceptAll.
Defined.

(** ** RemoteStartTransaction on connector 0 *)

Section RemoteStartTransaction.

Variable centralSystem : CentralSystem.

(** The rejection path on its own. *)
Lemma run_notifyRemoteStartTransactionRejected connectorId idTag st :
  let run := notifyRemoteStartTransactionRejected centralSystem connectorId idTag st in
  let notification :=
    (STATUS_NOTIFICATION connectorId OCPP16ChargePointStatus.AVAILABLE
       OCPP16ChargePointErrorCode.NO_ERROR, noOptions) in
  match getConnectorStatus (Some connectorId) st with
  | None => run = (Abrupt TypeError, st)
  | Some c =>
      if decide (status c = OCPP16ChargePointStatus.AVAILABLE)
      then run = (Normal OCPP_RESPONSE_REJECTED, st)
      else
        match centralSystem (outbound st)
                (STATUS_NOTIFICATION connectorId OCPP16ChargePointStatus.AVAILABLE
                   OCPP16ChargePointErrorCode.NO_ERROR) with
        | Some _ =>
            run = (Normal OCPP_RESPONSE_REJECTED,
                   set_connectors
                     (Map_update connectorId
                        (set_status OCPP16ChargePointStatus.AVAILABLE)
                        (connectors st))
                     (set_outbound (outbound st ++ [notification]) st))
        | None =>
            run = (Abrupt RequestError,
                   set_outbound (outbound st ++ [notification]) st)
        end
  end.
Proof.
  cbn zeta. unfold notifyRemoteStartTransactionRejected.
  rewrite run_bind_gets.
  destruct (getConnectorStatus (Some connectorId) st) as [c|] eqn:Hget;
    [|reflexivity].
  destruct (decide (status c = OCPP16ChargePointStatus.AVAILABLE)) as [Hs|Hs].
  - rewrite (bool_decide_eq_true_2 _ Hs). reflexivity.
  - rewrite (bool_decide_eq_false_2 _ Hs). unfold when. cbn [negb].
    destruct (centralSystem (outbound st) _) as [a|] eqn:Ha.
    + erewrite run_bind.
      2:{ erewrite run_bind by (apply run_requestHandler, Ha).
          eapply run_updateConnectorStatus. exact Hget. }
      reflexivity.
    + erewrite run_bind_abrupt; [reflexivity|].
      erewrite run_bind_abrupt; [reflexivity|].
      apply run_requestHandler_failed, Ha.
Qed.

(** C9. RemoteStartTransaction for connector 0 is rejected without any step
    of a remote start: nothing is sent but, at most, a
    StatusNotification(Available) for connector 0; no connector is put into
    the status Preparing (a connector that is Preparing afterwards is
    unchanged); and, connector 0 being part of the station and the Central
    System answering, the response is Rejected. *)
Theorem remoteStartTransaction_connector0
    (idTag : string) (cp : option OCPP16ChargingProfile) (st : ChargingStation) :
  let run := handleRequestRemoteStartTransaction centralSystem
               (remoteStartOnConnector0 idTag cp) st in
  (forall c, getConnectorStatus (Some 0%Z) st = Some c ->
             answering centralSystem ->
             fst run = Normal OCPP_RESPONSE_REJECTED)
  /\ (exists extra,
        outbound (snd run) = outbound st ++ extra
        /\ Forall (fun request => ~ startsTransaction (fst request)) extra)
  /\ (forall id c,
        getConnectorStatus (Some id) (snd run) = Some c ->
        status c = OCPP16ChargePointStatus.PREPARING ->
        getConnectorStatus (Some id) st = Some c).
Proof.
  cbn zeta. unfold handleRequestRemoteStartTransaction, remoteStartOnConnector0.
  cbn [remoteStart_connectorId remoteStart_idTag]. rewrite run_bind_gets.
  change (truthy 0) with false. cbn iota.
  pose proof (run_notifyRemoteStartTransactionRejected 0%Z idTag st) as Hrun.
  cbn zeta in Hrun.
  destruct (getConnectorStatus (Some 0%Z) st) as [c0|] eqn:Hget0.
  2:{ rewrite Hrun. split; [discriminate|]. split; [|auto].
      exists []. by rewrite app_nil_r. }
  destruct (decide (status c0 = OCPP16ChargePointStatus.AVAILABLE)) as [Hs|Hs].
  { rewrite Hrun. split; [reflexivity|]. split; [|auto].
    exists []. by rewrite app_nil_r. }
  split; [|split].
  - intros c _ Hcs.
    destruct (Hcs (outbound st)
                (STATUS_NOTIFICATION 0 OCPP16ChargePointStatus.AVAILABLE
                   OCPP16ChargePointErrorCode.NO_ERROR)) as [a Ha].
    rewrite Ha in Hrun. rewrite Hrun. reflexivity.
  - eexists [_]. split.
    + destruct (centralSystem (outbound st) _); rewrite Hrun; reflexivity.
    + constructor; [|constructor]. cbn. auto.
  - intros id c Hget Hstatus.
    destruct (centralSystem (outbound st) _); rewrite Hrun in Hget;
      cbn [snd] in Hget; [|exact Hget].
    erewrite getConnectorStatus_set_status in Hget by reflexivity.
    change (getConnectorStatus (Some id) (set_outbound ?o st))
      with (getConnectorStatus (Some id) st) in Hget.
    destruct (getConnectorStatus (Some id) st) as [c'|]; [|discriminate].
    destruct (decide (0%Z = id)); cbn in Hget; injection Hget as <-;
      [discriminate Hstatus | reflexivity].
Qed.

End RemoteStartTransaction.

Lemma remoteStartTransaction_connector0_witness :
  fst (handleRequestRemoteStartTransaction Sample.acceptAll
         (remoteStartOnConnector0 "TAG" None) Sample.busyStation)
  = Normal OCPP_RESPONSE_REJECTED.
Proof.
  apply (proj1 (remoteStartTransaction_connector0 Sample.acceptAll "TAG" None
                  Sample.busyStation) Sample.idle).
  - reflexivity.
  - apply answering_acceptAll.
Defined.

(** ** TriggerMessage(StatusNotification) *)

Section TriggerMessage.

Variable centralSystem : CentralSystem.

(** The loop of the callback over a list of connector ids. *)
Lemma run_triggerStatusNotification_loop st ids o :
  (forall id, id ∈ ids -> is_Some (getConnectorStatus (Some id) st)) ->
  forEach ids (triggerStatusNotification centralSystem) (set_outbound o st)
  = (Normal tt,
     set_outbound
       (o ++ omap (fun id =>
                     c ← Map_get id (connectors st);
                     Some (STATUS_NOTIFICATION id (status c)
                             OCPP16ChargePointErrorCode.NO_ERROR,
                           triggerOptions)) ids)
       st).
Proof.
  intros Hids. revert o.
  induction ids as [|id ids IH]; intros o; cbn [forEach omap list_omap].
  - rewrite app_nil_r. reflexivity.
  - destruct (Hids id (list_elem_of_here _ _)) as [c Hget].
    erewrite run_bind.
    2:{ unfold triggerStatusNotification. rewrite run_bind_gets.
        change (getConnectorStatus (Some id) (set_outbound o st))
          with (getConnectorStatus (Some id) st).
        rewrite Hget. unfold catch, requestHandler.
        cbn [outbound set_outbound].
        destruct (centralSystem o _); reflexivity. }
    change (set_outbound ?o' (set_outbound o st)) with (set_outbound o' st).
    rewrite IH by (intros k Hk; apply Hids; by apply list_elem_of_further).
    unfold getConnectorStatus in Hget. rewrite Hget. cbn [mbind option_bind].
    by rewrite <- app_assoc.
Qed.

Lemma omap_keys_statusNotifications (m : list (Z * ConnectorStatus)) :
  NoDup (Map_keys m) ->
  omap (fun id =>
          c ← Map_get id m;
          Some (STATUS_NOTIFICATION id (status c)
                  OCPP16ChargePointErrorCode.NO_ERROR, triggerOptions))
       (Map_keys m)
  = map (fun entry =>
           (STATUS_NOTIFICATION (fst entry) (status (snd entry))
              OCPP16ChargePointErrorCode.NO_ERROR, triggerOptions)) m.
Proof.
  unfold Map_keys. induction m as [|[k c] m IH];
    cbn [map omap list_omap fst snd]; [reflexivity|].
  intros Hnodup. apply NoDup_cons in Hnodup as [Hk Hnodup].
  cbn [Map_get]. rewrite decide_True by reflexivity. cbn [mbind option_bind].
  f_equal. rewrite <- (IH Hnodup).
  apply list_omap_ext, Forall_Forall2_diag, Forall_forall. intros id Hid.
  rewrite decide_False by (intros ->; contradiction). reflexivity.
Qed.

(** C10. With RemoteTrigger enabled, TriggerMessage(StatusNotification) for
    connectorId 0 behaves as the request without connectorId: both are
    answered Accepted at once and schedule a callback, and the two
    callbacks do the same on every station they run on; on a station with
    one entry per connector id the callback sends one StatusNotification
    per connector, each with that connector's status at that time, and not
    a single notification for connector 0. *)
Theorem triggerMessage_StatusNotification_connector0 (st : ChargingStation) :
  checkFeatureProfile st OCPP16SupportedFeatureProfiles.RemoteTrigger = true ->
  exists callback0 callbackAbsent,
    handleRequestTriggerMessage centralSystem
      (triggerStatusNotificationFor (Some 0%Z)) st
    = (Normal (OCPP_TRIGGER_MESSAGE_RESPONSE_ACCEPTED, Some callback0), st)
    /\ handleRequestTriggerMessage centralSystem
         (triggerStatusNotificationFor None) st
       = (Normal (OCPP_TRIGGER_MESSAGE_RESPONSE_ACCEPTED, Some callbackAbsent), st)
    /\ forall later : ChargingStation,
         callback0 later = callbackAbsent later
         /\ (uniqueConnectorIds later ->
             callback0 later
             = (Normal tt,
                set_outbound (outbound later ++ statusNotifications later) later)).
Proof.
  intros Hfeature.
  exists (triggerStatusNotifications centralSystem
            (triggerStatusNotificationFor (Some 0%Z))),
         (triggerStatusNotifications centralSystem
            (triggerStatusNotificationFor None)).
  unfold handleRequestTriggerMessage. rewrite !run_bind_gets, Hfeature.
  split; [reflexivity|]. split; [reflexivity|].
  intros later. split; [reflexivity|]. intros Hunique.
  unfold triggerStatusNotifications, triggerStatusNotificationFor.
  cbn [trigger_connectorId]. change (truthy 0) with false. cbn iota.
  rewrite run_bind_gets.
  assert (Hlater : later = set_outbound (outbound later) later)
    by (destruct later; reflexivity).
  pose proof (run_triggerStatusNotification_loop later
                (Map_keys (connectors later)) (outbound later)
                (fun id Hid => Map_get_keys _ id Hid)) as Hloop.
  rewrite <- Hlater in Hloop. rewrite Hloop.
  rewrite (omap_keys_statusNotifications _ Hunique). reflexivity.
Qed.

End TriggerMessage.

Lemma triggerMessage_StatusNotification_connector0_witness :
  exists callback,
    handleRequestTriggerMessage Sample.acceptAll
      (triggerStatusNotificationFor (Some 0%Z)) Sample.busyStation
    = (Normal (OCPP_TRIGGER_MESSAGE_RESPONSE_ACCEPTED, Some callback),
       Sample.busyStation)
    /\ callback Sample.busyStation
       = (Normal tt,
          set_outbound
            [ (STATUS_NOTIFICATION 0 OCPP16ChargePointStatus.AVAILABLE
                 OCPP16ChargePointErrorCode.NO_ERROR, triggerOptions);
              (STATUS_NOTIFICATION 1 OCPP16ChargePointStatus.CHARGING
                 OCPP16ChargePointErrorCode.NO_ERROR, triggerOptions);
              (STATUS_NOTIFICATION 2 OCPP16ChargePointStatus.AVAILABLE
                 OCPP16ChargePointErrorCode.NO_ERROR, triggerOptions) ]
            Sample.busyStation).
Proof.
  destruct (triggerMessage_StatusNotification_connector0 Sample.acceptAll
              Sample.busyStation)
    as (callback0 & callbackAbsent & Hzero & _ & Hlater); [reflexivity|].
  exists callback0. split; [exact Hzero|].
  destruct (Hlater Sample.busyStation) as [_ Hrun]. rewrite Hrun.
  - reflexivity.
  - apply (bool_decide_unpack _). vm_compute. exact I.
Defined.

(** ** ClearChargingProfile without connectorId *)

(** Without connectorId the lookup of the connector finds nothing, and the
    handler leaves at the guard against a non-existing connector: Unknown,
    and nothing is cleared. *)
Lemma clearChargingProfile_without_connectorId
    (id : option Z) (purpose : option ChargingProfilePurposeType.t)
    (level : option Z) (st : ChargingStation) :
  handleRequestClearChargingProfile
    {| clear_id := id; clear_connectorId := None;
       clear_chargingProfilePurpose := purpose; clear_stackLevel := level |} st
  = (Normal OCPP_CLEAR_CHARGING_PROFILE_RESPONSE_UNKNOWN, st).
Proof.
  unfold handleRequestClearChargingProfile. rewrite run_bind_gets.
  destruct (checkFeatureProfile st _); reflexivity.
Qed.

(** C2. Here the handler falls short of the specification, which has
    ClearChargingProfile by id clear the matching profiles of all
    connectors.  With SmartCharging enabled and connectors 1 and 2 each
    holding a profile with id 7, ClearChargingProfile(id = 7) without
    connectorId is answered Unknown and both profiles are still stored: the
    station is unchanged. *)
Theorem clearChargingProfile_by_id_clears_nothing :
  checkFeatureProfile Sample.twoProfiles OCPP16SupportedFeatureProfiles.SmartCharging
  = true
  /\ handleRequestClearChargingProfile Sample.clearProfile7 Sample.twoProfiles
     = (Normal OCPP_CLEAR_CHARGING_PROFILE_RESPONSE_UNKNOWN, Sample.twoProfiles).
Proof.
  split; [reflexivity|]. apply clearChargingProfile_without_connectorId.
Qed.

(** The loop over all connectors is reached with connectorId 0 only.  There
    a matching profile is not cleared either: the callback writes the empty
    profile into the stack of connector 0, through the alias of the
    requested connector, and the answer is Accepted. *)
Lemma clearChargingProfile_connector0_writes_to_connector0 :
  handleRequestClearChargingProfile
    {| clear_id := Some 7%Z; clear_connectorId := Some 0%Z;
       clear_chargingProfilePurpose := None; clear_stackLevel := None |}
    Sample.twoProfiles
  = (Normal OCPP_CLEAR_CHARGING_PROFILE_RESPONSE_ACCEPTED,
     set_connectors
       (Map_update 0 (set_chargingProfiles [Some emptyChargingProfile])
          (connectors Sample.twoProfiles))
       Sample.twoProfiles).
Proof. reflexivity. Qed.

(** ** The end-to-end scenarios of the specification, run on the embedding *)

(** RemoteStart, accepted path: no authorization required; connector 2
    becomes Preparing, StartTransaction(2, "AAA") is accepted, the response
    is Accepted and the connector is marked as remotely started. *)
Example scenario_remoteStart_accepted :
  handleRequestRemoteStartTransaction Sample.acceptAll
    {| remoteStart_connectorId := 2; remoteStart_idTag := "AAA";
       remoteStart_chargingProfile := None |}
    Sample.registeredStation
  = (Normal OCPP_RESPONSE_ACCEPTED,
     set_connectors
       [(0%Z, Sample.idle); (1%Z, Sample.idle);
        (2%Z, set_transactionRemoteStarted true
                (set_status OCPP16ChargePointStatus.PREPARING Sample.idle))]
       (set_outbound
          [ (STATUS_NOTIFICATION 2 OCPP16ChargePointStatus.PREPARING
               OCPP16ChargePointErrorCode.NO_ERROR, noOptions);
            (START_TRANSACTION 2 "AAA", noOptions) ]
          Sample.registeredStation)).
Proof. reflexivity. Qed.

(** RemoteStart with a local authorization miss: no Authorize is sent, the
    response is Rejected and the transient Preparing is rolled back with a
    StatusNotification(1, Available). *)
Example scenario_remoteStart_local_auth_miss :
  handleRequestRemoteStartTransaction Sample.acceptAll
    {| remoteStart_connectorId := 1; remoteStart_idTag := "BBB";
       remoteStart_chargingProfile := None |}
    Sample.localAuthStation
  = (Normal OCPP_RESPONSE_REJECTED,
     set_outbound
       [ (STATUS_NOTIFICATION 1 OCPP16ChargePointStatus.PREPARING
            OCPP16ChargePointErrorCode.NO_ERROR, noOptions);
         (STATUS_NOTIFICATION 1 OCPP16ChargePointStatus.AVAILABLE
            OCPP16ChargePointErrorCode.NO_ERROR, noOptions) ]
       Sample.localAuthStation).
Proof. reflexivity. Qed.

(** ClearChargingProfile for connector 1: all its profiles are cleared. *)
Example scenario_clearChargingProfile_connector :
  handleRequestClearChargingProfile
    {| clear_id := None; clear_connectorId := Some 1%Z;
       clear_chargingProfilePurpose := None; clear_stackLevel := None |}
    Sample.twoProfiles
  = (Normal OCPP_CLEAR_CHARGING_PROFILE_RESPONSE_ACCEPTED,
     set_connectors
       (Map_update 1 (set_chargingProfiles []) (connectors Sample.twoProfiles))
       Sample.twoProfiles).
Proof. reflexivity. Qed.

(** An assignment beyond the length of an array leaves holes. *)
Example scenario_array_holes :
  JsArray_set 2 emptyChargingProfile [] = [None; None; Some emptyChargingProfile].
Proof. reflexivity. Qed.

(** * Further properties of the embedded code *)

(** ** GetConfiguration *)

Section GetConfiguration.

Implicit Types (l : list OCPPConfigurationKey) (e : OCPPConfigurationKey).
Implicit Types (k : string) (st : ChargingStation).

Lemma reportAll_closed_form l :
  reportAll l
  = (map fillVisible l,
     map report (List.filter (fun e => negb (hidden e)) l)).
Proof.
  induction l as [|e l IH]; cbn [reportAll map List.filter]; [reflexivity|].
  rewrite IH. unfold fillVisible, hidden.
  destruct (visible e) as [[|]|] eqn:Hv; cbn.
  - destruct (decide (visible e = Some false)) as [H|H]; [congruence|].
    rewrite bool_decide_eq_false_2 by congruence. reflexivity.
  - destruct (decide (visible e = Some false)) as [H|H]; [|congruence].
    rewrite bool_decide_eq_true_2 by congruence. reflexivity.
  - rewrite bool_decide_eq_false_2 by congruence. reflexivity.
Qed.

Lemma report_fillVisible e : report (fillVisible e) = report e.
Proof. unfold fillVisible. destruct (visible e); reflexivity. Qed.

(** X1. GetConfiguration without keys ([key] absent or empty) reports
    exactly the stored entries that are not hidden, in the order of the
    store, and no unknown key; the only change it makes to the station is
    to fill in an undefined [visible] with [true], so that the keys, values
    and readonly flags of the store are the same afterwards. *)
Theorem getConfiguration_all_visible (st : ChargingStation) :
  let response :=
    {| response_configurationKey :=
         map report (List.filter (fun e => negb (hidden e)) (configurationKey st));
       response_unknownKey := [] |} in
  let st' := set_configurationKey (map fillVisible (configurationKey st)) st in
  handleRequestGetConfiguration None st = (Normal response, st')
  /\ handleRequestGetConfiguration (Some []) st = (Normal response, st')
  /\ map report (configurationKey st') = map report (configurationKey st).
Proof.
  cbn zeta. unfold handleRequestGetConfiguration. cbn [isEmptyArray].
  rewrite !run_bind_gets, reportAll_closed_form.
  split; [reflexivity|]. split; [reflexivity|].
  cbn [configurationKey set_configurationKey]. rewrite map_map.
  apply map_ext. intros e. apply report_fillVisible.
Qed.

Lemma sameReports_refl l : sameReports l l.
Proof. apply Forall_Forall2_diag, Forall_forall. intros e _. repeat split. Qed.

Lemma sameReports_trans l1 l2 l3 :
  sameReports l1 l2 -> sameReports l2 l3 -> sameReports l1 l3.
Proof.
  unfold sameReports. intros H12. revert l3.
  induction H12 as [|e1 e2 l1 l2 (?&?&?) _ IH]; intros l3 H23;
    inversion H23 as [|? e3 ? l3' (?&?&?) ?]; subst; constructor.
  - repeat split; congruence.
  - apply IH. assumption.
Qed.

Lemma sameReports_map_report l l' :
  sameReports l l' -> map report l = map report l'.
Proof.
  induction 1 as [|e e' l l' (Hr&_) _ IH]; cbn; [reflexivity|]. by rewrite Hr, IH.
Qed.

(** Filling in the [visible] of the first entry under a key. *)
Lemma sameReports_updateFirst k l e :
  find (keyMatches k false) l = Some e -> visible e = None ->
  sameReports l (updateFirst (keyMatches k false) (set_visible true) l).
Proof.
  induction l as [|x l IH]; cbn [find updateFirst]; [discriminate|].
  destruct (keyMatches k false x) eqn:Hx.
  - intros [= ->] Hv. constructor; [|apply sameReports_refl].
    unfold hidden. cbn. rewrite Hv. repeat split.
  - intros Hfind Hv. constructor; [repeat split | apply IH; assumption].
Qed.

Lemma find_sameReports k l l' :
  sameReports l l' ->
  option_Forall2
    (fun e e' => report e = report e' /\ hidden e = hidden e')
    (find (keyMatches k false) l) (find (keyMatches k false) l').
Proof.
  induction 1 as [|e e' l l' (Hr&Hh&_) _ IH]; cbn [find]; [constructor|].
  assert (Hk : keyMatches k false e' = keyMatches k false e).
  { apply keyMatches_key. apply (f_equal reported_key) in Hr. by symmetry. }
  rewrite Hk. destruct (keyMatches k false e); [by constructor | exact IH].
Qed.

Lemma reportedFor_sameReports st0 st k :
  sameReports (configurationKey st0) (configurationKey st) ->
  reportedFor st k = reportedFor st0 k /\ notStored st k = notStored st0 k.
Proof.
  intros H. unfold reportedFor, notStored, getConfigurationKey.
  destruct (find_sameReports k _ _ H) as [e e' (Hr&Hh)|]; cbn.
  - rewrite Hr, Hh. split; reflexivity.
  - split; reflexivity.
Qed.

(** The loop over the requested keys, in closed form. *)
Lemma reportKeys_closed_form st0 keys st :
  sameReports (configurationKey st0) (configurationKey st) ->
  exists st',
    reportKeys keys st
    = (Normal (omap (reportedFor st0) keys, List.filter (notStored st0) keys), st')
    /\ sameReports (configurationKey st0) (configurationKey st')
    /\ sameButConfiguration st st'.
Proof.
  revert st. induction keys as [|k keys IH]; intros st Hsame;
    cbn [reportKeys omap list_omap List.filter].
  - exists st. repeat split. exact Hsame.
  - destruct (reportedFor_sameReports st0 st k Hsame) as [Hrep Hnot].
    rewrite <- Hrep, <- Hnot. unfold reportedFor, notStored.
    rewrite run_bind_gets.
    destruct (getConfigurationKey k false st) as [e|] eqn:Hget.
    + cbn [mbind option_bind].
      rewrite ?bool_decide_eq_false_2 by discriminate. cbn [negb].
      rewrite run_when_modify.
      remember (if bool_decide (visible e = None)
                then set_configurationKey
                       (updateFirst (keyMatches k false) (set_visible true)
                          (configurationKey st)) st
                else st) as st1 eqn:Hst1.
      assert (Hst1' : sameReports (configurationKey st0) (configurationKey st1)
                      /\ sameButConfiguration st st1).
      { destruct (bool_decide_reflect (visible e = None)) as [Hv|Hv]; subst st1.
        - split; [|reflexivity]. eapply sameReports_trans; [exact Hsame|].
          apply (sameReports_updateFirst k _ e Hget Hv).
        - split; [exact Hsame | reflexivity]. }
      clear Hst1. destruct Hst1' as [Hsame1 Hframe1].
      destruct (IH st1 Hsame1) as (st' & Hrun & Hsame' & Hframe').
      exists st'. split; [|split; [exact Hsame' | congruence]].
      erewrite run_bind by exact Hrun. cbn beta iota.
      unfold hidden. destruct (decide (visible e = Some false)) as [Hh|Hh].
      * rewrite (bool_decide_eq_true_2 _ Hh). reflexivity.
      * rewrite (bool_decide_eq_false_2 _ Hh). reflexivity.
    + cbn [mbind option_bind].
      rewrite ?bool_decide_eq_true_2 by reflexivity.
      destruct (IH st Hsame) as (st' & Hrun & Hsame' & Hframe').
      exists st'. split; [|split; assumption].
      erewrite run_bind by exact Hrun. reflexivity.
Qed.

(** X2. GetConfiguration with requested keys goes through them in order:
    a key under which no entry is stored (keys are compared exactly) is
    listed as unknown, a key whose entry is hidden is passed over in silence
    and every other key is reported with the key, readonly flag and value
    of its entry; a key requested twice is answered twice.  The station
    changes in its configuration store only, where the keys, values and
    readonly flags stay as they are. *)
Theorem getConfiguration_requested_keys
    (st : ChargingStation) (k : string) (keys : list string) :
  exists st',
    handleRequestGetConfiguration (Some (k :: keys)) st
    = (Normal {| response_configurationKey := omap (reportedFor st) (k :: keys);
                 response_unknownKey := List.filter (notStored st) (k :: keys) |},
       st')
    /\ map report (configurationKey st') = map report (configurationKey st)
    /\ sameButConfiguration st st'.
Proof.
  destruct (reportKeys_closed_form st (k :: keys) st (sameReports_refl _))
    as (st' & Hrun & Hsame & Hframe).
  exists st'. split; [|split; [symmetry; by apply sameReports_map_report | exact Hframe]].
  unfold handleRequestGetConfiguration. cbn [isEmptyArray default from_option].
  unfold id. erewrite run_bind by exact Hrun. reflexivity.
Qed.

End GetConfiguration.

(** ** ChangeConfiguration *)

Section ChangeConfiguration.

Implicit Types (l : list OCPPConfigurationKey) (e : OCPPConfigurationKey).
Implicit Types (k v : string) (st : ChargingStation).

Local Abbreviation WSP := OCPP16StandardParametersKey.WebSocketPingInterval.

(** Rewriting the first entry that answers to one key does not disturb
    the lookup of a key that resolves to another entry. *)
Lemma find_updateFirst_miss k ci k' ci' v l :
  (forall x, find (keyMatches k ci) l = Some x -> keyMatches k' ci' x = false) ->
  find (keyMatches k ci) (updateFirst (keyMatches k' ci') (set_value v) l)
  = find (keyMatches k ci) l.
Proof.
  induction l as [|x l IH]; cbn [find updateFirst]; [reflexivity|]. intros Hmiss.
  destruct (keyMatches k' ci' x) eqn:Hq; cbn [find].
  - rewrite keyMatches_set_value.
    destruct (keyMatches k ci x) eqn:Hp; [|reflexivity].
    specialize (Hmiss x eq_refl). congruence.
  - destruct (keyMatches k ci x); [reflexivity | apply IH, Hmiss].
Qed.

Lemma find_updateFirst_hit k ci v l :
  find (keyMatches k ci) (updateFirst (keyMatches k ci) (set_value v) l)
  = set_value v <$> find (keyMatches k ci) l.
Proof.
  induction l as [|x l IH]; cbn [find updateFirst]; [reflexivity|].
  destruct (keyMatches k ci x) eqn:Hp; cbn [find].
  - rewrite keyMatches_set_value, Hp. reflexivity.
  - rewrite Hp. exact IH.
Qed.

(** The entry a key resolves to, after it has been written. *)
Lemma getConfigurationKey_written k v st e :
  getConfigurationKey k true st = Some e -> readonly e = false ->
  getConfigurationKey k true (setConfigurationKeyValue k v true st)
  = Some (set_value v e)
  /\ getConfigurationKey (key e) false (setConfigurationKeyValue k v true st)
     = Some (set_value v e).
Proof.
  intros Hget Hro. unfold setConfigurationKeyValue. rewrite Hget, Hro.
  unfold getConfigurationKey in *. cbn [configurationKey set_configurationKey].
  split.
  - rewrite find_updateFirst_hit, Hget. reflexivity.
  - apply find_updateFirst_same; [exact Hget | reflexivity |].
    intros x Hx. destruct (find_Some_holds _ _ _ Hget) as [He _].
    unfold keyMatches in *. apply bool_decide_eq_true_1 in Hx, He.
    apply bool_decide_eq_true_2. congruence.
Qed.

(** A write under the exact key [k1] leaves the resolution of a key that
    leads to an entry stored under another key. *)
Lemma getConfigurationKey_other_write k ci k1 v st :
  (forall x, getConfigurationKey k ci st = Some x -> key x <> k1) ->
  getConfigurationKey k ci (setConfigurationKeyValue k1 v false st)
  = getConfigurationKey k ci st.
Proof.
  intros Hne. unfold setConfigurationKeyValue.
  destruct (getConfigurationKey k1 false st) as [e1|]; [|reflexivity].
  destruct (readonly e1); [reflexivity|].
  unfold getConfigurationKey in *. cbn [configurationKey set_configurationKey].
  apply find_updateFirst_miss. intros x Hx. specialize (Hne x Hx).
  unfold keyMatches. by apply bool_decide_eq_false_2.
Qed.

Lemma webSocketPingRestarts_setConfigurationKeyValue k v ci st :
  webSocketPingRestarts (setConfigurationKeyValue k v ci st)
  = webSocketPingRestarts st.
Proof.
  unfold setConfigurationKeyValue.
  destruct (getConfigurationKey k ci st) as [e|]; [destruct (readonly e)|];
    reflexivity.
Qed.

(** The run of the handler on a request that changes a value. *)
Lemma changeConfiguration_run_changed k v st e :
  getConfigurationKey k true st = Some e -> readonly e = false ->
  value e <> v ->
  handleRequestChangeConfiguration k v st
  = (Normal (if reboot e then OCPP_CONFIGURATION_RESPONSE_REBOOT_REQUIRED
             else OCPP_CONFIGURATION_RESPONSE_ACCEPTED),
     changedStation k v e st).
Proof.
  intros Hget Hro Hv. unfold changedStation.
  destruct (decide (heartbeatAlias (key e))) as [Halias|Halias].
  - apply changeConfiguration_run_alias; assumption.
  - unfold handleRequestChangeConfiguration. unfold_M.
    rewrite Hget, Hro. rewrite (bool_decide_eq_false_2 _ Hv).
    rewrite (bool_decide_eq_false_2
               (key e = OCPP16StandardParametersKey.HeartBeatInterval))
      by (intros H; apply Halias; right; exact H).
    rewrite (bool_decide_eq_false_2
               (key e = OCPP16StandardParametersKey.HeartbeatInterval))
      by (intros H; apply Halias; left; exact H).
    cbn. destruct (decide (key e = WSP)) as [Hk|Hk].
    + rewrite (bool_decide_eq_true_2 _ Hk). cbn. destruct (reboot e); reflexivity.
    + rewrite (bool_decide_eq_false_2 _ Hk). cbn. destruct (reboot e); reflexivity.
Qed.

(** What a changing request leaves behind. *)
Lemma changedStation_facts k v st e :
  getConfigurationKey k true st = Some e -> readonly e = false ->
  let st' := changedStation k v e st in
  getConfigurationKey k true st' = Some (set_value v e)
  /\ getConfigurationKey (key e) false st' = Some (set_value v e)
  /\ heartbeatRestarts st'
     = (if decide (heartbeatAlias (key e)) then S else fun n => n)
         (heartbeatRestarts st)
  /\ webSocketPingRestarts st'
     = (if decide (key e = WSP) then S else fun n => n)
         (webSocketPingRestarts st).
Proof.
  intros Hget Hro. cbn zeta. unfold changedStation.
  destruct (getConfigurationKey_written k v st e Hget Hro) as [Hci Hcs].
  destruct (decide (heartbeatAlias (key e))) as [Halias|Halias].
  - change (getConfigurationKey ?a ?b (restartHeartbeat ?s))
      with (getConfigurationKey a b s).
    rewrite !getConfigurationKey_other_write.
    + split; [exact Hci|]. split; [exact Hcs|]. cbn.
      rewrite !heartbeatRestarts_setConfigurationKeyValue,
        !webSocketPingRestarts_setConfigurationKeyValue.
      split; [reflexivity|].
      destruct (decide (key e = WSP)) as [Hk|]; [|reflexivity].
      destruct Halias as [Ha|Ha]; rewrite Ha in Hk; discriminate.
    + intros x Hx. rewrite Hcs in Hx. injection Hx as <-. cbn.
      apply siblingAlias_neq, Halias.
    + intros x Hx. rewrite Hci in Hx. injection Hx as <-. cbn.
      apply siblingAlias_neq, Halias.
  - destruct (decide (key e = WSP)).
    + split; [exact Hci|]. split; [exact Hcs|]. cbn.
      rewrite heartbeatRestarts_setConfigurationKeyValue,
        webSocketPingRestarts_setConfigurationKeyValue. split; reflexivity.
    + split; [exact Hci|]. split; [exact Hcs|].
      rewrite heartbeatRestarts_setConfigurationKeyValue,
        webSocketPingRestarts_setConfigurationKeyValue. split; reflexivity.
Qed.

End ChangeConfiguration.

Section ChangeConfigurationProperties.

Implicit Types (e : OCPPConfigurationKey) (k v : string) (st : ChargingStation).

Local Abbreviation WSP := OCPP16StandardParametersKey.WebSocketPingInterval.

(** X3. Round trip. When the key of a ChangeConfiguration request
    resolves, without regard to letter case, to a writable entry that is
    not hidden, a GetConfiguration for the stored key of that entry,
    answered after the change, reports exactly that entry with the
    requested value and no unknown key. *)
Theorem changeConfiguration_then_getConfiguration k v st e :
  getConfigurationKey k true st = Some e ->
  readonly e = false ->
  visible e <> Some false ->
  fst (handleRequestGetConfiguration (Some [key e])
         (snd (handleRequestChangeConfiguration k v st)))
  = Normal {| response_configurationKey :=
                [ {| reported_key := key e; reported_readonly := false;
                     reported_value := v |} ];
              response_unknownKey := [] |}.
Proof.
  intros Hget Hro Hvis.
  destruct (decide (value e = v)) as [Hv|Hv].
  - rewrite (changeConfiguration_run_same k v st e Hget Hro Hv). cbn [snd].
    pose proof (getConfigurationKey_insensitive_sensitive k st e Hget) as Hs.
    rewrite (getConfiguration_single (key e) st e Hs Hvis).
    unfold report. rewrite Hro, Hv. reflexivity.
  - rewrite (changeConfiguration_run_changed k v st e Hget Hro Hv). cbn [snd].
    destruct (changedStation_facts k v st e Hget Hro) as (_ & Hs & _).
    rewrite (getConfiguration_single (key e) _ (set_value v e) Hs Hvis).
    unfold report. cbn. rewrite Hro. reflexivity.
Qed.

(** X4. Effect of ChangeConfiguration. A request that changes no value
    (unknown key, read-only entry, or the value already stored) leaves
    the station as it was.  A request that changes the value of an entry
    stores the value under that entry's key, restarts the heartbeat once
    exactly when the entry is stored under one of the two heartbeat alias
    keys, and restarts the WebSocket ping once exactly when it is stored
    under WebSocketPingInterval. *)
Theorem changeConfiguration_effect k v st :
  let st' := snd (handleRequestChangeConfiguration k v st) in
  match changedEntry k v st with
  | None => st' = st
  | Some e =>
      storedValue (key e) st' = Some v
      /\ heartbeatRestarts st'
         = (if decide (heartbeatAlias (key e)) then S else fun n => n)
             (heartbeatRestarts st)
      /\ webSocketPingRestarts st'
         = (if decide (key e = WSP) then S else fun n => n)
             (webSocketPingRestarts st)
  end.
Proof.
  cbn zeta. unfold changedEntry.
  destruct (getConfigurationKey k true st) as [e|] eqn:Hget; cbn.
  - destruct (readonly e) eqn:Hro; cbn.
    + rewrite (changeConfiguration_run_readonly k v st e Hget Hro). reflexivity.
    + destruct (bool_decide_reflect (value e = v)) as [Hv|Hv].
      * rewrite (changeConfiguration_run_same k v st e Hget Hro Hv). reflexivity.
      * rewrite (changeConfiguration_run_changed k v st e Hget Hro Hv). cbn [snd].
        destruct (changedStation_facts k v st e Hget Hro) as (_ & Hs & Hhb & Hws).
        split; [|split; assumption]. unfold storedValue. rewrite Hs. reflexivity.
  - rewrite (changeConfiguration_run_unknown k v st Hget). reflexivity.
Qed.

(** X5. Idempotence. Repeating a ChangeConfiguration request right after
    it was handled gives the same answer again and leaves the station as
    the first request left it: no second write, no second restart. *)
Theorem changeConfiguration_idempotent k v st :
  let first := handleRequestChangeConfiguration k v st in
  handleRequestChangeConfiguration k v (snd first) = first.
Proof.
  cbn zeta.
  destruct (getConfigurationKey k true st) as [e|] eqn:Hget.
  - destruct (readonly e) eqn:Hro.
    + rewrite (changeConfiguration_run_readonly k v st e Hget Hro). cbn [snd].
      apply (changeConfiguration_run_readonly k v st e); assumption.
    + destruct (decide (value e = v)) as [Hv|Hv].
      * rewrite (changeConfiguration_run_same k v st e Hget Hro Hv). cbn [snd].
        apply (changeConfiguration_run_same k v st e); assumption.
      * rewrite (changeConfiguration_run_changed k v st e Hget Hro Hv). cbn [snd].
        destruct (changedStation_facts k v st e Hget Hro) as (Hci & _).
        rewrite (changeConfiguration_run_same k v _ (set_value v e) Hci Hro eq_refl).
        reflexivity.
  - rewrite (changeConfiguration_run_unknown k v st Hget). cbn [snd].
    apply changeConfiguration_run_unknown; assumption.
Qed.

End ChangeConfigurationProperties.

Lemma changeConfiguration_then_getConfiguration_witness :
  fst (handleRequestGetConfiguration (Some ["HeartbeatInterval"])
         (snd (handleRequestChangeConfiguration "heartbeatinterval" "30"
                 Sample.heartbeatStation)))
  = Normal {| response_configurationKey :=
                [ {| reported_key := "HeartbeatInterval";
                     reported_readonly := false; reported_value := "30" |} ];
              response_unknownKey := [] |}.
Proof.
  apply (changeConfiguration_then_getConfiguration "heartbeatinterval" "30"
           Sample.heartbeatStation (Sample.entry "HeartbeatInterval" "60")).
  - reflexivity.
  - reflexivity.
  - discriminate.
Defined.

(** ** ChangeConfiguration: how the key is resolved, continued *)

Section KeyResolution.

Implicit Types (e : OCPPConfigurationKey) (k v : string) (st : ChargingStation).

(** The lookup finds the first entry that answers to the key. *)
Lemma find_first_match {A} (p : A -> bool) (before after : list A) (x : A) :
  (forall y, y ∈ before -> p y = false) -> p x = true ->
  find p (before ++ x :: after) = Some x.
Proof.
  intros Hbefore Hx. induction before as [|y before IH]; cbn [app find].
  - by rewrite Hx.
  - rewrite (Hbefore y (list_elem_of_here _ _)). apply IH.
    intros z Hz. apply Hbefore. by apply list_elem_of_further.
Qed.

(** C8, amended. ChangeConfiguration looks its key up without regard to
    letter case.  A key that differs from every stored key even up to
    case is unknown: the answer is NotSupported and the station, hence
    every stored value, is unchanged.  A key that equals some stored key
    up to case is never answered NotSupported: the request is handled on
    the first stored entry whose key agrees with it up to case.  If that
    entry is read-only the answer is Rejected and the station is
    unchanged; otherwise the value is written to that entry, where it
    reads back under the entry's own key, and the answer is RebootRequired
    if the entry's reboot flag is set and Accepted if not. *)
Theorem changeConfiguration_case_insensitive k v st :
  ((forall e, e ∈ configurationKey st -> toLowerCase (key e) <> toLowerCase k) ->
     handleRequestChangeConfiguration k v st
     = (Normal OCPP_CONFIGURATION_RESPONSE_NOT_SUPPORTED, st))
  /\ (forall e, e ∈ configurationKey st -> toLowerCase (key e) = toLowerCase k ->
        fst (handleRequestChangeConfiguration k v st)
        <> Normal OCPP_CONFIGURATION_RESPONSE_NOT_SUPPORTED)
  /\ (forall before e after,
        configurationKey st = before ++ e :: after ->
        toLowerCase (key e) = toLowerCase k ->
        (forall x, x ∈ before -> toLowerCase (key x) <> toLowerCase k) ->
        let result := handleRequestChangeConfiguration k v st in
        fst result
        = Normal (if readonly e then OCPP_CONFIGURATION_RESPONSE_REJECTED
                  else if reboot e
                       then OCPP_CONFIGURATION_RESPONSE_REBOOT_REQUIRED
                       else OCPP_CONFIGURATION_RESPONSE_ACCEPTED)
        /\ (readonly e = true -> snd result = st)
        /\ (readonly e = false -> storedValue (key e) (snd result) = Some v)).
Proof.
  split; [|split].
  - intros Hno.
    apply changeConfiguration_run_unknown.
    unfold getConfigurationKey. apply find_None_iff. intros e He.
    unfold keyMatches. apply bool_decide_eq_false_2, Hno, He.
  - intros e He Hmatch.
    destruct (getConfigurationKey k true st) as [e'|] eqn:Hget.
    + destruct (readonly e') eqn:Hro.
      * rewrite (changeConfiguration_run_readonly k v st e' Hget Hro).
        discriminate.
      * destruct (decide (value e' = v)) as [Hv|Hv].
        -- rewrite (changeConfiguration_run_same k v st e' Hget Hro Hv).
           cbn. destruct (reboot e'); discriminate.
        -- rewrite (changeConfiguration_run_changed k v st e' Hget Hro Hv).
           cbn. destruct (reboot e'); discriminate.
    + unfold getConfigurationKey in Hget.
      pose proof (proj1 (find_None_iff _ _) Hget e He) as Hk.
      unfold keyMatches in Hk. apply bool_decide_eq_false_1 in Hk.
      contradiction.
  - intros before e after Hstored Hmatch Hbefore. cbn zeta.
    assert (Hget : getConfigurationKey k true st = Some e).
    { unfold getConfigurationKey. rewrite Hstored. apply find_first_match.
      - intros x Hx. unfold keyMatches.
        apply bool_decide_eq_false_2, Hbefore, Hx.
      - unfold keyMatches. by apply bool_decide_eq_true_2. }
    destruct (readonly e) eqn:Hro.
    + rewrite (changeConfiguration_run_readonly k v st e Hget Hro). cbn.
      split; [reflexivity|]. split; [reflexivity | discriminate].
    + destruct (decide (value e = v)) as [Hv|Hv].
      * rewrite (changeConfiguration_run_same k v st e Hget Hro Hv). cbn.
        split; [reflexivity|]. split; [discriminate|]. intros _.
        unfold storedValue.
        rewrite (getConfigurationKey_insensitive_sensitive k st e Hget).
        cbn. by rewrite Hv.
      * rewrite (changeConfiguration_run_changed k v st e Hget Hro Hv). cbn.
        split; [reflexivity|]. split; [discriminate|]. intros _.
        destruct (changedStation_facts k v st e Hget Hro) as (_ & Hs & _).
        unfold storedValue. rewrite Hs. reflexivity.
Qed.

End KeyResolution.

Lemma changeConfiguration_case_insensitive_witness :
  handleRequestChangeConfiguration "websocketpinginterval" "30"
    Sample.heartbeatStation
  = (Normal OCPP_CONFIGURATION_RESPONSE_NOT_SUPPORTED, Sample.heartbeatStation)
  /\ fst (handleRequestChangeConfiguration "heartbeatinterval" "30"
            Sample.heartbeatStation)
     <> Normal OCPP_CONFIGURATION_RESPONSE_NOT_SUPPORTED
  /\ (let result := handleRequestChangeConfiguration "HeartBeatInterval" "30"
                      Sample.heartbeatStation in
      let e := Sample.entry "HeartbeatInterval" "60" in
      fst result
      = Normal (if readonly e then OCPP_CONFIGURATION_RESPONSE_REJECTED
                else if reboot e
                     then OCPP_CONFIGURATION_RESPONSE_REBOOT_REQUIRED
                     else OCPP_CONFIGURATION_RESPONSE_ACCEPTED)
      /\ (readonly e = true -> snd result = Sample.heartbeatStation)
      /\ (readonly e = false ->
          storedValue "HeartbeatInterval" (snd result) = Some "30")).
Proof.
  split; [|split].
  - apply (proj1 (changeConfiguration_case_insensitive
                    "websocketpinginterval" "30" Sample.heartbeatStation)).
    intros e He. cbn in He.
    repeat (apply elem_of_cons in He as [-> | He]; [discriminate|]).
    inversion He.
  - apply (proj1 (proj2 (changeConfiguration_case_insensitive
                           "heartbeatinterval" "30" Sample.heartbeatStation))
             (Sample.entry "HeartbeatInterval" "60")).
    + apply list_elem_of_here.
    + reflexivity.
  - apply (proj2 (proj2 (changeConfiguration_case_insensitive
                           "HeartBeatInterval" "30" Sample.heartbeatStation))
             [] (Sample.entry "HeartbeatInterval" "60")
             [Sample.entry "HeartBeatInterval" "60"]).
    + reflexivity.
    + reflexivity.
    + intros x Hx. inversion Hx.
Defined.

(** ** ClearChargingProfile *)

Section ClearChargingProfile.

Implicit Types (st : ChargingStation) (c : ConnectorStatus).

Local Abbreviation SmartCharging := OCPP16SupportedFeatureProfiles.SmartCharging.

(** A loop whose body keeps an invariant of the station and completes
    normally does so as a whole. *)
Lemma foldM_invariant {A B} (I : ChargingStation -> Prop) (f : B -> A -> M B)
    (l : list A) (b : B) st :
  I st ->
  (forall b x st, I st -> exists b' st', f b x st = (Normal b', st') /\ I st') ->
  exists b' st', foldM f b l st = (Normal b', st') /\ I st'.
Proof.
  intros HI Hstep. revert b st HI.
  induction l as [|x l IH]; intros b st HI; cbn [foldM].
  - exists b, st. split; [reflexivity | exact HI].
  - destruct (Hstep b x st HI) as (b1 & st1 & Hrun & HI1).
    rewrite (run_bind _ _ _ _ _ Hrun). apply IH, HI1.
Qed.

Lemma Map_update_absent {V} id (f : V -> V) (m : list (Z * V)) :
  Map_get id m = None -> Map_update id f m = m.
Proof.
  induction m as [|[k x] m IH]; cbn; [reflexivity|].
  destruct (decide (k = id)); [discriminate|]. intros H. by rewrite IH.
Qed.

Lemma Map_update_update {V} id (f g : V -> V) (m : list (Z * V)) :
  Map_update id f (Map_update id g m) = Map_update id (fun x => f (g x)) m.
Proof.
  induction m as [|[k x] m IH]; cbn; [reflexivity|].
  destruct (decide (k = id)) as [->|Hk]; cbn.
  - rewrite decide_True by reflexivity. reflexivity.
  - rewrite decide_False by assumption. by rewrite IH.
Qed.

Lemma Map_update_same id c (m : list (Z * ConnectorStatus)) :
  Map_get id m = Some c ->
  Map_update id (set_chargingProfiles (chargingProfiles c)) m = m.
Proof.
  induction m as [|[k x] m IH]; cbn; [reflexivity|].
  destruct (decide (k = id)).
  - intros [= ->]. by destruct c.
  - intros H. by rewrite IH.
Qed.

Lemma set_connectors_same st : set_connectors (connectors st) st = st.
Proof. by destruct st. Qed.

(** The station after the stack of connector [id] has been rewritten. *)
Local Abbreviation withProfiles id ps st :=
  (set_connectors (Map_update id (set_chargingProfiles ps) (connectors st)) st).

Lemma withProfiles_again id ps f st c :
  getConnectorStatus (Some id) st = Some c ->
  exists ps',
    updateConnectorStatus id
      (fun c => set_chargingProfiles (f (chargingProfiles c)) c)
      (withProfiles id ps st)
    = (Normal tt, withProfiles id ps' st).
Proof.
  intros Hc. exists (f ps).
  erewrite run_updateConnectorStatus.
  2:{ cbn. rewrite Map_get_update_eq. cbn in Hc. rewrite Hc. reflexivity. }
  cbn. rewrite Map_update_update. reflexivity.
Qed.

(** X6. ClearChargingProfile on one connector. With SmartCharging
    enabled and a connectorId other than 0, the answer is Accepted exactly
    when that connector exists and holds a profile; then the whole stack
    of that connector is emptied, whatever id, purpose and stack level the
    request names, and no other connector is touched.  Otherwise the
    answer is Unknown and the station is unchanged. *)
Theorem clearChargingProfile_on_connector
    (req : ClearChargingProfileRequest) (id : Z) st :
  checkFeatureProfile st SmartCharging = true ->
  clear_connectorId req = Some id ->
  id <> 0%Z ->
  exists r st',
    handleRequestClearChargingProfile req st = (Normal r, st')
    /\ (r = OCPP_CLEAR_CHARGING_PROFILE_RESPONSE_ACCEPTED
        <-> exists c, getConnectorStatus (Some id) st = Some c
                      /\ chargingProfiles c <> [])
    /\ (r = OCPP_CLEAR_CHARGING_PROFILE_RESPONSE_ACCEPTED ->
        chargingProfiles <$> getConnectorStatus (Some id) st' = Some []
        /\ forall j, j <> id ->
             getConnectorStatus (Some j) st' = getConnectorStatus (Some j) st)
    /\ (r <> OCPP_CLEAR_CHARGING_PROFILE_RESPONSE_ACCEPTED ->
        r = OCPP_CLEAR_CHARGING_PROFILE_RESPONSE_UNKNOWN /\ st' = st).
Proof.
  intros Hsc Hid Hne. unfold handleRequestClearChargingProfile.
  rewrite run_bind_gets, Hsc. cbn [negb]. rewrite run_bind_gets, Hid.
  destruct (getConnectorStatus (Some id) st) as [c|] eqn:Hc.
  - assert (Ht : truthyOpt (Some id) = true).
    { unfold truthyOpt, truthy. by rewrite bool_decide_eq_false_2. }
    rewrite Ht. cbn [andb negb].
    destruct (chargingProfiles c) as [|p ps] eqn:Hps; cbn [isEmptyArray negb].
    + exists OCPP_CLEAR_CHARGING_PROFILE_RESPONSE_UNKNOWN, st.
      split; [reflexivity|]. split; [|split].
      * split; [discriminate|]. intros (c' & [= <-] & Hc'). congruence.
      * discriminate.
      * done.
    + exists OCPP_CLEAR_CHARGING_PROFILE_RESPONSE_ACCEPTED,
        (withProfiles id [] st).
      split.
      { unfold updateAlias.
        rewrite (run_bind _ _ _ _ _
                   (run_updateConnectorStatus id _ st c Hc)).
        reflexivity. }
      split; [|split].
      * split; [|done]. intros _. exists c. split; [reflexivity|]. congruence.
      * intros _. cbn. split.
        -- rewrite Map_get_update_eq. cbn in Hc. rewrite Hc. reflexivity.
        -- intros j Hj. apply Map_get_update_ne. congruence.
      * done.
  - exists OCPP_CLEAR_CHARGING_PROFILE_RESPONSE_UNKNOWN, st.
    split; [reflexivity|]. split; [|split].
    + split; [discriminate|]. intros (c' & [=] & _).
    + discriminate.
    + done.
Qed.

(** X7. ClearChargingProfile with connectorId 0. Whatever the request
    selects and whatever the connectors hold, the handler completes
    normally and the station it leaves differs from the one it found at
    most in the profile stack of connector 0: the profiles stored on every
    other connector are still there. *)
Theorem clearChargingProfile_connector0_touches_connector0_only
    (req : ClearChargingProfileRequest) st :
  clear_connectorId req = Some 0%Z ->
  exists r ps,
    handleRequestClearChargingProfile req st
    = (Normal r, withProfiles 0%Z ps st)
    /\ forall j, j <> 0%Z ->
         getConnectorStatus (Some j) (withProfiles 0%Z ps st)
         = getConnectorStatus (Some j) st.
Proof.
  intros Hid.
  assert (Hothers : forall ps j, j <> 0%Z ->
            getConnectorStatus (Some j) (withProfiles 0%Z ps st)
            = getConnectorStatus (Some j) st).
  { intros ps j Hj. cbn. apply Map_get_update_ne. congruence. }
  assert (Hunchanged : exists ps, st = withProfiles 0%Z ps st).
  { destruct (getConnectorStatus (Some 0%Z) st) as [c|] eqn:Hc.
    - exists (chargingProfiles c). cbn in Hc.
      by rewrite (Map_update_same _ _ _ Hc), set_connectors_same.
    - exists []. cbn in Hc.
      by rewrite (Map_update_absent _ _ _ Hc), set_connectors_same. }
  destruct Hunchanged as [ps0 Hps0].
  unfold handleRequestClearChargingProfile. rewrite run_bind_gets.
  destruct (checkFeatureProfile st SmartCharging); cbn [negb].
  2:{ exists OCPP_CLEAR_CHARGING_PROFILE_RESPONSE_UNKNOWN, ps0.
      split; [|apply Hothers]. unfold_M. congruence. }
  rewrite run_bind_gets, Hid.
  destruct (getConnectorStatus (Some 0%Z) st) as [c0|] eqn:Hc0.
  2:{ exists OCPP_CLEAR_CHARGING_PROFILE_RESPONSE_UNKNOWN, ps0.
      split; [|apply Hothers]. unfold_M. congruence. }
  change (truthyOpt (Some 0%Z)) with false. cbn [andb negb].
  rewrite run_bind_gets.
  set (I := fun st' => exists ps, st' = withProfiles 0%Z ps st).
  match goal with
  | |- context [foldM ?f false ?l] =>
      destruct (foldM_invariant I f l false st) as (b & st' & Hrun & ps & ->)
  end.
  - by exists ps0.
  - intros b connectorId st1 HI. rewrite run_bind_gets.
    match goal with
    | |- context [isEmptyArray ?p] => destruct (isEmptyArray p)
    end; [by exists b, st1|].
    apply foldM_invariant; [exact HI|].
    clear st1 HI b. intros b index st1 [ps ->]. rewrite run_bind_gets.
    match goal with
    | |- context [match ?slot with Some _ => _ | None => _ end] =>
        destruct slot as [chargingProfile|]
    end; [|exists b; eexists; split; [reflexivity | by exists ps]].
    destruct (clearCurrentCP req chargingProfile);
      [|exists b; eexists; split; [reflexivity | by exists ps]].
    unfold updateAlias.
    destruct (withProfiles_again 0%Z ps
                (JsArray_set index emptyChargingProfile) st c0 Hc0)
      as [ps' Hupd].
    rewrite (run_bind _ _ _ _ _ Hupd).
    exists true; eexists; split; [reflexivity | by exists ps'].
  - rewrite (run_bind _ _ _ _ _ Hrun).
    destruct b; eexists; exists ps; (split; [reflexivity | apply Hothers]).
Qed.

End ClearChargingProfile.

Lemma clearChargingProfile_on_connector_witness :
  let req := {| clear_id := Some 99%Z; clear_connectorId := Some 1%Z;
                clear_chargingProfilePurpose := None;
                clear_stackLevel := None |} in
  exists r st',
    handleRequestClearChargingProfile req Sample.twoProfiles = (Normal r, st')
    /\ (r = OCPP_CLEAR_CHARGING_PROFILE_RESPONSE_ACCEPTED
        <-> exists c, getConnectorStatus (Some 1%Z) Sample.twoProfiles = Some c
                      /\ chargingProfiles c <> [])
    /\ (r = OCPP_CLEAR_CHARGING_PROFILE_RESPONSE_ACCEPTED ->
        chargingProfiles <$> getConnectorStatus (Some 1%Z) st' = Some []
        /\ forall j, j <> 1%Z ->
             getConnectorStatus (Some j) st'
             = getConnectorStatus (Some j) Sample.twoProfiles)
    /\ (r <> OCPP_CLEAR_CHARGING_PROFILE_RESPONSE_ACCEPTED ->
        r = OCPP_CLEAR_CHARGING_PROFILE_RESPONSE_UNKNOWN
        /\ st' = Sample.twoProfiles).
Proof.
  intros req.
  apply (clearChargingProfile_on_connector req 1%Z Sample.twoProfiles).
  - reflexivity.
  - reflexivity.
  - lia.
Defined.

Lemma clearChargingProfile_connector0_touches_connector0_only_witness :
  let req := {| clear_id := Some 7%Z; clear_connectorId := Some 0%Z;
                clear_chargingProfilePurpose := None;
                clear_stackLevel := None |} in
  exists r ps,
    handleRequestClearChargingProfile req Sample.twoProfiles
    = (Normal r,
       set_connectors
         (Map_update 0%Z (set_chargingProfiles ps)
            (connectors Sample.twoProfiles)) Sample.twoProfiles)
    /\ forall j, j <> 0%Z ->
         getConnectorStatus (Some j)
           (set_connectors
              (Map_update 0%Z (set_chargingProfiles ps)
                 (connectors Sample.twoProfiles)) Sample.twoProfiles)
         = getConnectorStatus (Some j) Sample.twoProfiles.
Proof.
  intros req.
  apply (clearChargingProfile_connector0_touches_connector0_only
           req Sample.twoProfiles).
  reflexivity.
Defined.

(** ** SetChargingProfile *)

Section SetChargingProfile.

Implicit Types (st : ChargingStation) (c : ConnectorStatus).
Implicit Types (cp : OCPP16ChargingProfile).

Local Abbreviation SmartCharging := OCPP16SupportedFeatureProfiles.SmartCharging.
Local Abbreviation MAX_PROFILE :=
  ChargingProfilePurposeType.CHARGE_POINT_MAX_PROFILE.
Local Abbreviation TX_PROFILE := ChargingProfilePurposeType.TX_PROFILE.

(** A pushed profile is on the stack, in a replaced slot or at the end. *)
Lemma pushChargingProfile_elem cp (stack : JsArray OCPP16ChargingProfile) :
  In (Some cp) (pushChargingProfile cp stack).
Proof.
  unfold pushChargingProfile.
  destruct (existsb _ stack) eqn:Hex.
  - induction stack as [|slot stack IH]; cbn in *; [discriminate|].
    destruct slot as [p|]; cbn in Hex.
    + destruct (replaces cp p); [by left | right; auto].
    + right; auto.
  - apply in_or_app. right. by left.
Qed.

(** X8. SetChargingProfile. The handler always completes normally.  The
    answer is NotSupported exactly when SmartCharging is disabled, and
    Accepted exactly when SmartCharging is enabled, the connector exists,
    a ChargePointMaxProfile is addressed to connector 0, and a TxProfile
    is addressed to a connector other than 0 with a started transaction.
    On Accepted the profile is on the stack of that connector afterwards
    and no other connector is touched; on any other answer the station is
    unchanged. *)
Theorem setChargingProfile_decision (req : SetChargingProfileRequest) st :
  let id := setProfile_connectorId req in
  let cp := csChargingProfiles req in
  exists r st',
    handleRequestSetChargingProfile req st = (Normal r, st')
    /\ (r = OCPP_SET_CHARGING_PROFILE_RESPONSE_NOT_SUPPORTED
        <-> checkFeatureProfile st SmartCharging = false)
    /\ (r = OCPP_SET_CHARGING_PROFILE_RESPONSE_ACCEPTED
        <-> checkFeatureProfile st SmartCharging = true
            /\ exists c,
                 getConnectorStatus (Some id) st = Some c
                 /\ (chargingProfilePurpose cp = Some MAX_PROFILE -> id = 0%Z)
                 /\ (chargingProfilePurpose cp = Some TX_PROFILE ->
                     id <> 0%Z /\ transactionStarted c = true))
    /\ (r = OCPP_SET_CHARGING_PROFILE_RESPONSE_ACCEPTED ->
        (exists c', getConnectorStatus (Some id) st' = Some c'
                    /\ In (Some cp) (chargingProfiles c'))
        /\ forall j, j <> id ->
             getConnectorStatus (Some j) st' = getConnectorStatus (Some j) st)
    /\ (r <> OCPP_SET_CHARGING_PROFILE_RESPONSE_ACCEPTED -> st' = st).
Proof.
  cbn zeta. unfold handleRequestSetChargingProfile. cbn zeta.
  rewrite run_bind_gets.
  destruct (checkFeatureProfile st SmartCharging) eqn:Hsc; cbn [negb].
  2:{ exists OCPP_SET_CHARGING_PROFILE_RESPONSE_NOT_SUPPORTED, st.
      split; [reflexivity|]. split; [done|]. split; [|done].
      split; [discriminate | intros [? _]; discriminate]. }
  rewrite run_bind_gets.
  destruct (getConnectorStatus (Some (setProfile_connectorId req)) st)
    as [c|] eqn:Hc.
  2:{ exists OCPP_SET_CHARGING_PROFILE_RESPONSE_REJECTED, st.
      split; [reflexivity|]. split; [done|]. split; [|done].
      split; [discriminate | intros (_ & c & [=] & _)]. }
  destruct (bool_decide_reflect
              (chargingProfilePurpose (csChargingProfiles req) = Some MAX_PROFILE))
    as [Hmax|Hmax];
  destruct (bool_decide_reflect (setProfile_connectorId req = 0%Z)) as [Hid|Hid];
  destruct (bool_decide_reflect
              (chargingProfilePurpose (csChargingProfiles req) = Some TX_PROFILE))
    as [Htx|Htx];
  destruct (transactionStarted c) eqn:Hstarted;
  cbn [andb orb negb];
  try (exists OCPP_SET_CHARGING_PROFILE_RESPONSE_REJECTED, st;
       split; [reflexivity|]; split; [done|]; split; [|done];
       split; [discriminate|];
       intros (_ & c' & [= <-] & Hm & Ht);
       first [ by specialize (Hm Hmax)
             | destruct (Ht Htx) as [? ?]; congruence ]);
  (unfold setChargingProfile;
   rewrite (run_bind _ _ _ _ _
              (run_updateConnectorStatus _ _ st c Hc));
   eexists OCPP_SET_CHARGING_PROFILE_RESPONSE_ACCEPTED, _;
   split; [reflexivity|]; split; [done|]; split; [|split; [|done]];
   [ split; [|done]; intros _; split; [reflexivity|]; exists c;
     split; [reflexivity|]; split; [intros ?|intros ?]; try congruence; done
   | intros _; cbn; split;
     [ rewrite Map_get_update_eq; cbn in Hc; rewrite Hc;
       eexists; split; [reflexivity|]; apply pushChargingProfile_elem
     | intros j Hj; apply Map_get_update_ne; congruence ] ]).
Qed.

End SetChargingProfile.

(** ** ChangeAvailability *)

Section ChangeAvailabilityProperties.

Variable centralSystem : CentralSystem.

Implicit Types (st : ChargingStation) (c : ConnectorStatus).
Implicit Types (m pre : list (Z * ConnectorStatus)).
Implicit Types (availabilityType : OCPP16AvailabilityType.t).

Local Abbreviation ACCEPTED := OCPP_AVAILABILITY_RESPONSE_ACCEPTED.
Local Abbreviation SCHEDULED := OCPP_AVAILABILITY_RESPONSE_SCHEDULED.
Local Abbreviation REJECTED := OCPP_AVAILABILITY_RESPONSE_REJECTED.

Lemma Map_get_app_fresh {V} id (pre m : list (Z * V)) :
  id ∉ Map_keys pre -> Map_get id (pre ++ m) = Map_get id m.
Proof.
  unfold Map_keys. induction pre as [|[k x] pre IH]; cbn; [reflexivity|].
  intros Hid. apply not_elem_of_cons in Hid as [Hne Hid].
  rewrite decide_False by congruence. auto.
Qed.

Lemma Map_update_app_fresh {V} id (f : V -> V) (pre m : list (Z * V)) :
  id ∉ Map_keys pre -> Map_update id f (pre ++ m) = pre ++ Map_update id f m.
Proof.
  unfold Map_keys. induction pre as [|[k x] pre IH]; cbn; [reflexivity|].
  intros Hid. apply not_elem_of_cons in Hid as [Hne Hid].
  rewrite decide_False by congruence. by rewrite IH.
Qed.

Lemma Map_keys_app {V} (pre m : list (Z * V)) :
  Map_keys (pre ++ m) = Map_keys pre ++ Map_keys m.
Proof. unfold Map_keys. apply map_app. Qed.

(** The station-wide loop, run over the connectors not yet visited. *)
Lemma run_changeAvailability_loop availabilityType m :
  answering centralSystem ->
  forall pre st o accepted,
  NoDup (Map_keys (pre ++ m)) ->
  foldM (changeAvailabilityOf centralSystem availabilityType
           (chargePointStatusFor availabilityType))
    (if accepted : bool then ACCEPTED else SCHEDULED) (Map_keys m)
    (set_outbound o (set_connectors (pre ++ m) st))
  = (Normal (if accepted && negb (existsb (fun e => transactionStarted (snd e)) m)
             then ACCEPTED else SCHEDULED),
     set_outbound
       (o ++ map (availabilityNotification availabilityType)
               (if accepted then beforeFirstStarted m else []))
       (set_connectors (pre ++ availabilityChanged availabilityType accepted m)
          st)).
Proof.
  intros centralSystem_answers.
  induction m as [|[id c] m IH]; intros pre st o accepted Hnodup.
  - cbn [Map_keys map foldM existsb beforeFirstStarted availabilityChanged negb].
    rewrite andb_true_r.
    replace (map (availabilityNotification availabilityType)
               (if accepted then [] else [])) with (@nil (Request * RequestOptions))
      by (by destruct accepted).
    rewrite !app_nil_r. reflexivity.
  - assert (Hfresh : id ∉ Map_keys pre).
    { rewrite Map_keys_app in Hnodup. apply NoDup_app in Hnodup as (_ & Hd & _).
      intros Hin. apply (Hd id Hin). apply list_elem_of_here. }
    change (Map_keys ((id, c) :: m)) with (id :: Map_keys m).
    cbn [foldM].
    set (accepted' := accepted && negb (transactionStarted c)).
    set (c' := (if accepted'
                then set_status (chargePointStatusFor availabilityType)
                else fun c => c) (set_availability availabilityType c)).
    assert (Hstep :
      changeAvailabilityOf centralSystem availabilityType
        (chargePointStatusFor availabilityType)
        (if accepted then ACCEPTED else SCHEDULED) id
        (set_outbound o (set_connectors (pre ++ (id, c) :: m) st))
      = (Normal (if accepted' then ACCEPTED else SCHEDULED),
         set_outbound
           (o ++ (if accepted'
                  then [availabilityNotification availabilityType id] else []))
           (set_connectors ((pre ++ [(id, c')]) ++ m) st))).
    { unfold changeAvailabilityOf. rewrite run_bind_gets.
      assert (Hget : getConnectorStatus (Some id)
                (set_outbound o (set_connectors (pre ++ (id, c) :: m) st))
              = Some c).
      { cbn. rewrite Map_get_app_fresh by assumption. cbn.
        by rewrite decide_True. }
      rewrite Hget. msimpl.
      rewrite (run_bind _ _ _ _ _ (run_updateConnectorStatus _ _ _ c Hget)).
      cbn [connectors set_connectors set_outbound].
      rewrite Map_update_app_fresh by assumption. cbn [Map_update].
      destruct (decide (id = id)) as [_|?]; [|done].
      subst c' accepted'.
      destruct accepted, (transactionStarted c); cbn [andb negb];
        try (rewrite decide_False by discriminate;
             rewrite app_nil_r, <- app_assoc; reflexivity).
      rewrite decide_True by reflexivity.
      match goal with
      | |- (requestHandler _ ?r ?opt ≫= _) ?s = _ =>
          destruct (centralSystem_answers (outbound s) r) as [answer Hanswer];
          rewrite (run_bind _ _ _ _ _
                     (run_requestHandler _ r opt s answer Hanswer))
      end.
      erewrite run_bind.
      2:{ eapply run_updateConnectorStatus. cbn.
          rewrite Map_get_app_fresh by assumption. cbn.
          by rewrite decide_True. }
      cbn. rewrite Map_update_app_fresh by assumption. cbn [Map_update].
      destruct (decide (id = id)) as [_|?]; [|done].
      rewrite <- app_assoc. reflexivity. }
    rewrite (run_bind _ _ _ _ _ Hstep).
    rewrite IH.
    2:{ rewrite <- app_assoc. cbn [app].
        rewrite Map_keys_app in *. exact Hnodup. }
    cbn [existsb snd beforeFirstStarted availabilityChanged].
    fold accepted'. fold c'. rewrite <- !app_assoc. cbn [app].
    subst accepted'.
    destruct accepted, (transactionStarted c); cbn [andb negb orb map app];
      rewrite ?app_nil_r; reflexivity.
Qed.

Lemma Map_get_availabilityChanged availabilityType id c m : forall accepted,
  Map_get id m = Some c ->
  Map_get id (availabilityChanged availabilityType accepted m)
  = Some ((if accepted && bool_decide (id ∈ beforeFirstStarted m)
           then set_status (chargePointStatusFor availabilityType)
           else fun c => c) (set_availability availabilityType c)).
Proof.
  induction m as [|[k x] m IH]; intros accepted; cbn; [discriminate|].
  destruct (decide (k = id)) as [->|Hk].
  - intros [= ->]. destruct (transactionStarted c); cbn.
    + rewrite bool_decide_eq_false_2 by (by intros ?%elem_of_nil).
      reflexivity.
    + rewrite bool_decide_eq_true_2 by apply list_elem_of_here.
      reflexivity.
  - intros Hget. rewrite (IH _ Hget).
    destruct (transactionStarted x); cbn.
    + rewrite (bool_decide_eq_false_2 (id ∈ [])) by (by intros ?%elem_of_nil).
      by rewrite !andb_false_r.
    + rewrite andb_true_r.
      rewrite (bool_decide_ext (id ∈ k :: beforeFirstStarted m)
                 (id ∈ beforeFirstStarted m)); [reflexivity|].
      rewrite elem_of_cons.
      split; [intros [Heq|Hin]; [congruence | exact Hin] | by right].
Qed.

Lemma existsb_started_startedConnectors st :
  existsb (fun e => transactionStarted (snd e)) (connectors st) = false
  <-> startedConnectors st = [].
Proof.
  unfold startedConnectors. induction (connectors st) as [|[k x] m IH]; cbn;
    [done|].
  destruct (transactionStarted x); cbn; [done | exact IH].
Qed.

(** X9. ChangeAvailability for the whole station (connectorId 0). When
    the Central System answers and the connectors have distinct ids, the
    request sets the availability of every connector, those with a
    running transaction included.  The answer is Accepted when no
    connector has a started transaction and Scheduled otherwise.  The new
    status is notified and stored only for the connectors enumerated
    before the first one with a started transaction, one StatusNotification
    each, in enumeration order; every later connector keeps its status. *)
Theorem changeAvailability_station availabilityType st :
  answering centralSystem ->
  uniqueConnectorIds st ->
  is_Some (getConnectorStatus (Some 0%Z) st) ->
  let notified := beforeFirstStarted (connectors st) in
  exists r st',
    handleRequestChangeAvailability centralSystem
      (changeStationAvailability availabilityType) st = (Normal r, st')
    /\ r = (if decide (startedConnectors st = []) then ACCEPTED else SCHEDULED)
    /\ outbound st'
       = outbound st ++ map (availabilityNotification availabilityType) notified
    /\ forall id c,
         getConnectorStatus (Some id) st = Some c ->
         getConnectorStatus (Some id) st'
         = Some (if bool_decide (id ∈ notified)
                 then set_status (chargePointStatusFor availabilityType)
                        (set_availability availabilityType c)
                 else set_availability availabilityType c).
Proof.
  intros Hcs Hnodup [c0 Hc0]. cbn zeta.
  unfold handleRequestChangeAvailability, changeStationAvailability.
  cbn [changeAvailability_connectorId changeAvailability_type].
  rewrite run_bind_gets, Hc0. rewrite decide_True by reflexivity.
  rewrite run_bind_gets.
  pose proof (run_changeAvailability_loop availabilityType (connectors st)
                Hcs [] st (outbound st) true) as Hloop.
  cbn [app] in Hloop.
  replace (set_outbound (outbound st) (set_connectors (connectors st) st))
    with st in Hloop by (by destruct st).
  fold (chargePointStatusFor availabilityType).
  rewrite (Hloop Hnodup). clear Hloop.
  eexists _, _. split; [reflexivity|]. split; [|split].
  - cbn [andb].
    destruct (existsb _ (connectors st)) eqn:Hex; cbn [negb].
    + rewrite decide_False; [reflexivity|].
      intros Hnone. apply existsb_started_startedConnectors in Hnone. congruence.
    + rewrite decide_True; [reflexivity|].
      by apply existsb_started_startedConnectors.
  - reflexivity.
  - intros id c Hget. cbn in Hget |- *.
    rewrite (Map_get_availabilityChanged _ _ _ _ _ Hget). cbn [andb].
    by destruct (bool_decide _).
Qed.

(** X10. ChangeAvailability for one connector (connectorId above 0).
    When the Central System answers and the connector and connector 0
    exist, the answer is Rejected exactly when the station (connector 0)
    is Inoperative and the request asks for Operative, and then nothing
    changes.  Otherwise the availability of the connector is set at once
    and no other connector is touched; with a started transaction the
    answer is Scheduled, nothing is sent and the status is kept; without
    one the answer is Accepted, one StatusNotification with the status
    that goes with the availability is sent and that status is stored. *)
Theorem changeAvailability_connector
    (req : ChangeAvailabilityRequest) st c station :
  let id := changeAvailability_connectorId req in
  let availabilityType := changeAvailability_type req in
  answering centralSystem ->
  (0 < id)%Z ->
  getConnectorStatus (Some id) st = Some c ->
  getConnectorStatus (Some 0%Z) st = Some station ->
  exists r st',
    handleRequestChangeAvailability centralSystem req st = (Normal r, st')
    /\ (r = REJECTED
        <-> availability station = OCPP16AvailabilityType.INOPERATIVE
            /\ availabilityType = OCPP16AvailabilityType.OPERATIVE)
    /\ (r = REJECTED -> st' = st)
    /\ (r <> REJECTED ->
        (r = SCHEDULED <-> transactionStarted c = true)
        /\ forall j, j <> id ->
             getConnectorStatus (Some j) st' = getConnectorStatus (Some j) st)
    /\ (r = SCHEDULED ->
        outbound st' = outbound st
        /\ getConnectorStatus (Some id) st'
           = Some (set_availability availabilityType c))
    /\ (r = ACCEPTED ->
        outbound st' = outbound st ++ [availabilityNotification availabilityType id]
        /\ getConnectorStatus (Some id) st'
           = Some (set_status (chargePointStatusFor availabilityType)
                     (set_availability availabilityType c))).
Proof.
  cbn zeta. intros Hcs Hpos Hc Hstation.
  unfold handleRequestChangeAvailability. cbn zeta.
  rewrite run_bind_gets, Hc.
  rewrite decide_False by lia.
  rewrite (bool_decide_eq_true_2 _ Hpos).
  rewrite run_bind_gets, Hstation.
  fold (chargePointStatusFor (changeAvailability_type req)).
  destruct (availability station) eqn:Hav, (changeAvailability_type req) eqn:Hty;
    cbn [orb andb];
    repeat match goal with
           | |- context [@bool_decide ?P ?dec] =>
               destruct (@bool_decide_reflect P dec); try congruence
           end;
    cbn [orb andb];
    try (exists REJECTED, st; split; [reflexivity|];
         split; [done|]; split; [done|]; split; [done|];
         split; discriminate).
  all: destruct (transactionStarted c) eqn:Hstarted.
  all: try (rewrite (run_bind _ _ _ _ _ (run_updateConnectorStatus _ _ st c Hc));
            eexists SCHEDULED, _; split; [reflexivity|];
            split; [split; [discriminate | intros [? ?]; congruence]|];
            split; [discriminate|];
            split; [intros _; split; [done|];
                    intros j Hj; apply Map_get_update_ne; congruence|];
            split; [|discriminate];
            intros _; split; [reflexivity|]; cbn;
            rewrite Map_get_update_eq; cbn in Hc; rewrite Hc; reflexivity).
  all: rewrite (run_bind _ _ _ _ _ (run_updateConnectorStatus _ _ st c Hc));
    match goal with
    | |- context [(requestHandler _ ?r ?opt ≫= _) ?s] =>
        destruct (Hcs (outbound s) r) as [answer Hanswer];
        rewrite (run_bind _ _ _ _ _
                   (run_requestHandler _ r opt s answer Hanswer))
    end;
    (erewrite run_bind;
     [|eapply run_updateConnectorStatus; cbn;
       rewrite Map_get_update_eq; cbn in Hc; rewrite Hc; reflexivity]);
    eexists ACCEPTED, _; (split; [reflexivity|]);
    (split; [split; [discriminate | intros [? ?]; congruence]|]);
    (split; [discriminate|]);
    (split; [intros _; split; [split; [discriminate | congruence]|];
             intros j Hj; cbn; rewrite !Map_get_update_ne by congruence;
             reflexivity|]);
    (split; [discriminate|]);
    intros _; (split; [reflexivity|]); cbn;
    rewrite !Map_get_update_eq; cbn in Hc; rewrite Hc; reflexivity.
Qed.

End ChangeAvailabilityProperties.

Lemma changeAvailability_station_witness :
  let notified := beforeFirstStarted (connectors Sample.twoCharging) in
  exists r st',
    handleRequestChangeAvailability Sample.acceptAll
      (changeStationAvailability OCPP16AvailabilityType.INOPERATIVE)
      Sample.twoCharging = (Normal r, st')
    /\ r = (if decide (startedConnectors Sample.twoCharging = [])
            then OCPP_AVAILABILITY_RESPONSE_ACCEPTED
            else OCPP_AVAILABILITY_RESPONSE_SCHEDULED)
    /\ outbound st'
       = outbound Sample.twoCharging
         ++ map (availabilityNotification OCPP16AvailabilityType.INOPERATIVE)
              notified
    /\ forall id c,
         getConnectorStatus (Some id) Sample.twoCharging = Some c ->
         getConnectorStatus (Some id) st'
         = Some (if bool_decide (id ∈ notified)
                 then set_status
                        (chargePointStatusFor OCPP16AvailabilityType.INOPERATIVE)
                        (set_availability OCPP16AvailabilityType.INOPERATIVE c)
                 else set_availability OCPP16AvailabilityType.INOPERATIVE c).
Proof.
  apply (changeAvailability_station Sample.acceptAll
           OCPP16AvailabilityType.INOPERATIVE Sample.twoCharging).
  - apply answering_acceptAll.
  - apply (bool_decide_unpack _). vm_compute. exact I.
  - eexists. reflexivity.
Defined.

Lemma changeAvailability_connector_witness :
  let req := {| changeAvailability_connectorId := 1;
                changeAvailability_type := OCPP16AvailabilityType.INOPERATIVE |} in
  let c := Sample.charging 5 "TAG" 1200 in
  exists r st',
    handleRequestChangeAvailability Sample.acceptAll req Sample.busyStation
    = (Normal r, st')
    /\ (r = OCPP_AVAILABILITY_RESPONSE_REJECTED
        <-> availability Sample.idle = OCPP16AvailabilityType.INOPERATIVE
            /\ OCPP16AvailabilityType.INOPERATIVE
               = OCPP16AvailabilityType.OPERATIVE)
    /\ (r = OCPP_AVAILABILITY_RESPONSE_REJECTED -> st' = Sample.busyStation)
    /\ (r <> OCPP_AVAILABILITY_RESPONSE_REJECTED ->
        (r = OCPP_AVAILABILITY_RESPONSE_SCHEDULED
         <-> transactionStarted c = true)
        /\ forall j, j <> 1%Z ->
             getConnectorStatus (Some j) st'
             = getConnectorStatus (Some j) Sample.busyStation)
    /\ (r = OCPP_AVAILABILITY_RESPONSE_SCHEDULED ->
        outbound st' = outbound Sample.busyStation
        /\ getConnectorStatus (Some 1%Z) st'
           = Some (set_availability OCPP16AvailabilityType.INOPERATIVE c))
    /\ (r = OCPP_AVAILABILITY_RESPONSE_ACCEPTED ->
        outbound st'
        = outbound Sample.busyStation
          ++ [availabilityNotification OCPP16AvailabilityType.INOPERATIVE 1%Z]
        /\ getConnectorStatus (Some 1%Z) st'
           = Some (set_status
                     (chargePointStatusFor OCPP16AvailabilityType.INOPERATIVE)
                     (set_availability OCPP16AvailabilityType.INOPERATIVE c))).
Proof.
  intros req c.
  apply (changeAvailability_connector Sample.acceptAll req Sample.busyStation
           c Sample.idle).
  - apply answering_acceptAll.
  - reflexivity.
  - reflexivity.
  - reflexivity.
Defined.

(** ** Outcomes of a handler, step by step *)

Section Outcomes.

Context {A B : Type}.
Implicit Types (st : ChargingStation) (E : Thrown -> ChargingStation -> Prop).

Lemma wp_bind (m : M A) (k : A -> M B) Q E st :
  wp m (fun a st' => wp (k a) Q E st') E st -> wp (m ≫= k) Q E st.
Proof.
  unfold wp, mbind, M_bind, bind. destruct (m st) as [[a|e] st']; auto.
Qed.

Lemma wp_ret (a : A) (Q : A -> ChargingStation -> Prop) E st :
  Q a st -> wp (mret a) Q E st.
Proof. auto. Qed.

Lemma wp_throw e (Q : A -> ChargingStation -> Prop) E st :
  E e st -> wp (throw e) Q E st.
Proof. auto. Qed.

Lemma wp_bind_gets (f : ChargingStation -> A) (k : A -> M B) Q E st :
  wp (k (f st)) Q E st -> wp (gets f ≫= k) Q E st.
Proof. auto. Qed.

Lemma wp_mono (m : M A) (Q Q' : A -> ChargingStation -> Prop) E E' st :
  wp m Q E st ->
  (forall a st', Q a st' -> Q' a st') ->
  (forall e st', E e st' -> E' e st') ->
  wp m Q' E' st.
Proof.
  unfold wp. destruct (m st) as [[a|e] st']; auto.
Qed.

Lemma wp_run (m : M A) Q E st a st' :
  wp m Q E st -> m st = (Normal a, st') -> Q a st'.
Proof. unfold wp. intros H Hrun. by rewrite Hrun in H. Qed.

End Outcomes.

Section OutcomesOfSteps.

Variable centralSystem : CentralSystem.

Context {B : Type}.
Implicit Types (st : ChargingStation) (E : Thrown -> ChargingStation -> Prop).

Lemma wp_bind_updateConnectorStatus id f (k : unit -> M B) Q E st :
  (forall c, getConnectorStatus (Some id) st = Some c ->
             wp (k tt) Q E
               (set_connectors (Map_update id f (connectors st)) st)) ->
  (getConnectorStatus (Some id) st = None -> E TypeError st) ->
  wp (updateConnectorStatus id f ≫= k) Q E st.
Proof.
  intros Hsome Hnone. apply wp_bind. unfold wp at 1, updateConnectorStatus.
  destruct (getConnectorStatus (Some id) st) as [c|]; eauto.
Qed.

Lemma wp_bind_requestHandler r o (k : CallResult -> M B) Q E st :
  (forall answer, wp (k answer) Q E (set_outbound (outbound st ++ [(r, o)]) st)) ->
  E RequestError (set_outbound (outbound st ++ [(r, o)]) st) ->
  wp (requestHandler centralSystem r o ≫= k) Q E st.
Proof.
  intros Hsome Hnone. apply wp_bind. unfold wp at 1, requestHandler.
  destruct (centralSystem (outbound st) r); eauto.
Qed.

End OutcomesOfSteps.

(** ** RemoteStartTransaction: the two answers *)

Section RemoteStartOutcome.

Variable centralSystem : CentralSystem.
Variable req : RemoteStartTransactionRequest.

Implicit Types (st : ChargingStation) (c : ConnectorStatus).

Local Abbreviation id := (remoteStart_connectorId req).
Local Abbreviation idTag := (remoteStart_idTag req).

(** The connector of the request is Preparing. *)
Local Abbreviation preparing st :=
  (exists c, getConnectorStatus (Some id) st = Some c
             /\ status c = OCPP16ChargePointStatus.PREPARING).

Lemma getConnectorStatus_updated i f st c :
  getConnectorStatus (Some i) st = Some c ->
  getConnectorStatus (Some i)
    (set_connectors (Map_update i f (connectors st)) st) = Some (f c).
Proof.
  cbn. intros Hc. by rewrite Map_get_update_eq, Hc.
Qed.

Lemma wp_notifyRemoteStartTransactionRejected st :
  wp (notifyRemoteStartTransactionRejected centralSystem id idTag)
    (remoteStartOutcome req) anyFailure st.
Proof.
  unfold notifyRemoteStartTransactionRejected. apply wp_bind_gets.
  destruct (getConnectorStatus (Some id) st) as [c|] eqn:Hc; [|exact I].
  destruct (bool_decide_reflect (status c = OCPP16ChargePointStatus.AVAILABLE))
    as [Hav|Hav]; cbn [negb when].
  - apply wp_bind, wp_ret, wp_ret. exists c. by split.
  - apply wp_bind, wp_bind_requestHandler; [|exact I]. intros _.
    unfold updateConnectorStatus, wp.
    change (getConnectorStatus (Some id) (set_outbound ?o st))
      with (getConnectorStatus (Some id) st).
    rewrite Hc. cbn. rewrite Map_get_update_eq. cbn in Hc. rewrite Hc.
    eexists. split; reflexivity.
Qed.

Lemma wp_remoteStart st :
  id <> 0%Z -> preparing st ->
  wp (remoteStart centralSystem req) (remoteStartOutcome req) anyFailure st.
Proof.
  intros Hid Hprep. unfold remoteStart. cbn zeta. apply wp_bind.
  apply (wp_mono _ (fun installed st' => preparing st') _ anyFailure).
  - unfold setRemoteStartTransactionChargingProfile.
    destruct (remoteStart_chargingProfile req) as [cp|]; [|exact Hprep].
    destruct (decide _); [|exact Hprep].
    unfold setChargingProfile.
    apply wp_bind_updateConnectorStatus; [|intros; exact I].
    intros c Hc. apply wp_ret. destruct Hprep as (c' & Hc' & Hst).
    eexists. split; [by apply getConnectorStatus_updated|].
    cbn. congruence.
  - clear st Hprep. intros installed st Hprep. destruct installed.
    2:{ apply wp_notifyRemoteStartTransactionRejected. }
    apply wp_bind_updateConnectorStatus; [|intros; exact I].
    intros c Hc. apply wp_bind_requestHandler; [|exact I].
    intros answer. destruct (idTagInfo answer) as [s|]; [|exact I].
    destruct (decide _).
    + apply wp_ret. split; [exact Hid|]. split.
      * destruct Hprep as (c' & Hc' & Hst).
        exists (set_transactionRemoteStarted true c).
        split; [exact (getConnectorStatus_updated _ _ _ _ Hc)|].
        split; [cbn; congruence | reflexivity].
      * eexists. reflexivity.
    + apply wp_notifyRemoteStartTransactionRejected.
  - auto.
Qed.

Lemma wp_handleRequestRemoteStartTransaction st :
  wp (handleRequestRemoteStartTransaction centralSystem req)
    (remoteStartOutcome req) anyFailure st.
Proof.
  unfold handleRequestRemoteStartTransaction. cbn zeta. apply wp_bind_gets.
  unfold truthy.
  destruct (bool_decide_reflect (id = 0%Z)) as [Hid|Hid]; cbn [negb].
  { apply wp_notifyRemoteStartTransactionRejected. }
  apply wp_bind_requestHandler; [|exact I]. intros _.
  apply wp_bind_updateConnectorStatus; [|intros; exact I]. intros c Hc.
  pose proof (getConnectorStatus_updated id
                (set_status OCPP16ChargePointStatus.PREPARING) _ c Hc) as Hc1.
  match type of Hc1 with
  | getConnectorStatus _ ?s = _ => generalize dependent s
  end.
  intros st1 Hc1.
  assert (Hprep : preparing st1) by (eexists; split; [exact Hc1 | reflexivity]).
  clear Hc1. apply wp_bind_gets.
  match goal with
  | |- wp (if ?b then _ else _) _ _ _ => destruct b
  end; [|apply wp_notifyRemoteStartTransactionRejected].
  apply wp_bind_gets.
  destruct (getAuthorizeRemoteTxRequests st1); [|by apply wp_remoteStart].
  apply wp_bind_gets. apply wp_bind_gets. apply wp_bind.
  apply (wp_mono _ (fun authorized st' => preparing st') _ anyFailure).
  - match goal with
    | |- wp (if ?b then _ else _) _ _ _ => destruct b
    end.
    + apply wp_bind_updateConnectorStatus; [|intros; exact I].
      intros c1 Hc1. apply wp_ret. destruct Hprep as (c' & Hc' & Hst).
      eexists. split; [by apply getConnectorStatus_updated|].
      cbn. congruence.
    + destruct (getMayAuthorizeAtRemoteStart st1); [|exact Hprep].
      apply wp_bind_updateConnectorStatus; [|intros; exact I].
      intros c1 Hc1. apply wp_bind_requestHandler; [|exact I].
      intros answer. apply wp_ret. destruct Hprep as (c' & Hc' & Hst).
      eexists. split; [exact (getConnectorStatus_updated _ _ _ _ Hc')|].
      cbn. congruence.
  - intros authorized st2 Hprep2. destruct authorized.
    + by apply wp_remoteStart.
    + apply wp_notifyRemoteStartTransactionRejected.
  - auto.
Qed.

End RemoteStartOutcome.

(** X11. The two answers of RemoteStartTransaction. Whenever the handler
    answers Accepted, the connector of the request is not connector 0, it
    is Preparing and marked as remotely started, and the last request
    sent is the StartTransaction for that connector and idTag.  Whenever
    it answers Rejected, the connector is Available. *)
Theorem remoteStartTransaction_outcome (centralSystem : CentralSystem)
    (req : RemoteStartTransactionRequest) (st st' : ChargingStation)
    (r : DefaultResponse) :
  handleRequestRemoteStartTransaction centralSystem req st = (Normal r, st') ->
  remoteStartOutcome req r st'.
Proof.
  apply (wp_run _ _ anyFailure), wp_handleRequestRemoteStartTransaction.
Qed.

Lemma remoteStartTransaction_outcome_witness :
  let accepted := {| remoteStart_connectorId := 2; remoteStart_idTag := "AAA";
                     remoteStart_chargingProfile := None |} in
  let rejected := {| remoteStart_connectorId := 1; remoteStart_idTag := "BBB";
                     remoteStart_chargingProfile := None |} in
  remoteStartOutcome accepted OCPP_RESPONSE_ACCEPTED
    (snd (handleRequestRemoteStartTransaction Sample.acceptAll accepted
            Sample.registeredStation))
  /\ remoteStartOutcome rejected OCPP_RESPONSE_REJECTED
       (snd (handleRequestRemoteStartTransaction Sample.acceptAll rejected
               Sample.localAuthStation)).
Proof.
  intros accepted rejected. split.
  - apply (remoteStartTransaction_outcome Sample.acceptAll accepted
             Sample.registeredStation).
    reflexivity.
  - apply (remoteStartTransaction_outcome Sample.acceptAll rejected
             Sample.localAuthStation).
    reflexivity.
Defined.

(** ** RemoteStartTransaction with a charging profile that is no TxProfile *)

Section RemoteStartProfile.

Variable centralSystem : CentralSystem.
Variable req : RemoteStartTransactionRequest.
Variable st0 : ChargingStation.

Implicit Types (st : ChargingStation) (c : ConnectorStatus).

Local Abbreviation id := (remoteStart_connectorId req).
Local Abbreviation idTag := (remoteStart_idTag req).

Local Abbreviation notAccepted :=
  (fun (r : DefaultResponse) st' =>
     r <> OCPP_RESPONSE_ACCEPTED /\ noStartTransactionSince st0 st').
Local Abbreviation failing :=
  (fun (_ : Thrown) st' => noStartTransactionSince st0 st').

Lemma noStartTransactionSince_refl st : noStartTransactionSince st st.
Proof. exists []. by rewrite app_nil_r. Qed.

Lemma noStartTransactionSince_sent st r o :
  noStartTransactionSince st0 st -> ~ isStartTransaction r ->
  noStartTransactionSince st0 (set_outbound (outbound st ++ [(r, o)]) st).
Proof.
  intros (extra & Hout & Hextra) Hr. exists (extra ++ [(r, o)]). split.
  - cbn. by rewrite Hout, app_assoc.
  - apply Forall_app. split; [exact Hextra|]. by apply Forall_singleton.
Qed.

Lemma wp_notifyRemoteStartTransactionRejected_sends st :
  noStartTransactionSince st0 st ->
  wp (notifyRemoteStartTransactionRejected centralSystem id idTag)
    notAccepted failing st.
Proof.
  intros Hst. unfold notifyRemoteStartTransactionRejected. apply wp_bind_gets.
  destruct (getConnectorStatus (Some id) st) as [c|] eqn:Hc; [|exact Hst].
  destruct (bool_decide (status c = OCPP16ChargePointStatus.AVAILABLE));
    cbn [negb when].
  - apply wp_bind, wp_ret, wp_ret. by split.
  - pose proof (noStartTransactionSince_sent st
                  (STATUS_NOTIFICATION id OCPP16ChargePointStatus.AVAILABLE
                     OCPP16ChargePointErrorCode.NO_ERROR) noOptions Hst
                  (fun H => H)) as Hsent.
    apply wp_bind, wp_bind_requestHandler; [|exact Hsent]. intros _.
    unfold updateConnectorStatus, wp.
    destruct (getConnectorStatus _ _); [|exact Hsent].
    split; [discriminate | exact Hsent].
Qed.

Lemma wp_remoteStart_sends st p :
  remoteStart_chargingProfile req = Some p ->
  chargingProfilePurpose p <> Some ChargingProfilePurposeType.TX_PROFILE ->
  noStartTransactionSince st0 st ->
  wp (remoteStart centralSystem req) notAccepted failing st.
Proof.
  intros Hp Hpurpose Hst. unfold remoteStart. cbn zeta.
  unfold setRemoteStartTransactionChargingProfile. rewrite Hp.
  rewrite decide_False by exact Hpurpose.
  apply wp_bind, wp_ret. by apply wp_notifyRemoteStartTransactionRejected_sends.
Qed.

Lemma wp_handleRequestRemoteStartTransaction_sends p :
  remoteStart_chargingProfile req = Some p ->
  chargingProfilePurpose p <> Some ChargingProfilePurposeType.TX_PROFILE ->
  wp (handleRequestRemoteStartTransaction centralSystem req)
    notAccepted failing st0.
Proof.
  intros Hp Hpurpose.
  pose proof (noStartTransactionSince_refl st0) as Hst0.
  unfold handleRequestRemoteStartTransaction. cbn zeta. apply wp_bind_gets.
  destruct (truthy id);
    [|by apply wp_notifyRemoteStartTransactionRejected_sends].
  pose proof (noStartTransactionSince_sent st0
                (STATUS_NOTIFICATION id OCPP16ChargePointStatus.PREPARING
                   OCPP16ChargePointErrorCode.NO_ERROR) noOptions Hst0
                (fun H => H)) as Hsent.
  apply wp_bind_requestHandler; [|exact Hsent]. intros _.
  apply wp_bind_updateConnectorStatus; [|intros _; exact Hsent].
  intros c _.
  match goal with
  | |- wp _ _ _ ?s =>
      assert (Hst1 : noStartTransactionSince st0 s) by exact Hsent;
      generalize dependent s
  end.
  intros st1 Hst1. clear Hsent. apply wp_bind_gets.
  match goal with
  | |- wp (if ?b then _ else _) _ _ _ => destruct b
  end; [|by apply wp_notifyRemoteStartTransactionRejected_sends].
  apply wp_bind_gets.
  destruct (getAuthorizeRemoteTxRequests st1);
    [|by apply (wp_remoteStart_sends st1 p)].
  apply wp_bind_gets. apply wp_bind_gets. apply wp_bind.
  apply (wp_mono _ (fun authorized st' => noStartTransactionSince st0 st') _
           failing).
  - match goal with
    | |- wp (if ?b then _ else _) _ _ _ => destruct b
    end.
    + apply wp_bind_updateConnectorStatus; [|intros _; exact Hst1].
      intros c1 _. apply wp_ret. exact Hst1.
    + destruct (getMayAuthorizeAtRemoteStart st1); [|exact Hst1].
      apply wp_bind_updateConnectorStatus; [|intros _; exact Hst1].
      intros c1 _.
      pose proof (noStartTransactionSince_sent st1 (AUTHORIZE idTag) noOptions
                    Hst1 (fun H => H)) as Hsent.
      apply wp_bind_requestHandler; [|exact Hsent].
      intros answer. apply wp_ret. exact Hsent.
  - intros authorized st2 Hst2. destruct authorized.
    + by apply (wp_remoteStart_sends st2 p).
    + by apply wp_notifyRemoteStartTransactionRejected_sends.
  - auto.
Qed.

End RemoteStartProfile.

(** X13. RemoteStartTransaction with a charging profile whose purpose is
    not TxProfile. Whatever the station, the authorization settings and
    the answers of the Central System, the request is not answered
    Accepted and no StartTransaction is sent, whether the handler
    completes or fails. *)
Theorem remoteStartTransaction_without_TxProfile
    (centralSystem : CentralSystem) (req : RemoteStartTransactionRequest)
    (st : ChargingStation) (p : OCPP16ChargingProfile) :
  remoteStart_chargingProfile req = Some p ->
  chargingProfilePurpose p <> Some ChargingProfilePurposeType.TX_PROFILE ->
  let outcome := handleRequestRemoteStartTransaction centralSystem req st in
  fst outcome <> Normal OCPP_RESPONSE_ACCEPTED
  /\ noStartTransactionSince st (snd outcome).
Proof.
  intros Hp Hpurpose. cbn zeta.
  pose proof (wp_handleRequestRemoteStartTransaction_sends centralSystem req st
                p Hp Hpurpose) as Hwp.
  unfold wp in Hwp.
  destruct (handleRequestRemoteStartTransaction centralSystem req st)
    as [[r|e] st']; cbn [fst snd].
  - destruct Hwp as [Hr Hsent]. split; [congruence | exact Hsent].
  - split; [discriminate | exact Hwp].
Qed.

Lemma remoteStartTransaction_without_TxProfile_witness :
  let req := {| remoteStart_connectorId := 2; remoteStart_idTag := "AAA";
                remoteStart_chargingProfile :=
                  Some (Sample.profile 7 1
                          ChargingProfilePurposeType.TX_DEFAULT_PROFILE) |} in
  let outcome := handleRequestRemoteStartTransaction Sample.acceptAll req
                   Sample.registeredStation in
  fst outcome <> Normal OCPP_RESPONSE_ACCEPTED
  /\ noStartTransactionSince Sample.registeredStation (snd outcome).
Proof.
  intros req.
  apply (remoteStartTransaction_without_TxProfile Sample.acceptAll req
           Sample.registeredStation
           (Sample.profile 7 1 ChargingProfilePurposeType.TX_DEFAULT_PROFILE)).
  - reflexivity.
  - discriminate.
Defined.

(** ** Commands for a connector that does not exist *)

(** X12. UnlockConnector and RemoteStartTransaction for a connector id
    other than 0 that the station does not have. Neither handler answers:
    each first sends the StatusNotification for that id (Available for
    the unlock, Preparing for the remote start) and then fails, with the
    transport's error when the notification is not answered and with a
    TypeError, on writing the status of the missing connector, when it
    is.  The station is unchanged but for the notification logged. *)
Theorem unknown_connector_is_notified_then_fails
    (centralSystem : CentralSystem) (connectorId : Z) (st : ChargingStation) :
  connectorId <> 0%Z ->
  getConnectorStatus (Some connectorId) st = None ->
  let failure (r : Request) :=
    match centralSystem (outbound st) r with
    | Some _ => TypeError
    | None => RequestError
    end in
  let available :=
    STATUS_NOTIFICATION connectorId OCPP16ChargePointStatus.AVAILABLE
      OCPP16ChargePointErrorCode.NO_ERROR in
  let preparing :=
    STATUS_NOTIFICATION connectorId OCPP16ChargePointStatus.PREPARING
      OCPP16ChargePointErrorCode.NO_ERROR in
  handleRequestUnlockConnector centralSystem connectorId st
  = (Abrupt (failure available), sent available st)
  /\ forall idTag cp,
       handleRequestRemoteStartTransaction centralSystem
         {| remoteStart_connectorId := connectorId; remoteStart_idTag := idTag;
            remoteStart_chargingProfile := cp |} st
       = (Abrupt (failure preparing), sent preparing st).
Proof.
  intros Hid Hnone. cbn zeta. split.
  - unfold handleRequestUnlockConnector. rewrite decide_False by exact Hid.
    rewrite run_bind_gets, Hnone. msimpl.
    unfold mbind, M_bind, bind, requestHandler, updateConnectorStatus, sent.
    destruct (centralSystem (outbound st) _); [|reflexivity].
    change (getConnectorStatus (Some connectorId) (set_outbound ?o st))
      with (getConnectorStatus (Some connectorId) st).
    rewrite Hnone. reflexivity.
  - intros idTag cp. unfold handleRequestRemoteStartTransaction.
    cbn [remoteStart_connectorId remoteStart_idTag]. cbn zeta.
    rewrite run_bind_gets. unfold truthy.
    rewrite (bool_decide_eq_false_2 _ Hid). cbn [negb].
    unfold mbind, M_bind, bind, requestHandler, updateConnectorStatus, sent.
    destruct (centralSystem (outbound st) _); [|reflexivity].
    change (getConnectorStatus (Some connectorId) (set_outbound ?o st))
      with (getConnectorStatus (Some connectorId) st).
    rewrite Hnone. reflexivity.
Qed.

Lemma unknown_connector_is_notified_then_fails_witness :
  let available :=
    STATUS_NOTIFICATION 9 OCPP16ChargePointStatus.AVAILABLE
      OCPP16ChargePointErrorCode.NO_ERROR in
  let preparing :=
    STATUS_NOTIFICATION 9 OCPP16ChargePointStatus.PREPARING
      OCPP16ChargePointErrorCode.NO_ERROR in
  handleRequestUnlockConnector Sample.acceptAll 9 Sample.busyStation
  = (Abrupt TypeError, sent available Sample.busyStation)
  /\ forall idTag cp,
       handleRequestRemoteStartTransaction Sample.acceptAll
         {| remoteStart_connectorId := 9; remoteStart_idTag := idTag;
            remoteStart_chargingProfile := cp |} Sample.busyStation
       = (Abrupt TypeError, sent preparing Sample.busyStation).
Proof.
  apply (unknown_connector_is_notified_then_fails Sample.acceptAll 9
           Sample.busyStation).
  - lia.
  - reflexivity.
Defined.

(** ** TriggerMessage: the answer and the callback *)

Section TriggerMessageProperties.

Variable centralSystem : CentralSystem.

Implicit Types (st later : ChargingStation).
Implicit Types (req : OCPP16TriggerMessageRequest).

Local Abbreviation RemoteTrigger := OCPP16SupportedFeatureProfiles.RemoteTrigger.

(** X14. The answer of TriggerMessage. The handler completes normally,
    sends nothing and leaves the station as it is.  A callback is
    scheduled exactly when the answer is Accepted, which is exactly when
    RemoteTrigger is enabled, the connectorId is not negative and the
    message is BootNotification, Heartbeat or StatusNotification.  With
    RemoteTrigger enabled a negative connectorId is Rejected whatever the
    message; every other request is answered NotImplemented. *)
Theorem triggerMessage_decision req st :
  exists r callback,
    handleRequestTriggerMessage centralSystem req st
    = (Normal (r, callback), st)
    /\ (is_Some callback <-> r = OCPP_TRIGGER_MESSAGE_RESPONSE_ACCEPTED)
    /\ (r = OCPP_TRIGGER_MESSAGE_RESPONSE_ACCEPTED
        <-> checkFeatureProfile st RemoteTrigger = true
            /\ ~ negativeConnectorId req
            /\ triggerable (requestedMessage req))
    /\ (r = OCPP_TRIGGER_MESSAGE_RESPONSE_REJECTED
        <-> checkFeatureProfile st RemoteTrigger = true
            /\ negativeConnectorId req).
Proof.
  unfold handleRequestTriggerMessage. rewrite run_bind_gets.
  destruct (checkFeatureProfile st RemoteTrigger); cbn [negb].
  2:{ eexists _, _. split; [reflexivity|].
      split; [split; [by intros [? [=]] | discriminate]|].
      split; (split; [discriminate | by intros [[=] _]]). }
  destruct (trigger_connectorId req) as [connectorId|] eqn:Hid;
    cbn [from_option].
  - destruct (bool_decide_reflect (connectorId < 0)%Z) as [Hneg|Hneg].
    + eexists _, _. split; [reflexivity|].
      split; [split; [by intros [? [=]] | discriminate]|].
      split.
      * split; [discriminate|]. intros (_ & Hn & _). exfalso. apply Hn.
        exists connectorId. by split.
      * split; [|done]. intros _. split; [reflexivity|].
        exists connectorId. by split.
    + assert (Hn : ~ negativeConnectorId req).
      { intros (i & Hi & Hlt). congruence. }
      unfold triggerable.
      destruct (requestedMessage req); eexists _, _;
        (split; [reflexivity|]);
        (split; [split; first [done | by intros [? [=]] | by eexists]|]);
        (split; [split; first [discriminate | by intros (_ & _ & [|[|]])
                              | intros _; split; [reflexivity|];
                                split; [exact Hn|]; auto]
                |split; [discriminate | by intros [_ ?]]]).
  - assert (Hn : ~ negativeConnectorId req).
    { intros (i & Hi & Hlt). congruence. }
    unfold triggerable.
    destruct (requestedMessage req); eexists _, _;
      (split; [reflexivity|]);
      (split; [split; first [done | by intros [? [=]] | by eexists]|]);
      (split; [split; first [discriminate | by intros (_ & _ & [|[|]])
                            | intros _; split; [reflexivity|];
                              split; [exact Hn|]; auto]
              |split; [discriminate | by intros [_ ?]]]).
Qed.

Lemma triggeredSince_refl later : triggeredSince later later.
Proof. exists []. rewrite app_nil_r. by repeat split. Qed.

Lemma triggeredSince_sent later st r o :
  triggeredSince later st -> triggerMessage o = true ->
  triggeredSince later (set_outbound (outbound st ++ [(r, o)]) st).
Proof.
  intros (extra & Hout & Hextra & Hc & Hk) Ho. exists (extra ++ [(r, o)]).
  split; [cbn; by rewrite Hout, app_assoc|].
  split; [|by split].
  apply Forall_app. split; [exact Hextra|]. by apply Forall_singleton.
Qed.

Lemma triggeredSince_triggerStatusNotification later st connectorId :
  triggeredSince later st ->
  triggeredSince later
    (snd (triggerStatusNotification centralSystem connectorId st)).
Proof.
  intros Hst. unfold triggerStatusNotification. rewrite run_bind_gets.
  destruct (getConnectorStatus (Some connectorId) st); [|exact Hst].
  unfold catch, requestHandler.
  destruct (centralSystem (outbound st) _); by apply triggeredSince_sent.
Qed.

Lemma triggeredSince_forEach later ids : forall st,
  triggeredSince later st ->
  triggeredSince later
    (snd (forEach ids (triggerStatusNotification centralSystem) st)).
Proof.
  induction ids as [|connectorId ids IH]; intros st Hst; [exact Hst|].
  cbn [forEach].
  pose proof (triggeredSince_triggerStatusNotification later st connectorId Hst)
    as Hstep.
  unfold mbind, M_bind, bind.
  destruct (triggerStatusNotification centralSystem connectorId st)
    as [[[]|e] st1]; [apply IH, Hstep | exact Hstep].
Qed.

(** X15. The callback of TriggerMessage. Run on any later station, the
    callback that an accepted TriggerMessage has scheduled only sends
    requests, each flagged as a triggered message, and leaves connectors
    and configuration as they are.  The callbacks of BootNotification and
    Heartbeat complete normally even when the request is not answered. *)
Theorem triggerMessage_callback req st st' r callback later :
  handleRequestTriggerMessage centralSystem req st
  = (Normal (r, Some callback), st') ->
  triggeredSince later (snd (callback later))
  /\ (requestedMessage req <> MessageTrigger.StatusNotification ->
      fst (callback later) = Normal tt).
Proof.
  unfold handleRequestTriggerMessage. rewrite run_bind_gets.
  destruct (checkFeatureProfile st RemoteTrigger); cbn [negb];
    [|intros [=]].
  destruct (from_option _ false (trigger_connectorId req)); [intros [=]|].
  pose proof (triggeredSince_refl later) as Hlater.
  destruct (requestedMessage req) eqn:Hmessage; intros [= <- <- <-].
  - unfold triggerBootNotification, catch, mbind, M_bind, bind, requestHandler.
    destruct (centralSystem (outbound later) _); cbn [fst snd].
    + split; [|done]. unfold modify.
      exact (triggeredSince_sent later later BOOT_NOTIFICATION
               {| skipBufferingOnError := true; triggerMessage := true |}
               Hlater eq_refl).
    + split; [|done].
      exact (triggeredSince_sent later later BOOT_NOTIFICATION
               {| skipBufferingOnError := true; triggerMessage := true |}
               Hlater eq_refl).
  - unfold triggerHeartbeat, catch, requestHandler.
    destruct (centralSystem (outbound later) _); cbn [fst snd];
      (split; [|done]);
      exact (triggeredSince_sent later later HEARTBEAT triggerOptions
               Hlater eq_refl).
  - split; [|done]. unfold triggerStatusNotifications.
    destruct (trigger_connectorId req) as [connectorId|].
    + destruct (truthy connectorId).
      * by apply triggeredSince_triggerStatusNotification.
      * rewrite run_bind_gets. by apply triggeredSince_forEach.
    + rewrite run_bind_gets. by apply triggeredSince_forEach.
Qed.

End TriggerMessageProperties.

Lemma triggerMessage_callback_witness :
  triggeredSince Sample.busyStation
    (snd (triggerHeartbeat Sample.acceptAll Sample.busyStation))
  /\ (MessageTrigger.Heartbeat <> MessageTrigger.StatusNotification ->
      fst (triggerHeartbeat Sample.acceptAll Sample.busyStation) = Normal tt).
Proof.
  apply (triggerMessage_callback Sample.acceptAll
           {| requestedMessage := MessageTrigger.Heartbeat;
              trigger_connectorId := None |}
           Sample.registeredStation Sample.registeredStation
           OCPP_TRIGGER_MESSAGE_RESPONSE_ACCEPTED
           (triggerHeartbeat Sample.acceptAll) Sample.busyStation).
  reflexivity.
Defined.

(** ** The generator's stop, when a StopTransaction is not answered *)

Section ATGStopFailure.

Variable centralSystem : CentralSystem.
Variable reason : OCPP16StopTransactionReason.t.

Implicit Types (st : ChargingStation) (c : ConnectorStatus).

Local Abbreviation stopOf :=
  (fun c => (stopTransactionOf (Some reason) c, noOptions)).

(** One turn of the loop of [stop], whatever the Central System does. *)
Lemma run_stopOnConnector_any st o id c :
  ATG.getConnector id st = Some c ->
  (transactionStarted c = true ->
   is_Some (transactionId c)
   /\ getConnectorIdByTransactionId (transactionId c) st = Some id) ->
  ATG.stopOnConnector centralSystem reason id (set_outbound o st)
  = if transactionStarted c
    then (match centralSystem o (stopTransactionOf (Some reason) c) with
          | Some _ => Normal tt
          | None => Abrupt RequestError
          end, set_outbound (o ++ [stopOf c]) st)
    else (Normal tt, set_outbound o st).
Proof.
  intros Hget Hid. unfold ATG.stopOnConnector.
  rewrite run_bind_gets.
  change (ATG.getConnector id (set_outbound o st)) with (ATG.getConnector id st).
  rewrite Hget. destruct (transactionStarted c) eqn:Hstarted; [|reflexivity].
  destruct (Hid eq_refl) as [[t Ht] Hfind].
  destruct (getConnectorIdByTransactionId_Some st _ _ Hfind)
    as (c' & Hget' & _ & _ & Hregister & Htag).
  unfold ATG.getConnector in Hget. rewrite Hget in Hget'.
  injection Hget' as <-.
  rewrite Ht in *. rewrite !run_bind_gets.
  change (getEnergyActiveImportRegisterByTransactionId (Some t) (set_outbound o st))
    with (getEnergyActiveImportRegisterByTransactionId (Some t) st).
  change (getTransactionIdTag (Some t) (set_outbound o st))
    with (getTransactionIdTag (Some t) st).
  rewrite Hregister, Htag.
  unfold ATG.sendStopTransaction, mbind, M_bind, bind, requestHandler,
    stopTransactionOf.
  rewrite Ht. cbn [outbound set_outbound].
  destruct (centralSystem o _); reflexivity.
Qed.

(** The loop sends the StopTransactions of a prefix of the started
    connectors. *)
Lemma run_stop_loop_any st ids :
  (forall id, id ∈ ids -> is_Some (ATG.getConnector id st)) ->
  transactionsIdentified st ->
  forall o,
  let started :=
    omap (fun id => c ← ATG.getConnector id st;
                    if transactionStarted c then Some c else None) ids in
  exists n,
    snd (forEach ids (ATG.stopOnConnector centralSystem reason)
           (set_outbound o st))
    = set_outbound (o ++ map stopOf (take n started)) st
    /\ match fst (forEach ids (ATG.stopOnConnector centralSystem reason)
                    (set_outbound o st)) with
       | Normal _ => n = length started
       | Abrupt e => e = RequestError /\ (0 < n <= length started)%nat
       end.
Proof.
  intros Hids Hident.
  induction ids as [|id ids IH]; intros o; cbn [forEach omap list_omap].
  - exists 0%nat. cbn. rewrite app_nil_r. by split.
  - destruct (Hids id (list_elem_of_here _ _)) as [c Hget].
    assert (Hids' : forall k, k ∈ ids -> is_Some (ATG.getConnector k st))
      by (intros k Hk; apply Hids; by apply list_elem_of_further).
    specialize (IH Hids').
    pose proof (run_stopOnConnector_any st o id c Hget (Hident id c Hget))
      as Hstep.
    rewrite Hget. change (Some c ≫= ?f) with (f c). cbn beta.
    revert Hstep. destruct (transactionStarted c); intros Hstep.
    + revert Hstep. destruct (centralSystem o _); intros Hstep.
      * rewrite (run_bind _ _ _ _ _ Hstep).
        destruct (IH (o ++ [stopOf c])) as (n & Hsnd & Hfst).
        exists (S n). cbn [take map length]. split.
        -- rewrite Hsnd. by rewrite <- app_assoc.
        -- revert Hfst. destruct (fst _) as [[]|e]; intros Hfst;
             [by f_equal | destruct Hfst; split; [done | lia]].
      * rewrite (run_bind_abrupt _ _ _ _ _ Hstep).
        exists 1%nat. cbn [fst snd take map length]. split.
        -- by rewrite take_0.
        -- split; [reflexivity | lia].
    + rewrite (run_bind _ _ _ _ _ Hstep). apply IH.
Qed.

End ATGStopFailure.

(** X16. [ATG.stop] when the Central System may fail to answer. On a
    station with one entry per connector id whose running transactions
    are identified, what [stop] sends is the StopTransactions, with the
    given reason, of a prefix of the started connectors in enumeration
    order.  When it completes, the prefix is all of them and [timeToStop]
    is set.  Otherwise it has failed with the transport's error on the
    last StopTransaction it sent: no StopTransaction is sent for the
    started connectors after that one and [timeToStop] keeps its
    value. *)
Theorem stop_stops_a_prefix (centralSystem : CentralSystem)
    (reason : OCPP16StopTransactionReason.t)
    (atg : ATG.AutomaticTransactionGenerator) :
  let st := ATG.chargingStation atg in
  let result := ATG.stop centralSystem reason atg in
  let st' := ATG.chargingStation (snd result) in
  uniqueConnectorIds st -> transactionsIdentified st ->
  exists n,
    outbound st'
    = outbound st
      ++ map (fun c => (stopTransactionOf (Some reason) c, noOptions))
           (take n (startedConnectors st))
    /\ match fst result with
       | Normal _ =>
           n = length (startedConnectors st)
           /\ ATG.timeToStop (snd result) = true
       | Abrupt e =>
           e = RequestError
           /\ (0 < n <= length (startedConnectors st))%nat
           /\ ATG.timeToStop (snd result) = ATG.timeToStop atg
       end.
Proof.
  cbn zeta. intros Hunique Hident. set (st := ATG.chargingStation atg) in *.
  assert (Hst : st = set_outbound (outbound st) st) by (destruct st; reflexivity).
  destruct (run_stop_loop_any centralSystem reason st (Map_keys (connectors st))
              (fun id Hid => Map_get_keys _ id Hid) Hident (outbound st))
    as (n & Hsnd & Hfst).
  rewrite <- Hst in Hsnd, Hfst.
  assert (Hstarted :
    omap (fun id => c ← ATG.getConnector id st;
                    if transactionStarted c then Some c else None)
      (Map_keys (connectors st))
    = startedConnectors st).
  { unfold ATG.getConnector, getConnectorStatus, startedConnectors.
    rewrite (omap_keys_entries
               (fun c => if transactionStarted c then Some c else None)
               (connectors st) Hunique).
    clear. induction (connectors st) as [|[k c] m IH]; cbn; [reflexivity|].
    destruct (transactionStarted c); cbn; by rewrite IH. }
  rewrite Hstarted in Hsnd, Hfst. exists n. unfold ATG.stop. fold st.
  destruct (forEach _ _ st) as [[[]|e] st1]; cbn [fst snd] in *;
    cbn [ATG.chargingStation ATG.timeToStop]; subst st1;
    (split; [reflexivity|]).
  - split; [exact Hfst | reflexivity].
  - destruct Hfst as [He Hn]. split; [exact He|]. split; [exact Hn | reflexivity].
Qed.

Lemma stop_stops_a_prefix_witness :
  let atg := {| ATG.timeToStop := false;
                ATG.chargingStation := Sample.twoCharging |} in
  let result := ATG.stop (fun _ _ => None) OCPP16StopTransactionReason.NONE atg in
  let st' := ATG.chargingStation (snd result) in
  exists n,
    outbound st'
    = outbound Sample.twoCharging
      ++ map (fun c => (stopTransactionOf
                          (Some OCPP16StopTransactionReason.NONE) c, noOptions))
           (take n (startedConnectors Sample.twoCharging))
    /\ match fst result with
       | Normal _ =>
           n = length (startedConnectors Sample.twoCharging)
           /\ ATG.timeToStop (snd result) = true
       | Abrupt e =>
           e = RequestError
           /\ (0 < n <= length (startedConnectors Sample.twoCharging))%nat
           /\ ATG.timeToStop (snd result) = false
       end.
Proof.
  apply (stop_stops_a_prefix (fun _ _ => None) OCPP16StopTransactionReason.NONE
           {| ATG.timeToStop := false;
              ATG.chargingStation := Sample.twoCharging |}).
  - apply (bool_decide_unpack _). vm_compute. exact I.
  - intros id c Hget Hstarted. cbn in Hget.
    repeat (destruct (decide _) as [<-|_] in Hget;
            [injection Hget as <-;
             first [discriminate Hstarted | split; [eexists|]; reflexivity]|]).
    discriminate.
Defined.

(** ** The router: what a response frame tells *)

Section RouterResponse.

Context {Payload Response : Type}.
Variable handlers : gmap string (Payload -> M Response).

(** X17. The outcomes of the router. The router emits a response frame
    only when the registration state admits the command and the handler
    registered under the command name has completed normally; the frame
    carries the message id and command name of the request and that
    handler's response, and the station is as the handler left it.  When
    the router fails, either it has refused the request with
    SecurityError or NotImplemented and the station is untouched, or the
    registered handler has failed and its error is passed on, with the
    station as the handler left it, and no frame is emitted. *)
Theorem incomingRequestHandler_outcomes
    (messageId commandName : string) (commandPayload : Payload)
    (st : ChargingStation) :
  match incomingRequestHandler handlers messageId commandName commandPayload st
  with
  | (Normal frame, st') =>
      frame_messageId frame = messageId
      /\ frame_commandName frame = commandName
      /\ ~ pendingGate commandName st
      /\ acceptedState st
      /\ exists handler,
           handlers !! commandName = Some handler
           /\ handler commandPayload st = (Normal (frame_payload frame), st')
  | (Abrupt e, st') =>
      (st' = st
       /\ (e = OCPPError ErrorType.SECURITY_ERROR
           \/ e = OCPPError ErrorType.NOT_IMPLEMENTED))
      \/ exists handler,
           handlers !! commandName = Some handler
           /\ handler commandPayload st = (Abrupt e, st')
  end.
Proof.
  unfold incomingRequestHandler. rewrite !run_bind_gets.
  destruct (getOcppStrictCompliance st && isInPendingState st
            && (bool_decide _ || bool_decide _)) eqn:Hgate.
  { left. split; [reflexivity | by left]. }
  rewrite !run_bind_gets.
  destruct (isRegistered st || negb (getOcppStrictCompliance st)
                                && isInUnknownState st) eqn:Hstate.
  2:{ left. split; [reflexivity | by left]. }
  destruct (handlers !! commandName) as [handler|] eqn:Hhandler.
  2:{ left. split; [reflexivity | by right]. }
  unfold mbind, M_bind, bind, sendResponse.
  destruct (handler commandPayload st) as [[response|e] st'] eqn:Hrun.
  - cbn. split; [reflexivity|]. split; [reflexivity|]. split; [|split].
    + unfold pendingGate, isInPendingState in *.
      intros (Hstrict & Hpending & Hname). rewrite Hstrict, Hpending in Hgate.
      rewrite bool_decide_eq_true_2 in Hgate by reflexivity.
      destruct Hname as [Hname|Hname]; rewrite Hname in Hgate; cbn in Hgate.
      * discriminate.
      * rewrite orb_true_r in Hgate. discriminate.
    + unfold acceptedState, isRegistered, isInUnknownState in *.
      apply orb_true_iff in Hstate as [Hreg|Hunknown].
      * left. by apply bool_decide_eq_true_1 in Hreg.
      * right. apply andb_true_iff in Hunknown as [Hstrict Hunknown].
        apply negb_true_iff in Hstrict.
        by apply bool_decide_eq_true_1 in Hunknown.
    + exists handler. by split.
  - right. exists handler. by split.
Qed.

End RouterResponse.

(** ** RemoteStopTransaction: the two answers *)

Lemma Map_get_Some_keys {V} (m : list (Z * V)) id x :
  Map_get id m = Some x -> id ∈ Map_keys m.
Proof.
  unfold Map_keys. induction m as [|[k y] m IH]; cbn; [discriminate|].
  destruct (decide (k = id)) as [->|Hk].
  - intros _. apply list_elem_of_here.
  - intros H. apply list_elem_of_further. auto.
Qed.

(** X18. The two answers of RemoteStopTransaction, whatever the Central
    System answers. Whenever the handler answers Accepted, a connector
    with a positive id carried the transaction id, and what the handler
    has sent is the StatusNotification of Finishing for that connector,
    then the MeterValues sample of the end of the transaction where the
    station is configured to send one, then the StopTransaction of that
    transaction with the connector's register and idTag and without a
    reason.  Whenever it answers Rejected, no connector with a positive
    id carried the transaction id and the station is unchanged. *)
Theorem remoteStopTransaction_outcome (centralSystem : CentralSystem)
    (tid : Z) (st st' : ChargingStation) (r : DefaultResponse) :
  handleRequestRemoteStopTransaction centralSystem tid st = (Normal r, st') ->
  remoteStopOutcome tid st r st'.
Proof.
  apply (wp_run _ _ anyFailure).
  unfold handleRequestRemoteStopTransaction. apply wp_bind_gets.
  change (find _ (Map_keys (connectors st)))
    with (getConnectorIdByTransactionId (Some tid) st).
  destruct (getConnectorIdByTransactionId (Some tid) st) as [connectorId|]
    eqn:Hfind.
  - destruct (getConnectorIdByTransactionId_Some st (Some tid) connectorId Hfind)
      as (c & Hget & Hpos & Htid & Hregister & Htag).
    apply wp_bind_requestHandler; [|exact I]. intros _.
    apply wp_bind_updateConnectorStatus; [|intros; exact I]. intros c' _.
    set (st2 := set_connectors _ _).
    assert (Hconn : connectors st2
                    = Map_update connectorId
                        (set_status OCPP16ChargePointStatus.FINISHING)
                        (connectors st)) by reflexivity.
    assert (Hregister2 : getEnergyActiveImportRegisterByTransactionId (Some tid) st2
                         = Some (transactionEnergyActiveImportRegister c))
      by (rewrite (getEnergyActiveImportRegisterByTransactionId_set_status
                     st st2 _ _ _ Hconn); exact Hregister).
    assert (Htag2 : getTransactionIdTag (Some tid) st2 = transactionIdTag c)
      by (rewrite (getTransactionIdTag_set_status st st2 _ _ _ Hconn); exact Htag).
    apply wp_bind_gets.
    change (getBeginEndMeterValues st2 && getOcppStrictCompliance st2
            && negb (getOutOfOrderEndMeterValues st2))
      with (sendsTransactionEndMeterValue st).
    destruct (sendsTransactionEndMeterValue st) eqn:Hend; cbn [when].
    + apply wp_bind, wp_bind_gets. rewrite Hregister2.
      apply wp_bind_requestHandler; [|exact I]. intros _. apply wp_ret.
      set (st3 := set_outbound _ st2).
      apply wp_bind_gets, wp_bind_gets.
      change (getEnergyActiveImportRegisterByTransactionId (Some tid) st3)
        with (getEnergyActiveImportRegisterByTransactionId (Some tid) st2).
      change (getTransactionIdTag (Some tid) st3)
        with (getTransactionIdTag (Some tid) st2).
      rewrite Hregister2, Htag2.
      apply wp_bind_requestHandler; [|exact I]. intros _. apply wp_ret.
      exists connectorId, c. do 3 (split; [assumption|]).
      rewrite Hend. subst st3 st2. cbn [outbound set_outbound set_connectors].
      by rewrite <- ?app_assoc.
    + apply wp_bind, wp_ret.
      apply wp_bind_gets, wp_bind_gets. rewrite Hregister2, Htag2.
      apply wp_bind_requestHandler; [|exact I]. intros _. apply wp_ret.
      exists connectorId, c. do 3 (split; [assumption|]).
      rewrite Hend. subst st2. cbn [outbound set_outbound set_connectors].
      by rewrite <- ?app_assoc.
  - apply wp_ret. split; [reflexivity|]. intros connectorId c Hpos Hget Htid.
    unfold getConnectorIdByTransactionId in Hfind.
    pose proof (proj1 (find_None_iff _ _) Hfind connectorId
                  (Map_get_Some_keys _ _ _ Hget)) as Hp.
    cbn beta in Hp. rewrite Hget in Hp.
    rewrite (bool_decide_eq_true_2 _ Hpos) in Hp. cbn in Hp.
    apply bool_decide_eq_false_1 in Hp. contradiction.
Qed.

Lemma remoteStopTransaction_outcome_witness :
  remoteStopOutcome 5 Sample.busyStation OCPP_RESPONSE_ACCEPTED
    (snd (handleRequestRemoteStopTransaction Sample.acceptAll 5
            Sample.busyStation))
  /\ remoteStopOutcome 6 Sample.busyStation OCPP_RESPONSE_REJECTED
       (snd (handleRequestRemoteStopTransaction Sample.acceptAll 6
               Sample.busyStation)).
Proof.
  split.
  - apply (remoteStopTransaction_outcome Sample.acceptAll 5 Sample.busyStation).
    reflexivity.
  - apply (remoteStopTransaction_outcome Sample.acceptAll 6 Sample.busyStation).
    reflexivity.
Defined.
